(** * Sandbox service and OpenRouter client: a shallow embedding

    The development follows two source files of the repository:

    - [lib/openrouter.ts] — class [OpenRouterService]: [makeRequest] (retry
      loop on HTTP 429) and the wrappers that read
      [response.choices[0].message.content];
    - [lib/sandbox.ts] — class [SandboxService]: the simulation registry,
      [createSimulation], [generateCode], [testCode], [validateParameters].

    Asynchronous calls to the outside world (fetch, the E2B sandbox) are
    answered by explicit oracles; every such call is written to a trace, so
    that the number and the order of the calls can be stated.  A JavaScript
    [throw] (or a rejected promise) is the [Throws] case of [Outcome]. *)

From Stdlib Require Import ZArith QArith Qround List String Ascii Bool Lia.
From stdpp Require Import base strings gmap pretty.
Import ListNotations.

Local Open Scope string_scope.

(* ================================================================== *)
(** ** JavaScript values and string primitives used by the two files  *)
(* ================================================================== *)

Module Js.

(** What a [throw] carries.  [ErrorObj name message] is an instance of
    [Error] ([name] is ["Error"] for [new Error(..)], ["TypeError"] for
    the engine's own type errors); [NonError] is any other thrown value. *)
Inductive Thrown : Type :=
| ErrorObj (name message : string)
| NonError (v : string).

(** [new Error(message)] *)
Definition newError (message : string) : Thrown := ErrorObj "Error" message.

(** Reading property [prop] of [undefined] (V8's message text). *)
Definition undefinedRead (prop : string) : Thrown :=
  ErrorObj "TypeError"
    ("Cannot read properties of undefined (reading '" ++ prop ++ "')").

Definition errorName (e : Thrown) : option string :=
  match e with ErrorObj n _ => Some n | NonError _ => None end.

(** Completion of a call: a value, or an exception / rejected promise. *)
Inductive Outcome (A : Type) : Type :=
| Returns (a : A)
| Throws (e : Thrown).
Arguments Returns {A} a.
Arguments Throws {A} e.

(** *** Strings: sequences of code units below 256 *)

Definition newline : ascii := ascii_of_nat 10.

(** WhiteSpace and LineTerminator code units (TAB, LF, VT, FF, CR, SP,
    NBSP): what [String.prototype.trim] and [parseFloat] strip. *)
Definition isWhiteSpace (c : ascii) : bool :=
  let n := nat_of_ascii c in
  ((9 <=? n)%nat && (n <=? 13)%nat) || (n =? 32)%nat || (n =? 160)%nat.

Fixpoint trimStart (s : string) : string :=
  match s with
  | EmptyString => EmptyString
  | String c s' => if isWhiteSpace c then trimStart s' else s
  end.

Fixpoint trimEnd (s : string) : string :=
  match s with
  | EmptyString => EmptyString
  | String c s' =>
      match trimEnd s' with
      | EmptyString => if isWhiteSpace c then EmptyString else String c EmptyString
      | t => String c t
      end
  end.

(** [s.trim()] *)
Definition trim (s : string) : string := trimEnd (trimStart s).

(** [s.split(sep)] for a one-character separator: always at least one
    piece; an empty string gives one empty piece. *)
Fixpoint split (sep : ascii) (s : string) : list string :=
  match s with
  | EmptyString => [EmptyString]
  | String c s' =>
      if Ascii.eqb c sep then EmptyString :: split sep s'
      else match split sep s' with
           | h :: t => String c h :: t
           | [] => [String c EmptyString]
           end
  end.

Definition lowerChar (c : ascii) : ascii :=
  let n := nat_of_ascii c in
  if ((65 <=? n)%nat && (n <=? 90)%nat)
     || ((192 <=? n)%nat && (n <=? 222)%nat && negb (n =? 215)%nat)
  then ascii_of_nat (n + 32) else c.

(** [s.toLowerCase()] *)
Fixpoint toLowerCase (s : string) : string :=
  match s with
  | EmptyString => EmptyString
  | String c s' => String (lowerChar c) (toLowerCase s')
  end.

(** [s.includes(sub)] *)
Fixpoint includes (s sub : string) : bool :=
  if String.prefix sub s then true
  else match s with
       | EmptyString => false
       | String _ s' => includes s' sub
       end.

(** [s.endsWith(suffix)] *)
Fixpoint endsWith (s suffix : string) : bool :=
  if String.eqb s suffix then true
  else match s with
       | EmptyString => false
       | String _ s' => endsWith s' suffix
       end.

Fixpoint dropChars (n : nat) (s : string) : string :=
  match n, s with
  | O, _ => s
  | S _, EmptyString => EmptyString
  | S n', String _ s' => dropChars n' s'
  end.

(** [s.replace(pattern, replacement)] with a string pattern: only the
    first occurrence is replaced. *)
Fixpoint replace (s pattern replacement : string) : string :=
  if String.prefix pattern s
  then replacement ++ dropChars (String.length pattern) s
  else match s with
       | EmptyString => EmptyString
       | String c s' => String c (replace s' pattern replacement)
       end.

(** [!s] for a property that is a string or absent ([undefined]). *)
Definition falsyString (o : option string) : bool :=
  match o with
  | None => true
  | Some s => String.eqb s ""
  end.

(** *** Numbers

    A number is NaN, an infinity or a finite value.  Every finite double is
    a rational, so quantifying over [Finite q] covers every finite double;
    the source only compares numbers, for which [-0] and [0] agree. *)
Inductive JsNumber : Type :=
| NaN
| Infinity (negative : bool)
| Finite (q : Q).

Definition ofZ (z : Z) : JsNumber := Finite (inject_Z z).

(** [a < b] *)
Definition lt (a b : JsNumber) : bool :=
  match a, b with
  | NaN, _ | _, NaN => false
  | Infinity na, Infinity nb => na && negb nb
  | Infinity na, Finite _ => na
  | Finite _, Infinity nb => negb nb
  | Finite p, Finite q => negb (Qle_bool q p)
  end.

(** [a > b] *)
Definition gt (a b : JsNumber) : bool := lt b a.

(** [a <= b] *)
Definition le (a b : JsNumber) : bool :=
  match a, b with
  | NaN, _ | _, NaN => false
  | Infinity na, Infinity nb => na || negb nb
  | Infinity na, Finite _ => na
  | Finite _, Infinity nb => negb nb
  | Finite p, Finite q => Qle_bool p q
  end.

(** ToNumber of a property that is a number or absent: [undefined] is NaN. *)
Definition toNumber (o : option JsNumber) : JsNumber :=
  match o with Some n => n | None => NaN end.

(** *** [parseFloat]

    The longest prefix of the trimmed string that is a StrDecimalLiteral:
    an optional sign, then [Infinity] or decimal digits with an optional
    fraction and an optional complete exponent part. *)

Definition digitValue (c : ascii) : option Z :=
  let n := nat_of_ascii c in
  if (48 <=? n)%nat && (n <=? 57)%nat then Some (Z.of_nat (n - 48)) else None.

(** Longest run of digits of [s], accumulated onto [acc]: the value, the
    number of digits read, the rest of the string. *)
Fixpoint readDigits (s : string) (acc : Z) (count : nat) : Z * nat * string :=
  match s with
  | EmptyString => (acc, count, s)
  | String c s' =>
      match digitValue c with
      | Some d => readDigits s' (10 * acc + d)%Z (S count)
      | None => (acc, count, s)
      end
  end.

Definition readSign (s : string) : bool * string :=
  match s with
  | String "+" t => (false, t)
  | String "-" t => (true, t)
  | _ => (false, s)
  end.

(** ExponentPart at the head of [s]; 0 when absent or without digits. *)
Definition readExponent (s : string) : Z :=
  match s with
  | String c s' =>
      if Ascii.eqb c "e" || Ascii.eqb c "E" then
        let '(neg, s'') := readSign s' in
        let '(v, n, _) := readDigits s'' 0%Z 0%nat in
        if (n =? 0)%nat then 0%Z else if neg then (- v)%Z else v
      else 0%Z
  | EmptyString => 0%Z
  end.

(** Unsigned decimal literal at the head of [s] as mantissa and decimal
    exponent (value [m * 10^e]); [None] when no digit is there. *)
Definition readDecimal (s : string) : option (Z * Z) :=
  let '(ip, ni, r1) := readDigits s 0%Z 0%nat in
  match r1 with
  | String "." r2 =>
      let '(m, nf, r3) := readDigits r2 ip 0%nat in
      if (ni =? 0)%nat && (nf =? 0)%nat then None
      else Some (m, (readExponent r3 - Z.of_nat nf)%Z)
  | _ => if (ni =? 0)%nat then None else Some (ip, readExponent r1)
  end.

Definition decimalValue (m e : Z) : Q :=
  if (0 <=? e)%Z then inject_Z (m * 10 ^ e)
  else Qmake m (Z.to_pos (10 ^ (- e))).

(** A non-negative decimal as a double, as far as comparisons need it: at
    most [2^-1075] rounds to zero, at least [2^1024 - 2^970] rounds to
    infinity; in between the value is kept unrounded (rounding to the
    nearest double moves it across neither bound nor zero). *)
Definition roundMagnitude (q : Q) : JsNumber :=
  if Qle_bool q (Qmake 1 (2 ^ 1075)) then Finite 0
  else if Qle_bool (inject_Z (2 ^ 1024 - 2 ^ 970)) q then Infinity false
  else Finite q.

Definition negate (n : JsNumber) : JsNumber :=
  match n with
  | NaN => NaN
  | Infinity b => Infinity (negb b)
  | Finite q => Finite (Qopp q)
  end.

(** *** Integers as Numbers

    The Number nearest to the integer [z]: up to 53 bits the integer
    itself; beyond, the low [e] bits are rounded away, to the nearest
    multiple of [2^e] and to the even one on a tie, and a result of
    [2^1024] or more is an infinity. *)
Definition nearestNumber (z : Z) : JsNumber :=
  let m := Z.abs z in
  let e := (Z.log2 m - 52)%Z in
  if (e <=? 0)%Z then ofZ z
  else
    let q := (m / 2 ^ e)%Z in
    let r := (m mod 2 ^ e)%Z in
    let up := (2 ^ (e - 1) <? r)%Z || ((2 ^ (e - 1) =? r)%Z && Z.odd q) in
    let v := ((if up then q + 1 else q) * 2 ^ e)%Z in
    if (2 ^ 1024 <=? v)%Z then Infinity (z <? 0)%Z
    else ofZ (Z.sgn z * v).

(** [Math.pow(2, i)] for a counter [i] that starts at 0 and goes up by
    one: a power of two is a double up to [2^1023]. *)
Definition powerOfTwo (i : Z) : JsNumber :=
  if (i <=? 1023)%Z then ofZ (2 ^ i) else Infinity false.

(** [x * 1000] for an [x] that is NaN, an infinity or an integer, which
    is all that [parseInt] and [powerOfTwo] give: the product of an
    integer is an integer, rounded once. *)
Definition timesThousand (x : JsNumber) : JsNumber :=
  match x with
  | NaN => NaN
  | Infinity b => Infinity b
  | Finite q => nearestNumber (Qfloor (Qmult q (inject_Z 1000)))
  end.

Definition parseFloat (s : string) : JsNumber :=
  let '(neg, t) := readSign (trimStart s) in
  let magnitude :=
    if String.prefix "Infinity" t then Infinity false
    else match readDecimal t with
         | Some (m, e) => roundMagnitude (decimalValue m e)
         | None => NaN
         end in
  if neg then negate magnitude else magnitude.

End Js.

(* ================================================================== *)
(** ** Shared types ([@/types])                                         *)
(* ================================================================== *)

Module Types.

(** Modelled from the spec: the declarations of [TokenParameters],
    [PoolParameters] and [VaultParameters] in [@/types] are not among the
    sources.  A parameters object is read by property name (the service
    takes it as [any]); each property the code reads is present with its
    declared type or absent ([None], JavaScript's [undefined]). *)
Record Parameters : Type := {
  p_name : option string;
  p_symbol : option string;
  p_decimals : option Js.JsNumber;
  p_totalSupply : option string;
  p_iconUri : option string;
  p_projectUri : option string;
  p_tokenA : option string;
  p_tokenB : option string;
  p_fee : option Js.JsNumber;
  p_initialLiquidityA : option string;
  p_initialLiquidityB : option string;
  p_token : option string;
  p_strategy : option string;
  p_minDeposit : option string;
}.

(** The object with no property at all. *)
Definition emptyParameters : Parameters :=
  {| p_name := None; p_symbol := None; p_decimals := None;
     p_totalSupply := None; p_iconUri := None; p_projectUri := None;
     p_tokenA := None; p_tokenB := None; p_fee := None;
     p_initialLiquidityA := None; p_initialLiquidityB := None;
     p_token := None; p_strategy := None; p_minDeposit := None |}.

(** Modelled from the spec: [OpenRouterMessage] and [OpenRouterResponse] of
    [@/types]; a response is a list of choices, each with a message. *)
Record OpenRouterMessage : Type := {
  role : string;
  content : string;
}.

Record Choice : Type := { message : OpenRouterMessage }.

Record OpenRouterResponse : Type := { choices : list Choice }.

(** Modelled from the spec: the status union of [SandboxSimulation].  The
    spec lists five states; the service files only ever write ['pending'],
    ['compiling'], ['success'] and ['error']. *)
Inductive Status : Type :=
| st_pending | st_generating | st_compiling | st_success | st_error.

(** The [result] object the service writes; the three last fields are
    absent in the object literal of the [catch] branches. *)
Record SimulationResult : Type := {
  r_success : bool;
  r_errors : list string;
  r_warnings : option (list string);
  r_gasEstimate : option string;
  r_aiAnalysis : option string;
}.

(** Modelled from the spec: [SandboxSimulation] of [@/types], with the
    properties the service and its callers use.  [executionCount] is read
    by the user interface through [(simulation as any).executionCount]; it
    is absent ([None]) unless something wrote it. *)
Record SandboxSimulation : Type := {
  id : string;
  type : string;
  parameters : Parameters;
  code : string;
  status : Status;
  createdAt : Z;
  result : option SimulationResult;
  executionCount : option Z;
}.

Definition set_status (st : Status) (s : SandboxSimulation) : SandboxSimulation :=
  {| id := id s; type := type s; parameters := parameters s; code := code s;
     status := st; createdAt := createdAt s; result := result s;
     executionCount := executionCount s |}.

Definition set_code (c : string) (s : SandboxSimulation) : SandboxSimulation :=
  {| id := id s; type := type s; parameters := parameters s; code := c;
     status := status s; createdAt := createdAt s; result := result s;
     executionCount := executionCount s |}.

Definition set_result (r : SimulationResult) (s : SandboxSimulation) : SandboxSimulation :=
  {| id := id s; type := type s; parameters := parameters s; code := code s;
     status := status s; createdAt := createdAt s; result := Some r;
     executionCount := executionCount s |}.

End Types.

(* ================================================================== *)
(** ** The outside world: oracles and the trace of calls                *)
(* ================================================================== *)

Module World.
Import Js Types.

(** One entry per call that leaves the process. *)
Inductive Event : Type :=
| Fetch (model : string) (messages : list OpenRouterMessage)
| Sleep (ms : JsNumber)
| SandboxCreate
| ProcessStart (cmd : string) (cwd : option string)
| ProcessWait
| FsWrite (path content : string)
| FsMakeDir (path : string)
| SandboxClose.

(** A computation that talks to the world: the calls made, in order, and
    how it completed. *)
Definition Run (A : Type) : Type := list Event * Outcome A.

Definition ret {A} (a : A) : Run A := ([], Returns a).
Definition throw {A} (e : Thrown) : Run A := ([], Throws e).

(** An awaited external call: logged, then its answer. *)
Definition call {A} (ev : Event) (answer : Outcome A) : Run A := ([ev], answer).

Definition bind {A B} (m : Run A) (f : A -> Run B) : Run B :=
  match m with
  | (t, Returns a) => let '(t', r) := f a in ((t ++ t')%list, r)
  | (t, Throws e) => (t, Throws e)
  end.

Definition isFetch (ev : Event) : bool :=
  match ev with Fetch _ _ => true | _ => false end.

Definition isClose (ev : Event) : bool :=
  match ev with SandboxClose => true | _ => false end.

(** Number of HTTP requests in a trace. *)
Definition fetchCount (t : list Event) : nat := length (List.filter isFetch t).

(** Number of sandbox teardowns in a trace. *)
Definition closeCount (t : list Event) : nat := length (List.filter isClose t).

Definition isCreate (ev : Event) : bool :=
  match ev with SandboxCreate => true | _ => false end.

(** Number of [Sandbox.create] calls in a trace. *)
Definition createCount (t : list Event) : nat := length (List.filter isCreate t).

(** What [fetch] resolves to. *)
Record HttpResponse : Type := {
  http_status : Z;
  http_statusText : string;
  retryAfter : option string;          (* headers.get('Retry-After') *)
  json : Outcome OpenRouterResponse;   (* response.json() *)
}.

(** [response.ok] *)
Definition http_ok (r : HttpResponse) : bool :=
  (200 <=? http_status r)%Z && (http_status r <=? 299)%Z.

(** The remote endpoint as seen by one call of [makeRequest]: the answer
    to its k-th [fetch] (k from 0); [Throws] is a network failure. *)
Definition Network : Type := nat -> Outcome HttpResponse.

(** Process output of the E2B SDK. *)
Record ProcessOutput : Type := {
  exitCode : Z;
  stdout : string;
  stderr : string;
}.

(** The sandbox provider as seen by one call of [testCode]: the
    environment variable and the answer to each awaited call, in the
    order the source makes them. *)
Record SandboxEnv : Type := {
  E2B_API_KEY : option string;
  env_create : Outcome unit;
  env_installStart : Outcome unit;
  env_installWait : Outcome ProcessOutput;
  env_writeManifest : Outcome unit;
  env_makeDir : Outcome unit;
  env_writeSource : Outcome unit;
  env_compileStart : Outcome unit;
  env_compileWait : Outcome ProcessOutput;
  env_close : Outcome unit;
}.

End World.

Notation "'await' x <- m 'in' k" := (World.bind m (fun x => k))
  (at level 10, x name, m at level 200, k at level 200, only parsing).

(* ================================================================== *)
(** ** [lib/openrouter.ts]                                              *)
(* ================================================================== *)

Module OpenRouter.
Import Js Types World.

Record OpenRouterService : Type := {
  apiKey : string;
  baseURL : string;
}.

(** The prompt texts are template literals of the source; they are taken
    as given, together with [JSON.stringify] on a parameters object.  The
    system prompts of the three generators interpolate fields of the
    parameters. *)
Record PromptTemplates : Type := {
  chatSystemPrompt : string;
  tokenSystemPrompt : Parameters -> string;
  poolSystemPrompt : Parameters -> string;
  vaultSystemPrompt : Parameters -> string;
  analyzeSystemPrompt : string;
  JSON_stringify : Parameters -> string;
}.

Definition defaultModel : string := "qwen/qwen-2.5-coder-32b-instruct".
Definition defaultRetries : Z := 2.

(** The integer that [parseInt(s, 10)] reads: white space is skipped,
    then an optional sign and the longest run of decimal digits; [None]
    when no digit is there. *)
Definition integerPrefix (s : string) : option Z :=
  let '(neg, t) := readSign (trimStart s) in
  let '(v, n, _) := readDigits t 0%Z 0%nat in
  if (n =? 0)%nat then None else Some (if neg then (- v)%Z else v).

(** [parseInt(s, 10)]: the Number nearest to the integer read, NaN when
    there is none.  (Beyond twenty significant digits the language
    allows an engine to approximate; V8 rounds the exact integer.) *)
Definition parseInt10 (s : string) : JsNumber :=
  match integerPrefix s with
  | Some z => nearestNumber z
  | None => NaN
  end.

(** The delay before the next attempt, in milliseconds:
    [retryAfter ? parseInt(retryAfter, 10) * 1000 : Math.pow(2, i) * 1000]. *)
Definition retryDelay (header : option string) (i : Z) : JsNumber :=
  match header with
  | Some s =>
      if String.eqb s "" then timesThousand (powerOfTwo i)
      else timesThousand (parseInt10 s)
  | None => timesThousand (powerOfTwo i)
  end.

Section MakeRequest.
Variable net : Network.
Variable messages : list OpenRouterMessage.
Variable retries : Z.

(** [throw lastError || new Error(..)] after the loop. *)
Definition afterLoop (lastError : option Thrown) : Run OpenRouterResponse :=
  throw (match lastError with
         | Some e => e
         | None => newError "OpenRouter API error: request failed after retries"
         end).

(** The [for (let i = 0; i <= retries; i++)] loop from iteration [i] on;
    [fuel] bounds the iterations left.  The counter and the budget are
    integers; those of the source are exact up to [2^53]. *)
Fixpoint requestLoop (fuel : nat) (i : Z) (model : string)
    (lastError : option Thrown) : Run OpenRouterResponse :=
  match fuel with
  | O => afterLoop lastError
  | S fuel' =>
      if negb (i <=? retries)%Z then afterLoop lastError
      else
        await response <- call (Fetch model messages) (net (Z.to_nat i)) in
        if (http_status response =? 429)%Z then
          let delay := retryDelay (retryAfter response) i in
          let model' :=
            if endsWith model ":free" then replace model ":free" "" else model in
          if (i =? retries)%Z then
            throw (newError "OpenRouter API error: too many retries after 429")
          else
            await _ <- call (Sleep delay) (Returns tt) in
            requestLoop fuel' (i + 1)%Z model'
              (Some (newError "429 Too Many Requests"))
        else if negb (http_ok response) then
          throw (newError ("OpenRouter API error: "
                           ++ pretty (http_status response) ++ " "
                           ++ http_statusText response))
        else
          ([], json response)
  end.

End MakeRequest.

Definition makeRequest (this : OpenRouterService) (net : Network)
    (messages : list OpenRouterMessage) (model : string) (retries : Z)
    : Run OpenRouterResponse :=
  if String.eqb (apiKey this) "" then
    throw (newError "OpenRouter API key not configured")
  else
    requestLoop net messages retries (Z.to_nat (retries + 1)) 0%Z model None.

(** [response.choices[0].message.content]: [choices[0]] of an empty array
    is [undefined], and reading [.message] of it throws a TypeError. *)
Definition firstChoiceContent (response : OpenRouterResponse) : Outcome string :=
  match choices response with
  | c :: _ => Returns (content (message c))
  | [] => Throws (undefinedRead "message")
  end.

Definition system (text : string) : OpenRouterMessage :=
  {| role := "system"; content := text |}.
Definition user (text : string) : OpenRouterMessage :=
  {| role := "user"; content := text |}.

Section Wrappers.
Variable T : PromptTemplates.
Variable this : OpenRouterService.
Variable net : Network.

(** The common tail of every wrapper: one [makeRequest] with the default
    model and retry budget, then the first choice. *)
Definition ask (messages : list OpenRouterMessage) : Run string :=
  await response <- makeRequest this net messages defaultModel defaultRetries in
  ([], firstChoiceContent response).

Definition chatWithAssistant (userMessage : string)
    (conversationHistory : list OpenRouterMessage) : Run string :=
  ask (system (chatSystemPrompt T)
       :: (conversationHistory ++ [user userMessage])%list).

Definition generateTokenCode (parameters : Parameters) : Run string :=
  ask [ system (tokenSystemPrompt T parameters);
        user ("Generate Move code for token creation with these parameters: "
              ++ JSON_stringify T parameters) ].

Definition generatePoolCode (parameters : Parameters) : Run string :=
  ask [ system (poolSystemPrompt T parameters);
        user ("Generate liquidity pool code: " ++ JSON_stringify T parameters) ].

Definition generateVaultCode (parameters : Parameters) : Run string :=
  ask [ system (vaultSystemPrompt T parameters);
        user ("Generate yield vault code: " ++ JSON_stringify T parameters) ].

Definition analyzeCode (code type : string) : Run string :=
  ask [ system (analyzeSystemPrompt T);
        user ("Please analyze this " ++ type ++ " creation code:"
              ++ String newline (String newline code)) ].

End Wrappers.

End OpenRouter.

(* ================================================================== *)
(** ** [lib/sandbox.ts]                                                 *)
(* ================================================================== *)

Module Sandbox.
Import Js Types World OpenRouter.

(** [private simulations: Map<string, SandboxSimulation>].  The map holds
    references: an assignment to a property of a simulation obtained by
    [get] is visible through the map at once.  The embedding keeps the
    objects in the map and writes such an assignment as an update of the
    entry under the simulation's key. *)
Abbreviation Registry := (gmap string SandboxSimulation).

(** A double quote, for the string literals of the source that contain one. *)
Definition dq : string := String (ascii_of_nat 34) EmptyString.
Definition nl : string := String newline EmptyString.

(** [createSimulation].  [now] is [Date.now()], [rnd] is
    [Math.random().toString(36).substr(2, 9)], [date] is [new Date()]. *)
Definition createSimulation (sims : Registry) (now : Z) (rnd : string) (date : Z)
    (type : string) (parameters : Parameters) : SandboxSimulation * Registry :=
  let simulationId := "sim_" ++ pretty now ++ "_" ++ rnd in
  let simulation :=
    {| id := simulationId; type := type; parameters := parameters;
       code := ""; status := st_pending; createdAt := date;
       result := None; executionCount := None |} in
  (simulation, <[simulationId := simulation]> sims).

(** [error instanceof Error ? error.message : fallback] *)
Definition messageOr (fallback : string) (e : Thrown) : string :=
  match e with
  | ErrorObj _ message => message
  | NonError _ => fallback
  end.

(** The object literal [{ success: false, errors: [..] }] of both [catch]
    branches. *)
Definition failureResult (message : string) : SimulationResult :=
  {| r_success := false; r_errors := [message]; r_warnings := None;
     r_gasEstimate := None; r_aiAnalysis := None |}.

(** [generateCode] up to its first suspension: the lookup and the first
    assignment to [status]. *)
Definition generateCode_begin (sims : Registry) (simulationId : string)
    : Outcome (SandboxSimulation * Registry) :=
  match sims !! simulationId with
  | None => Throws (newError "Simulation not found")
  | Some simulation =>
      let simulation := set_status st_compiling simulation in
      Returns (simulation, <[simulationId := simulation]> sims)
  end.

(** [generateCode]: the calls made and the completion, with the registry
    as the call leaves it. *)
Definition generateCode (T : PromptTemplates) (openRouterService : OpenRouterService)
    (net : Network) (sims : Registry) (simulationId : string)
    : Run string * Registry :=
  match generateCode_begin sims simulationId with
  | Throws e => (throw e, sims)
  | Returns (simulation, sims) =>
      let attempt : Run string :=
        if String.eqb (type simulation) "token" then
          generateTokenCode T openRouterService net (parameters simulation)
        else if String.eqb (type simulation) "pool" then
          generatePoolCode T openRouterService net (parameters simulation)
        else if String.eqb (type simulation) "vault" then
          generateVaultCode T openRouterService net (parameters simulation)
        else throw (newError "Invalid simulation type") in
      match attempt with
      | (t, Returns code) =>
          ((t, Returns code), <[simulationId := set_code code simulation]> sims)
      | (t, Throws e) =>
          let simulation := set_status st_error simulation in
          let simulation :=
            set_result (failureResult (messageOr "Unknown error occurred" e))
                       simulation in
          ((t, Throws e), <[simulationId := simulation]> sims)
      end
  end.

Definition installCommand : string :=
  "curl -fsSL " ++ dq ++ "https://aptos.dev/scripts/install_cli.py" ++ dq
  ++ " | python3".

Definition aptosCliPath : string := "/root/.local/bin/aptos".

Definition moveTomlContent : string :=
  nl ++ "[package]" ++ nl
  ++ "name = " ++ dq ++ "SandboxProject" ++ dq ++ nl
  ++ "version = " ++ dq ++ "1.0.0" ++ dq ++ nl
  ++ "authors = []" ++ nl
  ++ nl
  ++ "[addresses]" ++ nl
  ++ "ProjectAddress = " ++ dq ++ "0x1" ++ dq ++ nl.

(** [line.trim() !== ''] *)
Definition notBlank (line : string) : bool := negb (String.eqb (trim line) "").

(** The three [const] of [testCode] computed from the compiler's output:
    [success], [errors], [warnings]. *)
Definition compileVerdict (output : ProcessOutput)
    : bool * list string * list string :=
  let success := (exitCode output =? 0)%Z in
  let errors :=
    if negb success
    then List.filter notBlank (split newline (stderr output))
    else [] in
  let warnings :=
    if success
    then List.filter (fun line => notBlank line
                             && includes (toLowerCase line) "warning")
                (split newline (stdout output))
    else [] in
  (success, errors, warnings).

(** The head of the [try] block: the key check and [Sandbox.create];
    [sandbox] is assigned exactly when this returns. *)
Definition provision (env : SandboxEnv) : Run unit :=
  if falsyString (E2B_API_KEY env) then
    throw (newError "E2B_API_KEY is not set in environment variables.")
  else call SandboxCreate (env_create env).

(** The rest of the [try] block, run with [sandbox] assigned; the value is
    the object assigned to [simulation.result]. *)
Definition compileInSandbox (T : PromptTemplates)
    (openRouterService : OpenRouterService) (net : Network) (env : SandboxEnv)
    (simulation : SandboxSimulation) : Run SimulationResult :=
  await _ <- call (ProcessStart installCommand None) (env_installStart env) in
  await _ <- call ProcessWait (env_installWait env) in
  await _ <- call (FsWrite "/home/user/Move.toml" moveTomlContent)
                  (env_writeManifest env) in
  await _ <- call (FsMakeDir "/home/user/sources") (env_makeDir env) in
  await _ <- call (FsWrite "/home/user/sources/main.move" (code simulation))
                  (env_writeSource env) in
  await _ <- call (ProcessStart (aptosCliPath ++ " move compile")
                                (Some "/home/user"))
                  (env_compileStart env) in
  await output <- call ProcessWait (env_compileWait env) in
  let '(success, errors, warnings) := compileVerdict output in
  await aiAnalysis <- analyzeCode T openRouterService net
                        (code simulation) (type simulation) in
  ret {| r_success := success; r_errors := errors;
         r_warnings := Some warnings;
         r_gasEstimate := Some "Compilation check only";
         r_aiAnalysis := Some aiAnalysis |}.

(** [testCode]: the calls made and the completion, with the registry as
    the call leaves it. *)
Definition testCode (T : PromptTemplates) (openRouterService : OpenRouterService)
    (net : Network) (env : SandboxEnv) (sims : Registry) (simulationId : string)
    : Run SandboxSimulation * Registry :=
  match sims !! simulationId with
  | None => (throw (newError "Simulation not found"), sims)
  | Some simulation =>
      if String.eqb (code simulation) "" then
        (throw (newError "No code generated for simulation"), sims)
      else
        let simulation := set_status st_compiling simulation in
        let sims := <[simulationId := simulation]> sims in
        (* try *)
        let '(t1, provisioned) := provision env in
        let '(t2, attempt) :=
          match provisioned with
          | Returns _ =>
              compileInSandbox T openRouterService net env simulation
          | Throws e => ([], Throws e)
          end in
        let simulation :=
          match attempt with
          | Returns r =>
              let simulation := set_result r simulation in
              set_status (if r_success r then st_success else st_error) simulation
          | Throws e =>
              (* catch *)
              let simulation := set_status st_error simulation in
              set_result
                (failureResult
                   (messageOr
                      "An unknown error occurred during sandbox execution." e))
                simulation
          end in
        (* finally: if (sandbox) await sandbox.close() *)
        let '(t3, closed) :=
          match provisioned with
          | Returns _ => call SandboxClose (env_close env)
          | Throws _ => ret tt
          end in
        let sims := <[simulationId := simulation]> sims in
        (((t1 ++ t2 ++ t3)%list,
          match closed with
          | Returns _ => Returns simulation
          | Throws e => Throws e
          end),
         sims)
  end.

Definition getSimulation (sims : Registry) (simulationId : string)
    : option SandboxSimulation := sims !! simulationId.

(** [Array.from(this.simulations.values())]: the stored simulations.  A
    JavaScript [Map] lists them in insertion order, which the registry
    does not record; the list here is in the order of the keys, and the
    statements use its members and its length only. *)
Definition getAllSimulations (sims : Registry) : list SandboxSimulation :=
  snd <$> map_to_list sims.

Definition deleteSimulation (sims : Registry) (simulationId : string)
    : bool * Registry :=
  (bool_decide (is_Some (sims !! simulationId)), delete simulationId sims).

Definition clearAllSimulations (sims : Registry) : Registry := ∅.

(** *** [validateParameters] *)

Record Validation : Type := {
  valid : bool;
  errors : list string;
}.

(** [errors.push(message)] under [if (test)] *)
Definition pushIf (test : bool) (message : string) (errors : list string)
    : list string :=
  if test then (errors ++ [message])%list else errors.

(** [s.length]; read by the source only behind [!s ||], that is for a
    string that is present and not empty. *)
Definition lengthOf (o : option string) : Z :=
  match o with
  | Some s => Z.of_nat (String.length s)
  | None => 0%Z
  end.

(** [a === b] on properties that are strings or absent. *)
Definition strictEq (a b : option string) : bool :=
  match a, b with
  | None, None => true
  | Some x, Some y => String.eqb x y
  | _, _ => false
  end.

(** [!s || parseFloat(s) <= 0] *)
Definition notPositive (o : option string) : bool :=
  match o with
  | None => true
  | Some s => String.eqb s "" || le (parseFloat s) (ofZ 0)
  end.

(** [n < lo || n > hi] *)
Definition outside (o : option JsNumber) (lo hi : Z) : bool :=
  lt (toNumber o) (ofZ lo) || gt (toNumber o) (ofZ hi).

Definition validateParameters (type : string) (parameters : Parameters)
    : Validation :=
  let errors : list string := [] in
  let errors :=
    if String.eqb type "token" then
      let tokenParams := parameters in
      let errors :=
        pushIf (falsyString (p_name tokenParams)
                || (lengthOf (p_name tokenParams) <? 1)%Z)
               "Token name is required" errors in
      let errors :=
        pushIf (falsyString (p_symbol tokenParams)
                || (lengthOf (p_symbol tokenParams) <? 1)%Z
                || (10 <? lengthOf (p_symbol tokenParams))%Z)
               "Token symbol must be 1-10 characters" errors in
      let errors :=
        pushIf (outside (p_decimals tokenParams) 0 18)
               "Decimals must be between 0 and 18" errors in
      let errors :=
        pushIf (notPositive (p_totalSupply tokenParams))
               "Total supply must be greater than 0" errors in
      errors
    else if String.eqb type "pool" then
      let poolParams := parameters in
      let errors :=
        pushIf (falsyString (p_name poolParams)
                || (lengthOf (p_name poolParams) <? 1)%Z)
               "Pool name is required" errors in
      let errors :=
        pushIf (falsyString (p_tokenA poolParams)
                || falsyString (p_tokenB poolParams))
               "Both tokens are required" errors in
      let errors :=
        pushIf (strictEq (p_tokenA poolParams) (p_tokenB poolParams))
               "Token A and Token B must be different" errors in
      let errors :=
        pushIf (outside (p_fee poolParams) 0 100)
               "Fee must be between 0 and 100" errors in
      let errors :=
        pushIf (notPositive (p_initialLiquidityA poolParams))
               "Initial liquidity A must be greater than 0" errors in
      let errors :=
        pushIf (notPositive (p_initialLiquidityB poolParams))
               "Initial liquidity B must be greater than 0" errors in
      errors
    else if String.eqb type "vault" then
      let vaultParams := parameters in
      let errors :=
        pushIf (falsyString (p_name vaultParams)
                || (lengthOf (p_name vaultParams) <? 1)%Z)
               "Vault name is required" errors in
      let errors :=
        pushIf (falsyString (p_token vaultParams))
               "Token is required" errors in
      let errors :=
        pushIf (falsyString (p_strategy vaultParams)
                || (lengthOf (p_strategy vaultParams) <? 1)%Z)
               "Strategy is required" errors in
      let errors :=
        pushIf (outside (p_fee vaultParams) 0 100)
               "Fee must be between 0 and 100" errors in
      let errors :=
        pushIf (notPositive (p_minDeposit vaultParams))
               "Minimum deposit must be greater than 0" errors in
      errors
    else errors in
  {| valid := (length errors =? 0)%nat; errors := errors |}.

End Sandbox.

(* ================================================================== *)
(** ** Vocabulary of the statements, and the scenarios they are run on  *)
(* ================================================================== *)

Module Scenario.
Import Js Types World OpenRouter Sandbox.

(** The k-th attempt is answered with the rate-limit signal (HTTP 429). *)
Definition rateLimitedAt (net : Network) (k : nat) : Prop :=
  exists response, net k = Returns response /\ http_status response = 429%Z.

(** The k-th attempt is answered with a 2xx response whose body parses
    to [body]. *)
Definition succeedsAt (net : Network) (k : nat) (body : OpenRouterResponse)
    : Prop :=
  exists response,
    net k = Returns response /\ http_ok response = true
    /\ json response = Returns body.

(** The error thrown when the last permitted attempt is rate-limited. *)
Definition tooManyRetries : Thrown :=
  newError "OpenRouter API error: too many retries after 429".

(** The [try] block of [testCode] as a whole: how it completes. *)
Definition tryOutcome (T : PromptTemplates) (openRouterService : OpenRouterService)
    (net : Network) (env : SandboxEnv) (simulation : SandboxSimulation)
    : Outcome SimulationResult :=
  snd (bind (provision env)
         (fun _ => compileInSandbox T openRouterService net env simulation)).

(** The simulation as the end of the [try] block or the [catch] block
    leaves it. *)
Definition settled (simulation : SandboxSimulation)
    (attempt : Outcome SimulationResult) : SandboxSimulation :=
  match attempt with
  | Returns r =>
      set_status (if r_success r then st_success else st_error)
                 (set_result r simulation)
  | Throws e =>
      set_result
        (failureResult
           (messageOr "An unknown error occurred during sandbox execution." e))
        (set_status st_error simulation)
  end.

(** A call of [testCode] gets as far as assigning [sandbox]: the
    simulation exists and has code, the key is set and [Sandbox.create]
    resolves. *)
Definition environmentProvisioned (env : SandboxEnv) (sims : Registry)
    (simulationId : string) : bool :=
  match sims !! simulationId with
  | Some simulation =>
      negb (String.eqb (code simulation) "")
      && negb (falsyString (E2B_API_KEY env))
      && match env_create env with Returns _ => true | Throws _ => false end
  | None => false
  end.

(** Every sandbox call up to and including the compiler run resolves, the
    latter with [output]. *)
Definition compilerRan (env : SandboxEnv) (output : ProcessOutput) : Prop :=
  falsyString (E2B_API_KEY env) = false
  /\ env_create env = Returns tt
  /\ env_installStart env = Returns tt
  /\ (exists installOutput, env_installWait env = Returns installOutput)
  /\ env_writeManifest env = Returns tt
  /\ env_makeDir env = Returns tt
  /\ env_writeSource env = Returns tt
  /\ env_compileStart env = Returns tt
  /\ env_compileWait env = Returns output.

(** The error list in the words of the specification: the lines of
    stderr that are not empty. *)
Definition spec_nonEmptyLines (s : string) : list string :=
  List.filter (fun line => negb (String.eqb line "")) (split newline s).

(** The warning list in the words of the specification: the lines of
    stdout that contain the word warning, in any letter case. *)
Definition spec_warningLines (s : string) : list string :=
  List.filter (fun line => includes (toLowerCase line) "warning")
              (split newline s).

(** A line without any character other than white space. *)
Definition blankLine (line : string) : bool :=
  forallb isWhiteSpace (list_ascii_of_string line).

(** The name a guarded failure on an empty choice list would carry. *)
Definition isMalformedResponseError (e : Thrown) : Prop :=
  errorName e = Some "MalformedResponseError".

(** [(simulation as any).executionCount || 0], the reading the user
    interface makes of the counter. *)
Definition countOf (simulation : SandboxSimulation) : Z :=
  match executionCount simulation with Some n => n | None => 0%Z end.

(** *** Concrete scenarios *)

Definition templates : PromptTemplates :=
  {| chatSystemPrompt := "You are an expert Aptos DeFi assistant.";
     tokenSystemPrompt := fun _ => "You are an expert Move developer.";
     poolSystemPrompt := fun _ => "You are an expert Move developer.";
     vaultSystemPrompt := fun _ => "You are an expert Move developer.";
     analyzeSystemPrompt := "You are a Move security auditor.";
     JSON_stringify := fun _ => "{}" |}.

Definition service : OpenRouterService :=
  {| apiKey := "sk-or-test"; baseURL := "https://openrouter.ai/api/v1" |}.

Definition answer (text : string) : OpenRouterResponse :=
  {| choices := [ {| message := {| role := "assistant"; content := text |} |} ] |}.

Definition http200 (body : OpenRouterResponse) : HttpResponse :=
  {| http_status := 200; http_statusText := "OK"; retryAfter := None;
     json := Returns body |}.

Definition http429 : HttpResponse :=
  {| http_status := 429; http_statusText := "Too Many Requests";
     retryAfter := None; json := Returns {| choices := [] |} |}.

Definition http500 : HttpResponse :=
  {| http_status := 500; http_statusText := "Internal Server Error";
     retryAfter := None; json := Returns {| choices := [] |} |}.

Definition alwaysRateLimited : Network := fun _ => Returns http429.

(** One rate-limited attempt, then a success. *)
Definition recovering : Network :=
  fun k => Returns (if (k <? 1)%nat then http429 else http200 (answer "ok")).

Definition answering (text : string) : Network :=
  fun _ => Returns (http200 (answer text)).

Definition answeringNoChoice : Network :=
  fun _ => Returns (http200 {| choices := [] |}).

Definition failing500 : Network := fun _ => Returns http500.

Definition demoToken : Parameters :=
  {| p_name := Some "Demo"; p_symbol := Some "DMO";
     p_decimals := Some (ofZ 8); p_totalSupply := Some "1000000";
     p_iconUri := None; p_projectUri := None;
     p_tokenA := None; p_tokenB := None; p_fee := None;
     p_initialLiquidityA := None; p_initialLiquidityB := None;
     p_token := None; p_strategy := None; p_minDeposit := None |}.

(** A token whose symbol has eleven characters. *)
Definition longSymbolToken : Parameters :=
  {| p_name := Some "Demo"; p_symbol := Some "ABCDEFGHIJK";
     p_decimals := Some (ofZ 8); p_totalSupply := Some "1000000";
     p_iconUri := None; p_projectUri := None;
     p_tokenA := None; p_tokenB := None; p_fee := None;
     p_initialLiquidityA := None; p_initialLiquidityB := None;
     p_token := None; p_strategy := None; p_minDeposit := None |}.

(** A pool whose fee is -1. *)
Definition negativeFeePool : Parameters :=
  {| p_name := Some "Pool"; p_symbol := None; p_decimals := None;
     p_totalSupply := None; p_iconUri := None; p_projectUri := None;
     p_tokenA := Some "0x1::aptos_coin::AptosCoin";
     p_tokenB := Some "0x123::my_token::MyToken";
     p_fee := Some (ofZ (-1));
     p_initialLiquidityA := Some "1000"; p_initialLiquidityB := Some "1000";
     p_token := None; p_strategy := None; p_minDeposit := None |}.

(** A vault whose minimum deposit is the string 0. *)
Definition zeroDepositVault : Parameters :=
  {| p_name := Some "My Vault"; p_symbol := None; p_decimals := None;
     p_totalSupply := None; p_iconUri := None; p_projectUri := None;
     p_tokenA := None; p_tokenB := None;
     p_fee := Some (Finite (5 # 2));
     p_initialLiquidityA := None; p_initialLiquidityB := None;
     p_token := Some "0x1::aptos_coin::AptosCoin";
     p_strategy := Some "compound"; p_minDeposit := Some "0" |}.

Definition demoId : string := "sim_1700000000000_k3j9x2m1q".

(** The registry after one [createSimulation]. *)
Definition created : Registry :=
  snd (createSimulation ∅ 1700000000000 "k3j9x2m1q" 1700000000000
         "token" demoToken).

(** The registry after a successful [generateCode] on it. *)
Definition generated : Registry :=
  snd (generateCode templates service (answering "module demo::token {}")
         created demoId).

(** The simulation [created] holds, and the one [generated] holds. *)
Definition demoSimulation : SandboxSimulation :=
  fst (createSimulation ∅ 1700000000000 "k3j9x2m1q" 1700000000000
         "token" demoToken).

Definition generatedSimulation : SandboxSimulation :=
  set_code "module demo::token {}" (set_status st_compiling demoSimulation).

Definition output (code : Z) (out err : string) : ProcessOutput :=
  {| exitCode := code; stdout := out; stderr := err |}.

(** A sandbox in which every call resolves; the compiler ends with
    [compiled], the teardown with [closing]. *)
Definition sandbox (compiled : ProcessOutput) (closing : Outcome unit)
    : SandboxEnv :=
  {| E2B_API_KEY := Some "e2b-test";
     env_create := Returns tt;
     env_installStart := Returns tt;
     env_installWait := Returns (output 0 "" "");
     env_writeManifest := Returns tt;
     env_makeDir := Returns tt;
     env_writeSource := Returns tt;
     env_compileStart := Returns tt;
     env_compileWait := Returns compiled;
     env_close := closing |}.

(** A sandbox whose toolchain installation cannot be started and whose
    teardown fails as well. *)
Definition brokenSandbox : SandboxEnv :=
  {| E2B_API_KEY := Some "e2b-test";
     env_create := Returns tt;
     env_installStart := Throws (newError "process start failed");
     env_installWait := Returns (output 0 "" "");
     env_writeManifest := Returns tt;
     env_makeDir := Returns tt;
     env_writeSource := Returns tt;
     env_compileStart := Returns tt;
     env_compileWait := Returns (output 0 "" "");
     env_close := Throws (newError "sandbox close failed") |}.

(** No key configured: nothing is provisioned. *)
Definition noKeySandbox : SandboxEnv :=
  {| E2B_API_KEY := None;
     env_create := Returns tt;
     env_installStart := Returns tt;
     env_installWait := Returns (output 0 "" "");
     env_writeManifest := Returns tt;
     env_makeDir := Returns tt;
     env_writeSource := Returns tt;
     env_compileStart := Returns tt;
     env_compileWait := Returns (output 0 "" "");
     env_close := Returns tt |}.

(** Two compiler messages with a line of three blanks between them. *)
Definition stderrWithBlankLine : string :=
  "error: missing module" ++ nl ++ "   " ++ nl ++ "error: unresolved import".

End Scenario.

(* ================================================================== *)
(** ** The two remaining wrappers of [lib/openrouter.ts]                *)
(* ================================================================== *)

Module Advisor.
Import Js Types World OpenRouter.

(** [explainConcept] and [getRecommendations]; their system prompts are
    template literals of the source, taken as given. *)
Definition explainConcept (systemPrompt : string) (this : OpenRouterService)
    (net : Network) (concept : string) : Run string :=
  ask this net [ system systemPrompt;
                 user ("Explain this DeFi concept: " ++ concept) ].

Definition getRecommendations (systemPrompt : string)
    (this : OpenRouterService) (net : Network) (userContext : string)
    : Run string :=
  ask this net [ system systemPrompt;
                 user ("Provide DeFi recommendations for: " ++ userContext) ].

End Advisor.

(* ================================================================== *)
(** ** [app/api/sandbox/test/route.ts]                                  *)
(* ================================================================== *)

Module Route.
Import Js Types World OpenRouter Sandbox.

(** A property of the parsed request body: absent, or a JSON value
    (arrays and objects are not told apart, the handler only tests them
    for truth). *)
Inductive JsonValue : Type :=
| JAbsent
| JNull
| JBool (b : bool)
| JNumber (n : JsNumber)
| JString (s : string)
| JObject.

(** [!!v] *)
Definition truthy (v : JsonValue) : bool :=
  match v with
  | JAbsent | JNull => false
  | JBool b => b
  | JNumber NaN => false
  | JNumber (Infinity _) => true
  | JNumber (Finite q) => negb (Qeq_bool q 0)
  | JString s => negb (String.eqb s "")
  | JObject => true
  end.

(** [const { code, type } = await request.json()] when it succeeds. *)
Record Body : Type := {
  b_code : JsonValue;
  b_type : JsonValue;
}.

(** What the handler answers: [NextResponse.json(body, { status })]. *)
Inductive Payload : Type :=
| ErrorPayload (error : string) (details : option string)
| SuccessPayload (result : SandboxSimulation) (timestamp : string).

Record Response : Type := {
  res_status : Z;
  res_payload : Payload;
}.

(** The parameter literals of the handler.  Their properties [supply],
    [assetA], [assetB] and [depositAsset] are not properties of the
    declared parameter interfaces and have no field in [Parameters]. *)
Definition tokenDefaults : Parameters :=
  {| p_name := Some "Test Token"; p_symbol := Some "TST";
     p_decimals := Some (ofZ 6); p_totalSupply := None;
     p_iconUri := None; p_projectUri := None;
     p_tokenA := None; p_tokenB := None; p_fee := None;
     p_initialLiquidityA := None; p_initialLiquidityB := None;
     p_token := None; p_strategy := None; p_minDeposit := None |}.

Definition poolDefaults : Parameters :=
  {| p_name := None; p_symbol := None; p_decimals := None;
     p_totalSupply := None; p_iconUri := None; p_projectUri := None;
     p_tokenA := None; p_tokenB := None; p_fee := Some (Finite (3 # 1000));
     p_initialLiquidityA := None; p_initialLiquidityB := None;
     p_token := None; p_strategy := None; p_minDeposit := None |}.

Definition vaultDefaults : Parameters :=
  {| p_name := None; p_symbol := None; p_decimals := None;
     p_totalSupply := None; p_iconUri := None; p_projectUri := None;
     p_tokenA := None; p_tokenB := None; p_fee := None;
     p_initialLiquidityA := None; p_initialLiquidityB := None;
     p_token := None; p_strategy := Some "default"; p_minDeposit := None |}.

(** The [switch (type)] of the handler: the parameters for a supported
    type, [None] for the [default] branch. *)
Definition defaultParams (type : JsonValue) : option (string * Parameters) :=
  match type with
  | JString s =>
      if String.eqb s "token" then Some (s, tokenDefaults)
      else if String.eqb s "pool" then Some (s, poolDefaults)
      else if String.eqb s "vault" then Some (s, vaultDefaults)
      else None
  | _ => None
  end.

Definition badRequest (error : string) : Response :=
  {| res_status := 400; res_payload := ErrorPayload error None |}.

(** The [catch] branch of the handler. *)
Definition serverError (e : Thrown) : Response :=
  {| res_status := 500;
     res_payload :=
       ErrorPayload "Failed to test code"
                    (Some (messageOr "Unknown error" e)) |}.

Section Handler.
Variable T : PromptTemplates.
Variable openRouterService : OpenRouterService.
Variable net : Network.
Variable env : SandboxEnv.
(** The text a template literal gives for a value that is not a string. *)
Variable display : JsonValue -> string.
(** [Date.now()], the random suffix and [new Date()] of
    [createSimulation]; [new Date().toISOString()] of the answer. *)
Variable now : Z.
Variable rnd : string.
Variable date : Z.
Variable timestamp : string.

Definition templateText (v : JsonValue) : string :=
  match v with
  | JString s => s
  | _ => display v
  end.

(** [POST]: the calls made, the answer and the registry of the shared
    [sandboxService] afterwards.  [body] is how reading [code] and
    [type] off the request completes. *)
Definition POST (sims : Registry) (body : Outcome Body)
    : list Event * Response * Registry :=
  match body with
  | Throws e => ([], serverError e, sims)
  | Returns b =>
      if negb (truthy (b_code b)) || negb (truthy (b_type b)) then
        ([], badRequest "Code and type are required", sims)
      else
        match defaultParams (b_type b) with
        | None =>
            ([], badRequest ("Unsupported simulation type: "
                             ++ templateText (b_type b)), sims)
        | Some (type, params) =>
            let '(simulation, sims) :=
              createSimulation sims now rnd date type params in
            let '((t, tested), sims) :=
              testCode T openRouterService net env sims (id simulation) in
            match tested with
            | Returns result =>
                (t, {| res_status := 200;
                       res_payload := SuccessPayload result timestamp |},
                 sims)
            | Throws e => (t, serverError e, sims)
            end
        end
  end.

End Handler.

End Route.

(* ================================================================== *)
(** ** Observations on traces and further scenarios                     *)
(* ================================================================== *)

Module Observe.
Import Js Types World OpenRouter Sandbox Scenario.

(** The model switch of [makeRequest] on a rate-limit signal. *)
Definition downgrade (model : string) : string :=
  if endsWith model ":free" then replace model ":free" "" else model.

(** The model of each request of a trace, in order. *)
Fixpoint fetchModels (t : list Event) : list string :=
  match t with
  | [] => []
  | Fetch model _ :: t' => model :: fetchModels t'
  | _ :: t' => fetchModels t'
  end.

(** The messages of each request of a trace, in order. *)
Fixpoint fetchPayloads (t : list Event) : list (list OpenRouterMessage) :=
  match t with
  | [] => []
  | Fetch _ messages :: t' => messages :: fetchPayloads t'
  | _ :: t' => fetchPayloads t'
  end.

(** The waits of a trace, in order, in milliseconds. *)
Fixpoint sleeps (t : list Event) : list JsNumber :=
  match t with
  | [] => []
  | Sleep ms :: t' => ms :: sleeps t'
  | _ :: t' => sleeps t'
  end.

(** The k-th attempt is answered with a status that is neither 429 nor
    2xx. *)
Definition rejectedAt (net : Network) (k : nat) (status : Z) (text : string)
    : Prop :=
  exists response,
    net k = Returns response /\ http_status response = status
    /\ http_statusText response = text
    /\ status <> 429%Z /\ http_ok response = false.

(** The k-th attempt is rate-limited and carries the given Retry-After
    header (or none). *)
Definition rateLimitedWith (net : Network) (k : nat) (header : option string)
    : Prop :=
  exists response,
    net k = Returns response /\ http_status response = 429%Z
    /\ retryAfter response = header.

(** How [makeRequest] completes on an answer that is not a rate-limit
    signal: a network failure is passed on, a status outside 2xx becomes
    an error naming it, a 2xx answer gives its parsed body. *)
Definition decisive (answer : Outcome HttpResponse) : Outcome OpenRouterResponse :=
  match answer with
  | Throws e => Throws e
  | Returns response =>
      if http_ok response then json response
      else Throws (newError ("OpenRouter API error: "
                             ++ pretty (http_status response) ++ " "
                             ++ http_statusText response))
  end.

(** The answer is no rate-limit signal. *)
Definition notRateLimited (answer : Outcome HttpResponse) : Prop :=
  match answer with
  | Throws _ => True
  | Returns response => http_status response <> 429%Z
  end.

(** How a wrapper completes on the answer that ends its request: as
    [decisive] says, followed on a parsed body by the read of the first
    choice's text. *)
Definition wrapperCompletion (answer : Outcome HttpResponse) : Outcome string :=
  match decisive answer with
  | Returns body =>
      match choices body with
      | c :: _ => Returns (content (message c))
      | [] => Throws (ErrorObj "TypeError"
                        "Cannot read properties of undefined (reading 'message')")
      end
  | Throws e => Throws e
  end.

(** Attempt [N] ends a request made with the default budget of two
    retries: the attempts before it are rate-limited and its own answer
    is no rate-limit signal. *)
Definition endsAt (net : Network) (N : nat) : Prop :=
  (N <= 2)%nat
  /\ (forall k, (k < N)%nat -> rateLimitedAt net k)
  /\ notRateLimited (net N).

(** The remote service lets a wrapper return [text]. *)
Definition remoteReturns (net : Network) (text : string) : Prop :=
  exists N, endsAt net N /\ wrapperCompletion (net N) = Returns text.

(** The remote service makes a wrapper fail with [e]: all three attempts
    are rate-limited, or the answer that ends the request is a network
    failure, a status outside 2xx, a body that does not parse or a body
    without choices. *)
Definition remoteFails (net : Network) (e : Thrown) : Prop :=
  ((forall k, (k <= 2)%nat -> rateLimitedAt net k) /\ e = tooManyRetries)
  \/ (exists N, endsAt net N /\ wrapperCompletion (net N) = Throws e).

(** A wrapper of the client [this] fails with [e]: no key is configured,
    or the remote service makes it fail. *)
Definition requestFails (this : OpenRouterService) (net : Network)
    (e : Thrown) : Prop :=
  (apiKey this = "" /\ e = newError "OpenRouter API key not configured")
  \/ (apiKey this <> "" /\ remoteFails net e).

(** The type is one of the three [generateCode] knows. *)
Definition supportedType (type : string) : Prop :=
  type = "token" \/ type = "pool" \/ type = "vault".

Definition thrown {A} (answer : Outcome A) : option Thrown :=
  match answer with
  | Throws e => Some e
  | Returns _ => None
  end.

Fixpoint firstThrown (failures : list (option Thrown)) : option Thrown :=
  match failures with
  | [] => None
  | Some e :: _ => Some e
  | None :: rest => firstThrown rest
  end.

(** What the first failing step of the sandbox provider throws, the
    steps taken in the order [testCode] makes them: the key check,
    [Sandbox.create], then the seven calls up to the compiler run;
    [None] when all of them resolve. *)
Definition firstSandboxFailure (env : SandboxEnv) : option Thrown :=
  if falsyString (E2B_API_KEY env)
  then Some (newError "E2B_API_KEY is not set in environment variables.")
  else firstThrown [ thrown (env_create env);
                     thrown (env_installStart env);
                     thrown (env_installWait env);
                     thrown (env_writeManifest env);
                     thrown (env_makeDir env);
                     thrown (env_writeSource env);
                     thrown (env_compileStart env);
                     thrown (env_compileWait env) ].

(** Something fails with [e] inside the [try] block of [testCode]: a
    step of the sandbox provider, or, all of them having resolved, the
    analysis request. *)
Definition tryFails (this : OpenRouterService) (net : Network)
    (env : SandboxEnv) (e : Thrown) : Prop :=
  firstSandboxFailure env = Some e
  \/ (firstSandboxFailure env = None /\ requestFails this net e).

(** [Sandbox.create] was called and resolved: the trace holds the call
    and the provider answered it. *)
Definition sandboxAssigned (env : SandboxEnv) (trace : list Event) : bool :=
  (0 <? createCount trace)%nat
  && match env_create env with Returns _ => true | Throws _ => false end.

(** A trace of requests with one wait between any two of them: a
    request, then any number of times a wait and a request. *)
Fixpoint requestsWithWaitsBetween (t : list Event) : bool :=
  match t with
  | Fetch _ _ :: t' =>
      match t' with
      | [] => true
      | Sleep _ :: t'' => requestsWithWaitsBetween t''
      | _ => false
      end
  | _ => false
  end.

(** The trace of a request whose every attempt is rate-limited, from
    attempt [k] on with [n] retries left: each attempt but the last is
    followed by its wait, and the next attempt names the switched
    model. *)
Fixpoint rateLimitedRun (messages : list OpenRouterMessage)
    (delay : nat -> JsNumber) (model : string) (k n : nat) : list Event :=
  match n with
  | O => [Fetch model messages]
  | S n' =>
      Fetch model messages :: Sleep (delay k)
      :: rateLimitedRun messages delay (downgrade model) (S k) n'
  end.

(** The sandbox calls of [testCode] before the analysis request, in the
    order of the source, for a simulation with code [source]. *)
Definition sandboxSteps (source : string) : list Event :=
  [ SandboxCreate;
    ProcessStart installCommand None;
    ProcessWait;
    FsWrite "/home/user/Move.toml" moveTomlContent;
    FsMakeDir "/home/user/sources";
    FsWrite "/home/user/sources/main.move" source;
    ProcessStart "/root/.local/bin/aptos move compile" (Some "/home/user");
    ProcessWait ].

(** The [result] object written when the [try] block runs to its end. *)
Definition verdictResult (compiled : ProcessOutput) (analysis : string)
    : SimulationResult :=
  {| r_success := fst (fst (compileVerdict compiled));
     r_errors := snd (fst (compileVerdict compiled));
     r_warnings := Some (snd (compileVerdict compiled));
     r_gasEstimate := Some "Compilation check only";
     r_aiAnalysis := Some analysis |}.

(** A sandbox provider that differs from [env] in the output of the
    installation process only. *)
Definition withInstallOutput (env : SandboxEnv) (installed : ProcessOutput)
    : SandboxEnv :=
  {| E2B_API_KEY := E2B_API_KEY env;
     env_create := env_create env;
     env_installStart := env_installStart env;
     env_installWait := Returns installed;
     env_writeManifest := env_writeManifest env;
     env_makeDir := env_makeDir env;
     env_writeSource := env_writeSource env;
     env_compileStart := env_compileStart env;
     env_compileWait := env_compileWait env;
     env_close := env_close env |}.

(** Every character of the string is a decimal digit. *)
Definition allDigits (s : string) : bool :=
  forallb (fun c => match digitValue c with Some _ => true | None => false end)
          (list_ascii_of_string s).

(** Every character of the string is the digit 0. *)
Definition allZeros (s : string) : bool :=
  forallb (fun c => Ascii.eqb c "0") (list_ascii_of_string s).

(** No character of the string is an underscore. *)
Definition noUnderscore (s : string) : bool :=
  forallb (fun c => negb (Ascii.eqb c "_")) (list_ascii_of_string s).

(** The character can start what [parseFloat] reads: white space, a
    digit, a sign, a dot, or the I of Infinity. *)
Definition startsNumber (c : ascii) : bool :=
  isWhiteSpace c
  || match digitValue c with Some _ => true | None => false end
  || Ascii.eqb c "+" || Ascii.eqb c "-" || Ascii.eqb c "."
  || Ascii.eqb c "I".

Definition supplyMessage : string := "Total supply must be greater than 0".

(** A client without a key. *)
Definition unconfigured : OpenRouterService :=
  {| apiKey := ""; baseURL := "https://openrouter.ai/api/v1" |}.

(** One rate-limited attempt, then a 503. *)
Definition http503 : HttpResponse :=
  {| http_status := 503; http_statusText := "Service Unavailable";
     retryAfter := None; json := Returns {| choices := [] |} |}.

Definition thenUnavailable : Network :=
  fun k => Returns (if (k <? 1)%nat then http429 else http503).

(** One rate-limited attempt, then the connection drops. *)
Definition thenDropped : Network :=
  fun k => if (k <? 1)%nat then Returns http429
           else Throws (ErrorObj "TypeError" "fetch failed").

(** Always rate-limited, asking for a wait of seven seconds. *)
Definition http429After7 : HttpResponse :=
  {| http_status := 429; http_statusText := "Too Many Requests";
     retryAfter := Some "7"; json := Returns {| choices := [] |} |}.

Definition alwaysRetryAfter7 : Network := fun _ => Returns http429After7.

(** A token whose total supply is a word. *)
Definition textSupplyToken : Parameters :=
  {| p_name := Some "Demo"; p_symbol := Some "DMO";
     p_decimals := Some (ofZ 8); p_totalSupply := Some "abc";
     p_iconUri := None; p_projectUri := None;
     p_tokenA := None; p_tokenB := None; p_fee := None;
     p_initialLiquidityA := None; p_initialLiquidityB := None;
     p_token := None; p_strategy := None; p_minDeposit := None |}.

(** A sandbox whose toolchain installation cannot be started; its
    teardown resolves. *)
Definition stalledSandbox : SandboxEnv :=
  {| E2B_API_KEY := Some "e2b-test";
     env_create := Returns tt;
     env_installStart := Throws (newError "process start failed");
     env_installWait := Returns (output 0 "" "");
     env_writeManifest := Returns tt;
     env_makeDir := Returns tt;
     env_writeSource := Returns tt;
     env_compileStart := Returns tt;
     env_compileWait := Returns (output 0 "" "");
     env_close := Returns tt |}.

(** A simulation of a type the service does not know, with some code. *)
Definition nftSimulation : SandboxSimulation :=
  {| id := "sim_1_nft"; type := "nft"; parameters := emptyParameters;
     code := "module demo::nft {}"; status := st_pending; createdAt := 1;
     result := None; executionCount := None |}.

Definition nftRegistry : Registry := {[ "sim_1_nft" := nftSimulation ]}.

End Observe.

(* ================================================================== *)
(** ** Properties of the request client                                 *)
(* ================================================================== *)

Section RunFacts.
Import Js World.

Lemma bind_call_returns {A B} (ev : Event) (a : A) (f : A -> Run B) :
  bind (call ev (Returns a)) f = (ev :: fst (f a), snd (f a)).
Proof. unfold bind, call. destruct (f a) as [t r]. reflexivity. Qed.

Lemma bind_call_throws {A B} (ev : Event) (e : Thrown) (f : A -> Run B) :
  bind (call ev (Throws e)) f = ([ev], Throws e).
Proof. reflexivity. Qed.

Lemma bind_fst_returns {A B} (m : Run A) (f : A -> Run B) (a : A) :
  snd m = Returns a ->
  bind m f = ((fst m ++ fst (f a))%list, snd (f a)).
Proof.
  destruct m as [t r]. simpl. intros ->. unfold bind.
  destruct (f a) as [t' r']. reflexivity.
Qed.

Lemma bind_fst_throws {A B} (m : Run A) (f : A -> Run B) (e : Thrown) :
  snd m = Throws e -> bind m f = (fst m, Throws e).
Proof. destruct m as [t r]. simpl. intros ->. reflexivity. Qed.

Lemma closeCount_app (t t' : list Event) :
  closeCount (t ++ t') = (closeCount t + closeCount t')%nat.
Proof. unfold closeCount. rewrite List.filter_app, List.length_app. reflexivity. Qed.

Lemma fetchCount_app (t t' : list Event) :
  fetchCount (t ++ t') = (fetchCount t + fetchCount t')%nat.
Proof. unfold fetchCount. rewrite List.filter_app, List.length_app. reflexivity. Qed.

(** A computation that makes no teardown call keeps none when sequenced
    with a continuation that makes none. *)
Lemma closeCount_bind {A B} (m : Run A) (f : A -> Run B) :
  closeCount (fst m) = 0%nat ->
  (forall a, closeCount (fst (f a)) = 0%nat) ->
  closeCount (fst (bind m f)) = 0%nat.
Proof.
  intros Hm Hf. destruct m as [t [a | e]]; simpl in *.
  - specialize (Hf a). destruct (f a) as [t' r]. simpl in *.
    rewrite closeCount_app. lia.
  - exact Hm.
Qed.

End RunFacts.

Section RetryLoop.
Import Js Types World OpenRouter Scenario.

Variable net : Network.
Variable messages : list OpenRouterMessage.
Variable R : Z.

Lemma requestLoop_step (fuel : nat) (i : Z) (model : string)
    (lastError : option Thrown) :
  (i <= R)%Z ->
  requestLoop net messages R (S fuel) i model lastError =
  bind (call (Fetch model messages) (net (Z.to_nat i)))
    (fun response =>
       if (http_status response =? 429)%Z then
         if (i =? R)%Z then throw tooManyRetries
         else bind (call (Sleep (retryDelay (retryAfter response) i)) (Returns tt))
                (fun _ =>
                   requestLoop net messages R fuel (i + 1)%Z
                     (if endsWith model ":free" then replace model ":free" ""
                      else model)
                     (Some (newError "429 Too Many Requests")))
       else if negb (http_ok response) then
         throw (newError ("OpenRouter API error: "
                          ++ pretty (http_status response) ++ " "
                          ++ http_statusText response))
       else ([], json response)).
Proof.
  intros Hi. cbn [requestLoop].
  replace (i <=? R)%Z with true by (symmetry; apply Z.leb_le; exact Hi).
  reflexivity.
Qed.


(** [n] rate-limited attempts, then a success: [n + 1] requests and the
    parsed body. *)
Lemma requestLoop_succeeds (n : nat) :
  forall (fuel : nat) (i : Z) (model : string) (lastError : option Thrown)
         (body : OpenRouterResponse),
    (0 <= i)%Z -> (i + Z.of_nat n <= R)%Z -> (n < fuel)%nat ->
    (forall k, (k < n)%nat -> rateLimitedAt net (Z.to_nat i + k)) ->
    succeedsAt net (Z.to_nat i + n) body ->
    exists t,
      requestLoop net messages R fuel i model lastError = (t, Returns body)
      /\ fetchCount t = S n.
Proof.
  induction n as [| n IH]; intros fuel i model lastError body Hi HR Hfuel Hlim Hok.
  - destruct fuel as [| fuel]; [lia |].
    rewrite requestLoop_step by lia.
    destruct Hok as (response & Hnet & Hok & Hjson).
    rewrite Nat.add_0_r in Hnet. rewrite Hnet, bind_call_returns.
    assert (Hnot : (http_status response =? 429)%Z = false).
    { unfold http_ok in Hok. apply andb_prop in Hok as [_ Hle].
      apply Z.leb_le in Hle. apply Z.eqb_neq. lia. }
    rewrite Hnot, Hok, Hjson. cbn [negb fst snd].
    exists [Fetch model messages]. split; reflexivity.
  - destruct fuel as [| fuel]; [lia |].
    rewrite requestLoop_step by lia.
    destruct (Hlim 0%nat ltac:(lia)) as (response & Hnet & Hstatus).
    rewrite Nat.add_0_r in Hnet.
    rewrite Hnet, bind_call_returns, Hstatus. cbn [Z.eqb Pos.eqb fst snd].
    replace (i =? R)%Z with false by (symmetry; apply Z.eqb_neq; lia).
    rewrite bind_call_returns.
    destruct (IH fuel (i + 1)%Z
                (if endsWith model ":free" then replace model ":free" "" else model)
                (Some (newError "429 Too Many Requests")) body)
      as (t & Heq & Hcount).
    + lia.
    + lia.
    + lia.
    + intros k Hk. replace (Z.to_nat (i + 1) + k)%nat with (Z.to_nat i + S k)%nat by lia.
      apply Hlim. lia.
    + replace (Z.to_nat (i + 1) + n)%nat with (Z.to_nat i + S n)%nat by lia.
      exact Hok.
    + rewrite Heq. cbn [fst snd].
      eexists. split; [reflexivity |].
      cbn. rewrite <- Hcount. reflexivity.
Qed.

(** The retry loop never touches the sandbox. *)
Lemma requestLoop_no_close (fuel : nat) :
  forall (i : Z) (model : string) (lastError : option Thrown),
    closeCount (fst (requestLoop net messages R fuel i model lastError)) = 0%nat.
Proof.
  induction fuel as [| fuel IH]; intros i model lastError; [reflexivity |].
  destruct (Z.leb_spec i R) as [Hi | Hi].
  - rewrite requestLoop_step by exact Hi.
    apply closeCount_bind; [reflexivity |].
    intros response.
    destruct (http_status response =? 429)%Z.
    + destruct (i =? R)%Z; [reflexivity |].
      apply closeCount_bind; [reflexivity |]. intros _. apply IH.
    + destruct (negb (http_ok response)); reflexivity.
  - cbn [requestLoop].
    replace (i <=? R)%Z with false by (symmetry; apply Z.leb_gt; exact Hi).
    reflexivity.
Qed.

End RetryLoop.

Section RequestClient.
Import Js Types World OpenRouter Scenario.

Lemma makeRequest_configured (this : OpenRouterService) (net : Network)
    (messages : list OpenRouterMessage) (model : string) (R : Z) :
  apiKey this <> "" ->
  makeRequest this net messages model R =
  requestLoop net messages R (Z.to_nat (R + 1)) 0%Z model None.
Proof.
  intros Hkey. unfold makeRequest.
  destruct (String.eqb_spec (apiKey this) ""); [contradiction | reflexivity].
Qed.

Lemma makeRequest_no_close (this : OpenRouterService) (net : Network)
    (messages : list OpenRouterMessage) (model : string) (R : Z) :
  closeCount (fst (makeRequest this net messages model R)) = 0%nat.
Proof.
  unfold makeRequest. destruct (String.eqb (apiKey this) ""); [reflexivity |].
  apply requestLoop_no_close.
Qed.

Lemma ask_no_close (this : OpenRouterService) (net : Network)
    (messages : list OpenRouterMessage) :
  closeCount (fst (ask this net messages)) = 0%nat.
Proof.
  unfold ask. apply closeCount_bind; [apply makeRequest_no_close | reflexivity].
Qed.

(** After [N] rate-limited attempts within the default budget and a
    success, a wrapper completes as the read of the first choice does. *)
Lemma ask_after_success (this : OpenRouterService) (net : Network)
    (messages : list OpenRouterMessage) (N : nat) (body : OpenRouterResponse) :
  apiKey this <> "" -> (N <= 2)%nat ->
  (forall k, (k < N)%nat -> rateLimitedAt net k) ->
  succeedsAt net N body ->
  snd (ask this net messages) = firstChoiceContent body.
Proof.
  intros Hkey HN Hlim Hok. unfold ask.
  rewrite makeRequest_configured by exact Hkey.
  destruct (requestLoop_succeeds net messages defaultRetries N
              (Z.to_nat (defaultRetries + 1)) 0%Z defaultModel None body)
    as (t & Heq & _).
  - lia.
  - unfold defaultRetries. lia.
  - unfold defaultRetries. lia.
  - exact Hlim.
  - exact Hok.
  - rewrite Heq. unfold bind. reflexivity.
Qed.


(** C9 (as amended) — When a wrapper's request is answered, after at most
    two rate-limited attempts, with a 2xx response, the wrapper returns
    the content of the first choice's message unchanged; when the choice
    list of that response is empty, the unguarded read of
    [choices[0].message] throws a TypeError. *)
Theorem wrappers_read_first_choice (T : PromptTemplates)
    (this : OpenRouterService) (net : Network) (N : nat)
    (body : OpenRouterResponse) :
  apiKey this <> "" -> (N <= 2)%nat ->
  (forall k, (k < N)%nat -> rateLimitedAt net k) ->
  succeedsAt net N body ->
  let completion :=
    match choices body with
    | c :: _ => Returns (content (message c))
    | [] => Throws (ErrorObj "TypeError"
                      "Cannot read properties of undefined (reading 'message')")
    end in
  (forall code type, snd (analyzeCode T this net code type) = completion)
  /\ (forall userMessage history,
        snd (chatWithAssistant T this net userMessage history) = completion)
  /\ (forall messages, snd (ask this net messages) = completion).
Proof.
  intros Hkey HN Hlim Hok completion.
  assert (Hask : forall messages, snd (ask this net messages) = completion).
  { intros messages.
    rewrite (ask_after_success this net messages N body Hkey HN Hlim Hok).
    unfold firstChoiceContent, completion. destruct (choices body); reflexivity. }
  repeat split; intros; apply Hask.
Qed.

End RequestClient.

(* ================================================================== *)
(** ** Properties of the sandbox service                                *)
(* ================================================================== *)

Section SandboxService.
Import Js Types World OpenRouter Sandbox Scenario.

Variable T : PromptTemplates.
Variable openRouterService : OpenRouterService.
Variable net : Network.

Lemma analyzeCode_no_close (code type : string) :
  closeCount (fst (analyzeCode T openRouterService net code type)) = 0%nat.
Proof. unfold analyzeCode. apply ask_no_close. Qed.

Lemma compileInSandbox_no_close (env : SandboxEnv) (simulation : SandboxSimulation) :
  closeCount (fst (compileInSandbox T openRouterService net env simulation)) = 0%nat.
Proof.
  unfold compileInSandbox.
  repeat (apply closeCount_bind; [reflexivity | intros ?]).
  destruct (compileVerdict _) as [[ok errs] warns].
  apply closeCount_bind; [apply analyzeCode_no_close | reflexivity].
Qed.

(** [testCode] past its two guards, in terms of the [try] block's
    completion: the registry, the completion and the trace. *)
Lemma testCode_reached (env : SandboxEnv) (sims : Registry)
    (simulationId : string) (sim : SandboxSimulation) :
  sims !! simulationId = Some sim -> code sim <> "" ->
  let simulation := set_status st_compiling sim in
  let final :=
    settled simulation (tryOutcome T openRouterService net env simulation) in
  let run := testCode T openRouterService net env sims simulationId in
  snd run = <[simulationId := final]> (<[simulationId := simulation]> sims)
  /\ snd (fst run) =
     (if environmentProvisioned env sims simulationId
      then match env_close env with
           | Returns _ => Returns final
           | Throws e => Throws e
           end
      else Returns final)
  /\ (if environmentProvisioned env sims simulationId
      then exists pre, fst (fst run) = (pre ++ [SandboxClose])%list
                       /\ closeCount pre = 0%nat
      else closeCount (fst (fst run)) = 0%nat).
Proof.
  intros Hsim Hcode simulation final run.
  subst run final. unfold testCode, tryOutcome, environmentProvisioned.
  rewrite Hsim.
  destruct (String.eqb_spec (code sim) "") as [Heq | _]; [contradiction |].
  fold simulation. unfold provision.
  destruct (falsyString (E2B_API_KEY env)).
  - cbn. repeat split; reflexivity.
  - destruct (env_create env) as [[] | e].
    + rewrite bind_call_returns. cbn [call fst snd negb andb].
      pose proof (compileInSandbox_no_close env simulation) as Hnc.
      destruct (compileInSandbox T openRouterService net env simulation)
        as [t2 attempt].
      cbn [fst snd] in *.
      destruct (env_close env) as [[] | e']; cbn [fst snd].
      * repeat split.
        exists (SandboxCreate :: t2). split.
        -- reflexivity.
        -- exact Hnc.
      * repeat split.
        exists (SandboxCreate :: t2). split.
        -- reflexivity.
        -- exact Hnc.
    + cbn. repeat split; reflexivity.
Qed.

(** When the compiler ran and the analysis request throws, the [try]
    block throws the analysis error. *)
Lemma tryOutcome_analysis_throws (env : SandboxEnv)
    (simulation : SandboxSimulation) (output : ProcessOutput) (e : Thrown) :
  compilerRan env output ->
  snd (analyzeCode T openRouterService net (code simulation) (type simulation))
  = Throws e ->
  tryOutcome T openRouterService net env simulation = Throws e.
Proof.
  intros (Hkey & Hcreate & Hstart & (io & Hwait) & Hmanifest & Hdir & Hsource
          & Hcstart & Hcwait) Hanalysis.
  unfold tryOutcome, provision, compileInSandbox.
  rewrite Hkey, Hcreate, Hstart, Hwait, Hmanifest, Hdir, Hsource, Hcstart, Hcwait.
  repeat (rewrite bind_call_returns; cbn [fst snd]).
  destruct (compileVerdict output) as [[ok errs] warns].
  rewrite (bind_fst_throws _ _ e Hanalysis). reflexivity.
Qed.

Lemma lookup_settled (sims : Registry) (simulationId : string)
    (a b : SandboxSimulation) :
  (<[simulationId := a]> (<[simulationId := b]> sims)) !! simulationId = Some a.
Proof. apply lookup_insert_eq. Qed.

(** C4 (as amended) — When every sandbox call up to the compiler run has
    resolved and the analysis request then throws, the failure is
    handled like any other error of the [try] block: the compile verdict
    is discarded, the simulation's result becomes [success = false] with
    the analysis error's message as its only error and no warnings, gas
    estimate or analysis, and its status becomes ['error'], whatever the
    compiler's exit code was. *)
Theorem testCode_analysis_failure_reported (env : SandboxEnv)
    (sims : Registry) (simulationId : string) (sim : SandboxSimulation)
    (output : ProcessOutput) (e : Thrown) :
  sims !! simulationId = Some sim -> code sim <> "" ->
  compilerRan env output ->
  snd (analyzeCode T openRouterService net (code sim) (type sim)) = Throws e ->
  let message :=
    messageOr "An unknown error occurred during sandbox execution." e in
  let run := testCode T openRouterService net env sims simulationId in
  exists reported,
    snd run !! simulationId = Some reported
    /\ status reported = st_error
    /\ result reported =
       Some {| r_success := false; r_errors := [message]; r_warnings := None;
               r_gasEstimate := None; r_aiAnalysis := None |}
    /\ (env_close env = Returns tt -> snd (fst run) = Returns reported).
Proof.
  intros Hsim Hcode Hran Hanalysis message run.
  pose proof (tryOutcome_analysis_throws env (set_status st_compiling sim)
                output e Hran Hanalysis) as Htry.
  destruct (testCode_reached env sims simulationId sim Hsim Hcode)
    as (Hreg & Hres & _).
  fold run in Hreg, Hres. rewrite Htry in Hreg, Hres. cbn [settled] in *.
  eexists. split; [| split; [| split]].
  - rewrite Hreg. apply lookup_settled.
  - reflexivity.
  - reflexivity.
  - intros Hclose. rewrite Hres, Hclose.
    destruct (environmentProvisioned env sims simulationId); reflexivity.
Qed.

End SandboxService.

(* ================================================================== *)
(** ** The compile verdict                                              *)
(* ================================================================== *)

Section Verdict.
Import Js Types World Sandbox Scenario.

Lemma blankLine_cons (c : ascii) (s : string) :
  blankLine (String c s) = isWhiteSpace c && blankLine s.
Proof. reflexivity. Qed.

Lemma blankLine_trimStart (s : string) : blankLine (trimStart s) = blankLine s.
Proof.
  induction s as [| c s IH]; [reflexivity |].
  cbn [trimStart]. destruct (isWhiteSpace c) eqn:Hc.
  - rewrite IH, blankLine_cons, Hc. reflexivity.
  - reflexivity.
Qed.

Lemma trimEnd_empty (s : string) : trimEnd s = "" <-> blankLine s = true.
Proof.
  induction s as [| c s IH]; [split; reflexivity |].
  cbn [trimEnd]. rewrite blankLine_cons.
  destruct (trimEnd s) as [| c' t] eqn:Ht.
  - assert (Hs : blankLine s = true) by (apply IH; reflexivity).
    rewrite Hs, andb_true_r.
    destruct (isWhiteSpace c); split; intros H; congruence.
  - assert (Hs : blankLine s = false).
    { destruct (blankLine s) eqn:Hb; [| reflexivity].
      destruct IH as [_ IH]. discriminate (IH eq_refl). }
    rewrite Hs, andb_false_r. split; intros H; discriminate H.
Qed.

(** [line.trim() !== ''] holds exactly for the lines that have a
    character other than white space. *)
Lemma notBlank_blankLine (line : string) :
  notBlank line = negb (blankLine line).
Proof.
  unfold notBlank, trim.
  destruct (String.eqb_spec (trimEnd (trimStart line)) "") as [H | H].
  - apply trimEnd_empty in H. rewrite blankLine_trimStart in H.
    rewrite H. reflexivity.
  - destruct (blankLine line) eqn:Hb; [| reflexivity].
    exfalso. apply H. apply trimEnd_empty.
    rewrite blankLine_trimStart. exact Hb.
Qed.

Lemma lowerChar_w (c : ascii) :
  lowerChar c = "w"%char -> isWhiteSpace c = false.
Proof.
  destruct c as [[] [] [] [] [] [] [] []]; vm_compute; intros H;
    first [reflexivity | discriminate H].
Qed.

(** A line that contains the word cannot be blank. *)
Lemma includes_warning_not_blank (line : string) :
  includes (toLowerCase line) "warning" = true -> blankLine line = false.
Proof.
  induction line as [| c line IH]; [discriminate |].
  cbn [toLowerCase includes]. rewrite blankLine_cons.
  destruct (String.prefix "warning" (String (lowerChar c) (toLowerCase line)))
    eqn:Hp.
  - intros _. cbn [String.prefix] in Hp.
    destruct (ascii_dec "w" (lowerChar c)) as [Hw | Hw]; [| discriminate Hp].
    rewrite (lowerChar_w c (eq_sym Hw)). reflexivity.
  - intros H. rewrite (IH H). apply andb_false_r.
Qed.

(** C8 (as amended) — The verdict is a success exactly when the exit
    code is 0.  When it is not 0, the error list is made of the lines
    of stderr that hold at least one character other than white space,
    in order (lines of blanks are dropped with the empty ones) and
    there is no warning; when it is 0, the warning list is made of the
    lines of stdout that contain the word warning in any letter case,
    in order, and the error list is empty. *)
Theorem compileVerdict_classification (output : ProcessOutput) :
  compileVerdict output =
  ((exitCode output =? 0)%Z,
   if (exitCode output =? 0)%Z then []
   else List.filter (fun line => negb (blankLine line))
                    (split newline (stderr output)),
   if (exitCode output =? 0)%Z then spec_warningLines (stdout output)
   else []).
Proof.
  unfold compileVerdict, spec_warningLines.
  destruct (exitCode output =? 0)%Z; cbn [negb].
  - f_equal. apply List.filter_ext. intros line.
    destruct (includes (toLowerCase line) "warning") eqn:Hw.
    + rewrite notBlank_blankLine, (includes_warning_not_blank line Hw).
      reflexivity.
    + apply andb_false_r.
  - do 2 f_equal. apply List.filter_ext. intros line.
    apply notBlank_blankLine.
Qed.

End Verdict.

(* ================================================================== *)
(** ** The registry, generation and validation                          *)
(* ================================================================== *)

Section RegistryFacts.
Import Js Types World OpenRouter Sandbox Scenario.

Variable T : PromptTemplates.
Variable openRouterService : OpenRouterService.
Variable net : Network.

(** Writing twice under a key an object that keeps the counter of the
    stored one leaves every counter of the registry as it was. *)
Lemma executionCount_rewritten (sims : Registry) (simulationId : string)
    (sim a b : SandboxSimulation) (k : string) :
  sims !! simulationId = Some sim ->
  executionCount a = executionCount sim ->
  executionCount <$> (<[simulationId := a]> (<[simulationId := b]> sims) !! k)
  = executionCount <$> (sims !! k).
Proof.
  intros Hsim Ha. destruct (decide (simulationId = k)) as [<- | Hne].
  - rewrite lookup_insert_eq, Hsim. cbn. rewrite Ha. reflexivity.
  - rewrite !lookup_insert_ne by exact Hne. reflexivity.
Qed.

Lemma pushIf_true (message : string) (errors : list string) :
  pushIf true message errors <> [].
Proof. unfold pushIf. destruct errors; discriminate. Qed.

Lemma pushIf_keeps (test : bool) (message : string) (errors : list string) :
  errors <> [] -> pushIf test message errors <> [].
Proof. unfold pushIf. destruct test, errors; intros H; cbn; congruence. Qed.

Lemma not_valid (type : string) (parameters : Parameters) :
  errors (validateParameters type parameters) <> [] ->
  valid (validateParameters type parameters) = false.
Proof.
  unfold validateParameters. cbn [valid errors].
  intros H. apply Nat.eqb_neq. intros Hlen. apply H.
  apply length_zero_iff_nil. exact Hlen.
Qed.

(** C2 (as amended) — The service never writes [executionCount]: a call
    of [testCode], whatever its outcome, leaves the counter of every
    simulation of the registry as it was, and so does [generateCode]; a
    simulation made by [createSimulation] has none, and the other
    entries of the registry are untouched.  (The counter is kept by the
    user interface, in its own store.) *)
Theorem executionCount_never_written (env : SandboxEnv) (sims : Registry)
    (simulationId : string) (now : Z) (rnd : string) (date : Z)
    (type : string) (parameters : Parameters) :
  (forall k,
     executionCount
       <$> (snd (testCode T openRouterService net env sims simulationId) !! k)
     = executionCount <$> (sims !! k))
  /\ (forall k,
        executionCount
          <$> (snd (generateCode T openRouterService net sims simulationId) !! k)
        = executionCount <$> (sims !! k))
  /\ executionCount (fst (createSimulation sims now rnd date type parameters))
     = None
  /\ (forall k,
        k <> id (fst (createSimulation sims now rnd date type parameters)) ->
        snd (createSimulation sims now rnd date type parameters) !! k
        = sims !! k).
Proof.
  split; [| split; [| split]].
  - intros k. destruct (sims !! simulationId) as [sim |] eqn:Hsim.
    + destruct (String.eqb_spec (code sim) "") as [Hempty | Hcode].
      * unfold testCode. rewrite Hsim, Hempty. reflexivity.
      * destruct (testCode_reached T openRouterService net env sims
                    simulationId sim Hsim Hcode) as (-> & _).
        apply (executionCount_rewritten sims simulationId sim); [exact Hsim |].
        destruct (tryOutcome T openRouterService net env
                    (set_status st_compiling sim)); reflexivity.
    + unfold testCode. rewrite Hsim. reflexivity.
  - intros k. unfold generateCode, generateCode_begin.
    destruct (sims !! simulationId) as [sim |] eqn:Hsim; [| reflexivity].
    match goal with
    | |- context [let (_, _) := ?a in _] => destruct a as [t [text | e]]
    end; cbn [fst snd];
      apply (executionCount_rewritten sims simulationId sim);
      solve [exact Hsim | reflexivity].
  - reflexivity.
  - intros k Hk. unfold createSimulation in *. cbn [fst snd id] in *.
    apply lookup_insert_ne. congruence.
Qed.

(** C3 (as amended) — [createSimulation] applies no validation: for
    every type and every parameters object, valid or not, it returns a
    new simulation with status ['pending'], empty code and these
    parameters, and stores it in the registry under its id, leaving the
    other entries alone.  The type-specific checks live in
    [validateParameters] only, which rejects a token symbol of more
    than ten characters, a pool fee of -1 and a vault minimum deposit
    of 0. *)
Theorem createSimulation_stores_unvalidated (sims : Registry) (now : Z)
    (rnd : string) (date : Z) (type : string) (parameters : Parameters) :
  let created := createSimulation sims now rnd date type parameters in
  snd created !! id (fst created) = Some (fst created)
  /\ status (fst created) = st_pending
  /\ code (fst created) = ""
  /\ Types.parameters (fst created) = parameters
  /\ Types.type (fst created) = type
  /\ result (fst created) = None
  /\ (forall k, k <> id (fst created) -> snd created !! k = sims !! k)
  /\ (forall p s, p_symbol p = Some s -> (10 < String.length s)%nat ->
        valid (validateParameters "token" p) = false)
  /\ (forall p, p_fee p = Some (ofZ (-1)) ->
        valid (validateParameters "pool" p) = false)
  /\ (forall p, p_minDeposit p = Some "0" ->
        valid (validateParameters "vault" p) = false).
Proof.
  intros created. subst created. unfold createSimulation. cbn [fst snd id].
  split; [apply lookup_insert_eq |].
  do 5 (split; [reflexivity |]).
  split; [intros k Hk; apply lookup_insert_ne; congruence |].
  split; [| split].
  - intros p s Hs Hlen. apply not_valid.
    unfold validateParameters. cbn [errors String.eqb Ascii.eqb Bool.eqb].
    rewrite Hs.
    replace (10 <? lengthOf (Some s))%Z with true
      by (symmetry; apply Z.ltb_lt; cbn [lengthOf]; lia).
    rewrite !orb_true_r.
    repeat first [apply pushIf_true | apply pushIf_keeps].
  - intros p Hfee. apply not_valid.
    unfold validateParameters. cbn [errors String.eqb Ascii.eqb Bool.eqb].
    rewrite Hfee.
    replace (outside (Some (ofZ (-1))) 0 100) with true by reflexivity.
    repeat first [apply pushIf_true | apply pushIf_keeps].
  - intros p Hmin. apply not_valid.
    unfold validateParameters. cbn [errors String.eqb Ascii.eqb Bool.eqb].
    rewrite Hmin.
    replace (notPositive (Some "0")) with true by (vm_compute; reflexivity).
    apply pushIf_true.
Qed.

(** C10 — For a type string other than ['token'], ['pool'] and
    ['vault'], [validateParameters] runs no check at all: whatever the
    parameters object, it answers [valid = true] with an empty error
    list. *)
Theorem validateParameters_unknown_type (type : string)
    (parameters : Parameters) :
  type <> "token" -> type <> "pool" -> type <> "vault" ->
  validateParameters type parameters = {| valid := true; errors := [] |}.
Proof.
  intros Htoken Hpool Hvault. unfold validateParameters.
  destruct (String.eqb_spec type "token"); [contradiction |].
  destruct (String.eqb_spec type "pool"); [contradiction |].
  destruct (String.eqb_spec type "vault"); [contradiction |].
  reflexivity.
Qed.

End RegistryFacts.

(* ================================================================== *)
(** ** The statements on concrete scenarios                             *)
(* ================================================================== *)

Section Scenarios.
Import Js Types World OpenRouter Sandbox Scenario.


Lemma recovering_first : forall k, (k < 1)%nat -> rateLimitedAt recovering k.
Proof.
  intros k Hk. exists http429. destruct k as [| k]; [| exfalso; lia].
  split; reflexivity.
Defined.

Lemma recovering_second : succeedsAt recovering 1 (answer "ok").
Proof. exists (http200 (answer "ok")). repeat split; reflexivity. Defined.

Lemma service_configured : apiKey service <> "".
Proof. discriminate. Defined.

Lemma generated_lookup : generated !! demoId = Some generatedSimulation.
Proof. vm_compute. reflexivity. Defined.

Lemma generated_has_code : code generatedSimulation <> "".
Proof. discriminate. Defined.


(** The analysis wrapper after one rate-limited attempt. *)
Lemma wrappers_read_first_choice_witness :
  snd (analyzeCode templates service recovering "module demo::token {}" "token")
  = Returns "ok".
Proof.
  exact (proj1 (wrappers_read_first_choice templates service recovering 1
                  (answer "ok") service_configured ltac:(lia)
                  recovering_first recovering_second)
           "module demo::token {}" "token").
Defined.

(** With an empty choice list the analysis wrapper throws the engine's
    TypeError, which is no guarded failure of its own. *)
Lemma analyzeCode_empty_choices_counterexample :
  succeedsAt answeringNoChoice 0 {| choices := [] |}
  /\ snd (analyzeCode templates service answeringNoChoice
            "module demo::token {}" "token")
     = Throws (undefinedRead "message")
  /\ errorName (undefinedRead "message") = Some "TypeError"
  /\ ~ isMalformedResponseError (undefinedRead "message").
Proof.
  split; [| split; [| split]].
  - exists (http200 {| choices := [] |}). repeat split; reflexivity.
  - vm_compute. reflexivity.
  - reflexivity.
  - unfold isMalformedResponseError. vm_compute. discriminate.
Qed.

Lemma created_lookup : created !! demoId = Some demoSimulation.
Proof. vm_compute. reflexivity. Defined.

(** After a successful generation the status is neither ['generating']
    on the way nor ['pending'] at the end. *)
Lemma generateCode_status_counterexample :
  let run :=
    generateCode templates service (answering "module demo::token {}")
      created demoId in
  (exists started sims,
     generateCode_begin created demoId = Returns (started, sims)
     /\ sims !! demoId = Some started
     /\ status started = st_compiling
     /\ status started <> st_generating)
  /\ snd (fst run) = Returns "module demo::token {}"
  /\ exists stored,
       snd run !! demoId = Some stored
       /\ code stored = "module demo::token {}"
       /\ status stored = st_compiling
       /\ status stored <> st_pending.
Proof.
  split; [| split].
  - eexists. eexists. split; [vm_compute; reflexivity |].
    split; [vm_compute; reflexivity |].
    split; [reflexivity | discriminate].
  - vm_compute. reflexivity.
  - eexists. split; [vm_compute; reflexivity |].
    split; [reflexivity |]. split; [reflexivity | discriminate].
Qed.

(** A completed compile attempt on a simulation with code leaves its
    counter where it was. *)
Lemma testCode_executionCount_counterexample :
  let run :=
    testCode templates service (answering "Looks fine.")
      (sandbox (output 0 "Compiling" "") (Returns tt)) generated demoId in
  exists before after,
    generated !! demoId = Some before
    /\ code before <> ""
    /\ snd (fst run) = Returns after
    /\ snd run !! demoId = Some after
    /\ status after = st_success
    /\ countOf after = countOf before
    /\ countOf after <> (countOf before + 1)%Z.
Proof.
  eexists. eexists.
  split; [vm_compute; reflexivity |].
  split; [discriminate |].
  split; [vm_compute; reflexivity |].
  split; [vm_compute; reflexivity |].
  split; [reflexivity |].
  split; [reflexivity | discriminate].
Qed.

(** Creation with the three parameter records of the claim. *)
Lemma createSimulation_stores_unvalidated_witness :
  valid (validateParameters "token" longSymbolToken) = false
  /\ valid (validateParameters "pool" negativeFeePool) = false
  /\ valid (validateParameters "vault" zeroDepositVault) = false.
Proof.
  pose proof (createSimulation_stores_unvalidated ∅ 1700000000000
                "k3j9x2m1q" 1700000000000 "token" longSymbolToken) as H.
  cbv zeta in H.
  destruct H as (_ & _ & _ & _ & _ & _ & _ & Htoken & Hpool & Hvault).
  split; [| split].
  - apply (Htoken longSymbolToken "ABCDEFGHIJK"); [reflexivity |].
    cbn. lia.
  - apply Hpool. reflexivity.
  - apply Hvault. reflexivity.
Defined.

(** Records that fail validation are stored all the same. *)
Lemma createSimulation_invalid_counterexample :
  let token := createSimulation ∅ 1700000000000 "k3j9x2m1q" 1700000000000
                 "token" longSymbolToken in
  let pool := createSimulation ∅ 1700000000000 "k3j9x2m1q" 1700000000000
                "pool" negativeFeePool in
  let vault := createSimulation ∅ 1700000000000 "k3j9x2m1q" 1700000000000
                 "vault" zeroDepositVault in
  (validateParameters "token" longSymbolToken
   = {| valid := false; errors := ["Token symbol must be 1-10 characters"] |}
   /\ snd token !! demoId = Some (fst token)
   /\ snd token <> ∅)
  /\ (validateParameters "pool" negativeFeePool
      = {| valid := false; errors := ["Fee must be between 0 and 100"] |}
      /\ snd pool !! demoId = Some (fst pool)
      /\ snd pool <> ∅)
  /\ (validateParameters "vault" zeroDepositVault
      = {| valid := false;
           errors := ["Minimum deposit must be greater than 0"] |}
      /\ snd vault !! demoId = Some (fst vault)
      /\ snd vault <> ∅).
Proof.
  cbv zeta. unfold createSimulation. cbn [fst snd].
  repeat split; first
    [ vm_compute; reflexivity
    | apply insert_non_empty ].
Qed.

(** The compiler succeeds, the analysis request is answered with a 500. *)
Lemma testCode_analysis_failure_reported_witness :
  exists reported,
    snd (testCode templates service failing500
           (sandbox (output 0 "Compiling" "") (Returns tt)) generated demoId)
      !! demoId = Some reported
    /\ status reported = st_error
    /\ result reported
       = Some (failureResult "OpenRouter API error: 500 Internal Server Error").
Proof.
  pose proof (testCode_analysis_failure_reported templates service failing500
                (sandbox (output 0 "Compiling" "") (Returns tt)) generated
                demoId generatedSimulation (output 0 "Compiling" "")
                (newError "OpenRouter API error: 500 Internal Server Error")
                generated_lookup generated_has_code) as H.
  cbv zeta in H. destruct H as (reported & Hstored & Hstatus & Hresult & _).
  - unfold compilerRan. repeat split; try reflexivity.
    exists (output 0 "" ""). reflexivity.
  - vm_compute. reflexivity.
  - exists reported. split; [exact Hstored |]. split; [exact Hstatus |].
    exact Hresult.
Defined.

(** Exit code 0 and a failed analysis: the result says failure and the
    status is ['error'], not what the compiler's verdict alone gives. *)
Lemma testCode_analysis_failure_counterexample :
  let compiled := output 0 "Compiling" "" in
  let run :=
    testCode templates service failing500 (sandbox compiled (Returns tt))
      generated demoId in
  compilerRan (sandbox compiled (Returns tt)) compiled
  /\ fst (fst (compileVerdict compiled)) = true
  /\ snd (analyzeCode templates service failing500
            (code generatedSimulation) (type generatedSimulation))
     = Throws (newError "OpenRouter API error: 500 Internal Server Error")
  /\ exists after,
       snd run !! demoId = Some after
       /\ status after = st_error
       /\ status after <> st_success
       /\ (r_success <$> result after) = Some false
       /\ (r_success <$> result after) <> Some true.
Proof.
  cbv zeta. split; [| split; [| split]].
  - unfold compilerRan. repeat split; try reflexivity.
    exists (output 0 "" ""). reflexivity.
  - reflexivity.
  - vm_compute. reflexivity.
  - eexists. split; [vm_compute; reflexivity |].
    split; [reflexivity |]. split; [discriminate |].
    split; [reflexivity | discriminate].
Qed.

(** The installation cannot be started and the teardown fails too: the
    operation does not return, it throws the teardown's error. *)
Lemma testCode_teardown_failure_counterexample :
  let run :=
    testCode templates service (answering "Looks fine.") brokenSandbox
      generated demoId in
  generated !! demoId = Some generatedSimulation
  /\ code generatedSimulation <> ""
  /\ env_create brokenSandbox = Returns tt
  /\ env_installStart brokenSandbox = Throws (newError "process start failed")
  /\ env_close brokenSandbox = Throws (newError "sandbox close failed")
  /\ snd (fst run) = Throws (newError "sandbox close failed")
  /\ (forall returned, snd (fst run) <> Returns returned).
Proof.
  cbv zeta. split; [vm_compute; reflexivity |].
  split; [discriminate |].
  split; [reflexivity |]. split; [reflexivity |]. split; [reflexivity |].
  assert (H : snd (fst (testCode templates service (answering "Looks fine.")
                          brokenSandbox generated demoId))
              = Throws (newError "sandbox close failed"))
    by (vm_compute; reflexivity).
  split; [exact H |].
  intros returned. rewrite H. discriminate.
Qed.

(** A line of blanks in stderr is not empty, yet it is not reported. *)
Lemma compileVerdict_blank_line_counterexample :
  let compiled := output 1 "" stderrWithBlankLine in
  exitCode compiled <> 0%Z
  /\ snd (fst (compileVerdict compiled))
     = ["error: missing module"; "error: unresolved import"]
  /\ spec_nonEmptyLines (stderr compiled)
     = ["error: missing module"; "   "; "error: unresolved import"]
  /\ snd (fst (compileVerdict compiled)) <> spec_nonEmptyLines (stderr compiled).
Proof.
  cbv zeta. split; [discriminate |].
  split; [vm_compute; reflexivity |].
  split; [vm_compute; reflexivity |].
  vm_compute. discriminate.
Qed.

(** An artifact type the service does not know passes validation with
    any parameters. *)
Lemma validateParameters_unknown_type_witness :
  validateParameters "nft" longSymbolToken = {| valid := true; errors := [] |}.
Proof.
  apply (validateParameters_unknown_type "nft" longSymbolToken);
    discriminate.
Defined.

End Scenarios.

(* ================================================================== *)
(** ** Further properties of the request client                         *)
(* ================================================================== *)

Section RequestTrace.
Import Js Types World OpenRouter Scenario Observe.

Lemma fetchCount_fetch (model : string) (messages : list OpenRouterMessage)
    (t : list Event) :
  fetchCount (Fetch model messages :: t) = S (fetchCount t).
Proof. reflexivity. Qed.

Lemma fetchCount_sleep (ms : JsNumber) (t : list Event) :
  fetchCount (Sleep ms :: t) = fetchCount t.
Proof. reflexivity. Qed.

Lemma fetchModels_app (t t' : list Event) :
  fetchModels (t ++ t') = (fetchModels t ++ fetchModels t')%list.
Proof.
  induction t as [| ev t IH]; [reflexivity |].
  destruct ev; cbn [fetchModels app]; rewrite IH; reflexivity.
Qed.

Lemma sleeps_app (t t' : list Event) :
  sleeps (t ++ t') = (sleeps t ++ sleeps t')%list.
Proof.
  induction t as [| ev t IH]; [reflexivity |].
  destruct ev; cbn [sleeps app]; rewrite IH; reflexivity.
Qed.

Variable net : Network.
Variable messages : list OpenRouterMessage.
Variable R : Z.

(** What holds of the trace of the loop from any iteration on, whatever
    the network answers. *)
Lemma requestLoop_trace (fuel : nat) :
  forall (i : Z) (model : string) (lastError : option Thrown),
    (Z.to_nat (R + 1 - i) <= fuel)%nat ->
    let t := fst (requestLoop net messages R fuel i model lastError) in
    (fetchCount t <= Z.to_nat (R + 1 - i))%nat
    /\ fetchModels t
       = List.map (fun k => Nat.iter k downgrade model) (seq 0 (fetchCount t))
    /\ fetchPayloads t = repeat messages (fetchCount t)
    /\ length (sleeps t) = Nat.pred (fetchCount t)
    /\ length t = (fetchCount t + length (sleeps t))%nat
    /\ ((i <= R)%Z -> (1 <= fetchCount t)%nat).
Proof.
  induction fuel as [| fuel IH]; intros i model lastError Hfuel t; subst t.
  - cbn. repeat split; lia.
  - destruct (Z.leb_spec i R) as [Hi | Hi].
    + rewrite requestLoop_step by exact Hi.
      destruct (net (Z.to_nat i)) as [response | e].
      * rewrite bind_call_returns.
        destruct (http_status response =? 429)%Z.
        -- destruct (Z.eqb_spec i R) as [Heq | Hne].
           ++ cbn. repeat split; lia.
           ++ rewrite bind_call_returns. cbn [fst snd].
              fold (downgrade model).
              specialize (IH (i + 1)%Z (downgrade model)
                            (Some (newError "429 Too Many Requests"))
                            ltac:(lia)).
              cbv zeta in IH.
              destruct IH as (Hbound & Hmodels & Hpayloads & Hsleeps & Hlen
                              & Hone).
              specialize (Hone ltac:(lia)).
              rewrite fetchCount_fetch, fetchCount_sleep.
              cbn [fetchModels fetchPayloads sleeps length].
              rewrite Hmodels, Hpayloads.
              split; [lia |]. split.
              { cbn [seq List.map Nat.iter nat_rect]. f_equal.
                rewrite <- seq_shift, List.map_map.
                apply List.map_ext. intros k.
                symmetry. apply Nat.iter_succ_r. }
              split; [reflexivity |]. repeat split; lia.
        -- destruct (negb (http_ok response)); cbn; repeat split; lia.
      * rewrite bind_call_throws. cbn. repeat split; lia.
    + cbn [requestLoop].
      replace (i <=? R)%Z with false by (symmetry; apply Z.leb_gt; exact Hi).
      cbn. repeat split; lia.
Qed.

(** [n] rate-limited attempts, none of them the last one allowed: the
    loop goes on from iteration [i + n] with the model downgraded [n]
    times, after [n] requests and [n] waits. *)
Lemma requestLoop_skip (n : nat) :
  forall (fuel : nat) (i : Z) (model : string) (lastError : option Thrown),
    (0 <= i)%Z -> (i + Z.of_nat n <= R)%Z ->
    (forall k, (k < n)%nat -> rateLimitedAt net (Z.to_nat i + k)) ->
    exists pre lastError',
      requestLoop net messages R (n + fuel) i model lastError
      = ((pre ++ fst (requestLoop net messages R fuel (i + Z.of_nat n)
                        (Nat.iter n downgrade model) lastError'))%list,
         snd (requestLoop net messages R fuel (i + Z.of_nat n)
                (Nat.iter n downgrade model) lastError'))
      /\ fetchCount pre = n /\ closeCount pre = 0%nat.
Proof.
  induction n as [| n IH]; intros fuel i model lastError Hi HR Hlim.
  - exists [], lastError. cbn [Nat.iter nat_rect Nat.add app Z.of_nat].
    rewrite Z.add_0_r. destruct (requestLoop _ _ _ _ _ _ _). repeat split.
  - cbn [Nat.add]. rewrite requestLoop_step by lia.
    destruct (Hlim 0%nat ltac:(lia)) as (response & Hnet & Hstatus).
    rewrite Nat.add_0_r in Hnet.
    rewrite Hnet, bind_call_returns, Hstatus. cbn [Z.eqb Pos.eqb fst snd].
    replace (i =? R)%Z with false by (symmetry; apply Z.eqb_neq; lia).
    rewrite bind_call_returns. fold (downgrade model).
    destruct (IH fuel (i + 1)%Z (downgrade model)
                (Some (newError "429 Too Many Requests")))
      as (pre & lastError' & Heq & Hcount & Hclose).
    + lia.
    + lia.
    + intros k Hk.
      replace (Z.to_nat (i + 1) + k)%nat with (Z.to_nat i + S k)%nat by lia.
      apply Hlim. lia.
    + rewrite Heq. cbn [fst snd].
      replace (i + 1 + Z.of_nat n)%Z with (i + Z.of_nat (S n))%Z by lia.
      rewrite <- Nat.iter_succ_r.
      exists (Fetch model messages
              :: Sleep (retryDelay (retryAfter response) i) :: pre),
             lastError'.
      split; [reflexivity |]. split.
      * rewrite fetchCount_fetch, fetchCount_sleep, Hcount. reflexivity.
      * exact Hclose.
Qed.

(** After [N] rate-limited attempts, an attempt within the budget whose
    answer is no rate-limit signal ends the call: [N + 1] requests, the
    last one with the model downgraded [N] times. *)
Lemma makeRequest_decisive (this : OpenRouterService) (model : string)
    (N : nat) :
  apiKey this <> "" -> (Z.of_nat N <= R)%Z ->
  (forall k, (k < N)%nat -> rateLimitedAt net k) ->
  notRateLimited (net N) ->
  exists pre,
    makeRequest this net messages model R
    = ((pre ++ [Fetch (Nat.iter N downgrade model) messages])%list,
       decisive (net N))
    /\ fetchCount pre = N.
Proof.
  intros Hkey HN Hlim Hnot.
  rewrite makeRequest_configured by exact Hkey.
  replace (Z.to_nat (R + 1)) with (N + S (Z.to_nat (R - Z.of_nat N)))%nat
    by lia.
  destruct (requestLoop_skip N (S (Z.to_nat (R - Z.of_nat N))) 0%Z model None)
    as (pre & lastError' & Heq & Hcount & _).
  - lia.
  - lia.
  - exact Hlim.
  - rewrite Heq. exists pre. split; [| exact Hcount].
    rewrite requestLoop_step by lia.
    replace (Z.to_nat (0 + Z.of_nat N)) with N by lia.
    unfold decisive, notRateLimited in *.
    destruct (net N) as [response | e].
    + rewrite bind_call_returns.
      replace (http_status response =? 429)%Z with false
        by (symmetry; apply Z.eqb_neq; exact Hnot).
      destruct (http_ok response); reflexivity.
    + rewrite bind_call_throws. reflexivity.
Qed.

End RequestTrace.

Section ModelDowngrade.
Import Js Types World OpenRouter Scenario Observe.

Lemma prefix_refl (s : string) : String.prefix s s = true.
Proof.
  induction s as [| c s IH]; [reflexivity |].
  cbn [String.prefix]. destruct (ascii_dec c c); [exact IH | contradiction].
Qed.

Lemma append_cons (c : ascii) (s s' : string) :
  String c s ++ s' = String c (s ++ s').
Proof. reflexivity. Qed.

Lemma append_empty (s : string) : "" ++ s = s.
Proof. reflexivity. Qed.

Lemma endsWith_app (base suffix : string) :
  endsWith (base ++ suffix) suffix = true.
Proof.
  induction base as [| c base IH].
  - rewrite append_empty. destruct suffix as [| a suffix]; [reflexivity |].
    cbn [endsWith]. rewrite String.eqb_refl. reflexivity.
  - rewrite append_cons. cbn [endsWith].
    destruct (String.eqb (String c (base ++ suffix)) suffix);
      [reflexivity | exact IH].
Qed.

Lemma includes_false_endsWith (s pattern : string) :
  includes s pattern = false -> endsWith s pattern = false.
Proof.
  induction s as [| c s IH]; cbn [includes endsWith]; intros H.
  - destruct (String.eqb_spec "" pattern) as [<- | _]; [discriminate H |].
    reflexivity.
  - destruct (String.prefix pattern (String c s)) eqn:Hp; [discriminate H |].
    destruct (String.eqb_spec (String c s) pattern) as [<- | _].
    + rewrite prefix_refl in Hp. discriminate Hp.
    + apply IH. exact H.
Qed.

(** A pattern without a colon matches at the head of [s ++ ":" ..]
    exactly when it matches at the head of [s]. *)
Lemma prefix_app_colon (p : string) :
  forallb (fun a => negb (Ascii.eqb a ":")) (list_ascii_of_string p) = true ->
  forall s rest,
    String.prefix p (s ++ String ":" rest) = String.prefix p s.
Proof.
  induction p as [| a p IH]; intros Hp s rest.
  - destruct s; reflexivity.
  - cbn [list_ascii_of_string forallb] in Hp.
    apply andb_prop in Hp as [Ha Hp].
    destruct s as [| b s].
    + rewrite append_empty. cbn [String.prefix].
      destruct (ascii_dec a ":") as [-> | _]; [discriminate Ha | reflexivity].
    + rewrite append_cons. cbn [String.prefix].
      destruct (ascii_dec a b); [apply IH; exact Hp | reflexivity].
Qed.

Lemma replace_free_suffix (base : string) :
  includes base ":free" = false ->
  replace (base ++ ":free") ":free" "" = base.
Proof.
  induction base as [| c base IH]; intros H; [reflexivity |].
  cbn [includes] in H.
  destruct (String.prefix ":free" (String c base)) eqn:Hp; [discriminate H |].
  rewrite append_cons. cbn [replace].
  replace (String.prefix ":free" (String c (base ++ ":free"))) with false.
  - rewrite (IH H). reflexivity.
  - symmetry. cbn [String.prefix] in *.
    destruct (ascii_dec ":" c); [| reflexivity].
    rewrite (prefix_app_colon "free" eq_refl). exact Hp.
Qed.

Lemma downgrade_free (base : string) :
  includes base ":free" = false ->
  downgrade (base ++ ":free") = base /\ downgrade base = base.
Proof.
  intros H. unfold downgrade.
  rewrite endsWith_app, (includes_false_endsWith base ":free" H).
  split; [apply replace_free_suffix; exact H | reflexivity].
Qed.

Lemma iter_fixed {A} (f : A -> A) (x : A) (k : nat) :
  f x = x -> Nat.iter k f x = x.
Proof.
  intros Hf. induction k as [| k IH]; [reflexivity |].
  rewrite Nat.iter_succ_r, Hf. exact IH.
Qed.

End ModelDowngrade.

(* ================================================================== *)
(** ** The waits, the shape of a request's trace, and how it ends      *)
(* ================================================================== *)

Section Numbers.
Import Js Types World OpenRouter.

Lemma nearestNumber_small (z : Z) :
  (Z.abs z < 2 ^ 53)%Z -> nearestNumber z = ofZ z.
Proof.
  intros Hz. unfold nearestNumber.
  destruct (Z.leb_spec (Z.log2 (Z.abs z) - 52) 0) as [_ | He]; [reflexivity |].
  exfalso.
  destruct (Z.eq_dec (Z.abs z) 0%Z) as [H0 | H0].
  - rewrite H0 in He. change (Z.log2 0) with 0%Z in He. lia.
  - assert (Z.log2 (Z.abs z) < 53)%Z; [| lia].
    apply Z.log2_lt_pow2; lia.
Qed.

(** A multiple of a power of two whose other factor has at most 53 bits
    is a Number as long as it is below [2^1024]. *)
Lemma nearestNumber_scaled (a k : Z) :
  (0 <= k)%Z -> (Z.abs a < 2 ^ 53)%Z -> (Z.abs a * 2 ^ k < 2 ^ 1024)%Z ->
  nearestNumber (a * 2 ^ k) = ofZ (a * 2 ^ k).
Proof.
  intros Hk Ha Hbound. unfold nearestNumber.
  set (m := Z.abs (a * 2 ^ k)).
  assert (Hm : m = (Z.abs a * 2 ^ k)%Z).
  { subst m. rewrite Z.abs_mul. f_equal. apply Z.abs_eq. lia. }
  destruct (Z.leb_spec (Z.log2 m - 52) 0) as [_ | He]; [reflexivity |].
  assert (Hpos : (0 < Z.abs a)%Z).
  { destruct (Z.eq_dec (Z.abs a) 0%Z) as [H0 | H0]; [| lia].
    rewrite Hm, H0, Z.mul_0_l in He. change (Z.log2 0) with 0%Z in He. lia. }
  assert (Hlog : Z.log2 m = (k + Z.log2 (Z.abs a))%Z).
  { rewrite Hm. apply Z.log2_mul_pow2; lia. }
  assert (Hla : (Z.log2 (Z.abs a) < 53)%Z) by (apply Z.log2_lt_pow2; lia).
  assert (Hla0 : (0 <= Z.log2 (Z.abs a))%Z) by apply Z.log2_nonneg.
  set (e := (Z.log2 m - 52)%Z) in *.
  assert (Hek : (e <= k)%Z) by lia.
  assert (Hsplit : m = (Z.abs a * 2 ^ (k - e) * 2 ^ e)%Z).
  { rewrite Hm, <- Z.mul_assoc, <- Z.pow_add_r by lia. do 2 f_equal. lia. }
  assert (Hpow : (0 < 2 ^ e)%Z) by (apply Z.pow_pos_nonneg; lia).
  assert (Hr : (m mod 2 ^ e = 0)%Z).
  { rewrite Hsplit. apply Z.mod_mul. lia. }
  assert (Hq : (m / 2 ^ e * 2 ^ e = m)%Z).
  { rewrite Hsplit at 1. rewrite Z.div_mul by lia. symmetry. exact Hsplit. }
  rewrite Hr.
  assert (Hhalf : (0 < 2 ^ (e - 1))%Z) by (apply Z.pow_pos_nonneg; lia).
  replace (2 ^ (e - 1) <? 0)%Z with false by (symmetry; apply Z.ltb_ge; lia).
  replace (2 ^ (e - 1) =? 0)%Z with false by (symmetry; apply Z.eqb_neq; lia).
  cbn [orb andb]. rewrite Hq.
  replace (2 ^ 1024 <=? m)%Z with false by (symmetry; apply Z.leb_gt; lia).
  f_equal. subst m. rewrite Z.mul_comm. apply Z.abs_sgn.
Qed.

Lemma timesThousand_ofZ (z : Z) :
  timesThousand (ofZ z) = nearestNumber (z * 1000).
Proof.
  unfold timesThousand, ofZ. f_equal.
  unfold Qfloor, Qmult, inject_Z. cbn [Qnum Qden]. apply Z.div_1_r.
Qed.

(** Without a header the wait after attempt [i] is [2^i] seconds, as
    long as that is a Number: up to attempt 1014. *)
Lemma retryDelay_backoff (header : option string) (i : Z) :
  falsyString header = true -> (0 <= i <= 1014)%Z ->
  retryDelay header i = ofZ (2 ^ i * 1000).
Proof.
  intros Hfalsy Hi.
  assert (H : timesThousand (powerOfTwo i) = ofZ (2 ^ i * 1000)).
  { unfold powerOfTwo.
    replace (i <=? 1023)%Z with true by (symmetry; apply Z.leb_le; lia).
    rewrite timesThousand_ofZ.
    replace (2 ^ i * 1000)%Z with (1000 * 2 ^ i)%Z by lia.
    apply nearestNumber_scaled; [lia | cbn; lia |].
    apply Z.lt_le_trans with (2 ^ 10 * 2 ^ i)%Z.
    - apply Z.mul_lt_mono_pos_r; [apply Z.pow_pos_nonneg; lia | cbn; lia].
    - rewrite <- Z.pow_add_r by lia. apply Z.pow_le_mono_r; lia. }
  unfold retryDelay, falsyString in *.
  destruct header as [s |]; [| exact H].
  rewrite Hfalsy. exact H.
Qed.

(** With a header that reads as a number of seconds whose milliseconds
    fit 53 bits, the wait is that many milliseconds. *)
Lemma retryDelay_header (s : string) (n i : Z) :
  s <> "" -> integerPrefix s = Some n -> (Z.abs n * 1000 < 2 ^ 53)%Z ->
  retryDelay (Some s) i = ofZ (n * 1000).
Proof.
  intros Hs Hread Hn. unfold retryDelay, parseInt10.
  destruct (String.eqb_spec s "") as [Heq | _]; [contradiction |].
  rewrite Hread, nearestNumber_small by lia.
  rewrite timesThousand_ofZ. apply nearestNumber_small.
  rewrite Z.abs_mul. cbn [Z.abs]. exact Hn.
Qed.

(** From attempt 1015 on [2^i * 1000] is beyond the Numbers. *)
Lemma retryDelay_overflow (header : option string) (i : Z) :
  falsyString header = true -> (1015 <= i)%Z ->
  retryDelay header i = Infinity false.
Proof.
  intros Hfalsy Hi.
  assert (H : timesThousand (powerOfTwo i) = Infinity false).
  { unfold powerOfTwo. destruct (Z.leb_spec i 1023) as [Hle | _]; [| reflexivity].
    assert (Hcases : (i = 1015 \/ i = 1016 \/ i = 1017 \/ i = 1018
                      \/ i = 1019 \/ i = 1020 \/ i = 1021 \/ i = 1022
                      \/ i = 1023)%Z) by lia.
    repeat destruct Hcases as [-> | Hcases]; try subst i;
      vm_compute; reflexivity. }
  unfold retryDelay, falsyString in *.
  destruct header as [s |]; [| exact H].
  rewrite Hfalsy. exact H.
Qed.

End Numbers.

Section RequestShape.
Import Js Types World OpenRouter Scenario Observe.

Variable net : Network.
Variable messages : list OpenRouterMessage.
Variable R : Z.

(** The loop asks, and waits only between two requests. *)
Lemma requestLoop_alternates (fuel : nat) :
  forall (i : Z) (model : string) (lastError : option Thrown),
    (Z.to_nat (R + 1 - i) <= fuel)%nat ->
    let t := fst (requestLoop net messages R fuel i model lastError) in
    if (i <=? R)%Z then requestsWithWaitsBetween t = true else t = [].
Proof.
  induction fuel as [| fuel IH]; intros i model lastError Hfuel t; subst t.
  - destruct (Z.leb_spec i R); [exfalso; lia | reflexivity].
  - destruct (Z.leb_spec i R) as [Hi | Hi].
    + rewrite requestLoop_step by exact Hi.
      destruct (net (Z.to_nat i)) as [response | e]; [| reflexivity].
      rewrite bind_call_returns.
      destruct (http_status response =? 429)%Z.
      * destruct (Z.eqb_spec i R) as [Heq | Hne]; [reflexivity |].
        rewrite bind_call_returns. cbn [fst snd requestsWithWaitsBetween].
        specialize (IH (i + 1)%Z
                      (if endsWith model ":free" then replace model ":free" ""
                       else model)
                      (Some (newError "429 Too Many Requests")) ltac:(lia)).
        cbv zeta in IH.
        replace (i + 1 <=? R)%Z with true in IH
          by (symmetry; apply Z.leb_le; lia).
        exact IH.
      * destruct (negb (http_ok response)); reflexivity.
    + cbn [requestLoop].
      replace (i <=? R)%Z with false by (symmetry; apply Z.leb_gt; exact Hi).
      reflexivity.
Qed.

(** Every attempt rate-limited: the whole run of the loop. *)
Lemma requestLoop_rateLimited (header : nat -> option string) (fuel : nat) :
  forall (i : Z) (model : string) (lastError : option Thrown),
    (0 <= i <= R)%Z -> fuel = Z.to_nat (R + 1 - i) ->
    (forall k, (k <= Z.to_nat R)%nat -> rateLimitedWith net k (header k)) ->
    requestLoop net messages R fuel i model lastError
    = (rateLimitedRun messages
         (fun k => retryDelay (header k) (Z.of_nat k)) model
         (Z.to_nat i) (Nat.pred fuel),
       Throws tooManyRetries).
Proof.
  induction fuel as [| fuel IH]; intros i model lastError Hi Hfuel Hall.
  - exfalso. lia.
  - rewrite requestLoop_step by lia.
    destruct (Hall (Z.to_nat i) ltac:(lia)) as (response & Hnet & Hstatus & Hheader).
    rewrite Hnet, bind_call_returns, Hstatus. cbn [Z.eqb Pos.eqb fst snd].
    destruct (Z.eqb_spec i R) as [-> | Hne].
    + replace fuel with 0%nat by lia. reflexivity.
    + rewrite bind_call_returns. cbn [fst snd Nat.pred].
      rewrite (IH (i + 1)%Z) by (try exact Hall; lia).
      destruct fuel as [| fuel']; [exfalso; lia |].
      cbn [Nat.pred rateLimitedRun fst snd].
      rewrite Hheader. fold (downgrade model).
      replace (Z.of_nat (Z.to_nat i)) with i by lia.
      replace (Z.to_nat (i + 1)) with (S (Z.to_nat i)) by lia.
      reflexivity.
Qed.

Lemma rateLimitedRun_ext (d d' : nat -> JsNumber) (n : nat) :
  forall (model : string) (k : nat),
    (forall j, (k <= j < k + n)%nat -> d j = d' j) ->
    rateLimitedRun messages d model k n = rateLimitedRun messages d' model k n.
Proof.
  induction n as [| n IH]; intros model k Hd; [reflexivity |].
  cbn [rateLimitedRun]. rewrite (Hd k) by lia. do 2 f_equal.
  apply IH. intros j Hj. apply Hd. lia.
Qed.

(** Every attempt of the budget rate-limited: the last one throws. *)
Lemma makeRequest_exhausted (this : OpenRouterService) (model : string) :
  apiKey this <> "" -> (0 <= R)%Z ->
  (forall k, (k <= Z.to_nat R)%nat -> rateLimitedAt net k) ->
  snd (makeRequest this net messages model R) = Throws tooManyRetries.
Proof.
  intros Hkey HR Hall.
  rewrite makeRequest_configured by exact Hkey.
  replace (Z.to_nat (R + 1)) with (Z.to_nat R + 1)%nat by lia.
  destruct (requestLoop_skip net messages R (Z.to_nat R) 1 0%Z model None)
    as (pre & lastError' & Heq & _).
  - lia.
  - lia.
  - intros k Hk. apply Hall. lia.
  - rewrite Heq. cbn [snd].
    rewrite requestLoop_step by lia.
    destruct (Hall (Z.to_nat R) (le_n _)) as (response & Hnet & Hstatus).
    replace (Z.to_nat (0 + Z.of_nat (Z.to_nat R))) with (Z.to_nat R) by lia.
    rewrite Hnet, bind_call_returns, Hstatus. cbn [Z.eqb Pos.eqb].
    replace (0 + Z.of_nat (Z.to_nat R) =? R)%Z with true
      by (symmetry; apply Z.eqb_eq; lia).
    reflexivity.
Qed.

End RequestShape.

Section RemoteOutcome.
Import Js Types World OpenRouter Scenario Observe.

Variable this : OpenRouterService.
Variable net : Network.

Lemma ask_ends (messages : list OpenRouterMessage) (N : nat) :
  apiKey this <> "" -> endsAt net N ->
  snd (ask this net messages) = wrapperCompletion (net N).
Proof.
  intros Hkey (HN & Hlim & Hnot). unfold ask.
  destruct (makeRequest_decisive net messages defaultRetries this defaultModel
              N Hkey ltac:(unfold defaultRetries; lia) Hlim Hnot)
    as (pre & Heq & _).
  rewrite Heq. unfold wrapperCompletion, bind.
  destruct (decisive (net N)) as [body | e]; [| reflexivity].
  unfold firstChoiceContent. destruct (choices body); reflexivity.
Qed.

(** A wrapper returns what the remote service lets it return. *)
Lemma ask_returns (messages : list OpenRouterMessage) (text : string) :
  apiKey this <> "" -> remoteReturns net text ->
  snd (ask this net messages) = Returns text.
Proof.
  intros Hkey (N & Hends & Hcompletion).
  rewrite (ask_ends messages N Hkey Hends). exact Hcompletion.
Qed.

(** A wrapper throws what makes its request fail. *)
Lemma ask_fails (messages : list OpenRouterMessage) (e : Thrown) :
  requestFails this net e -> snd (ask this net messages) = Throws e.
Proof.
  intros [[Hkey ->] | [Hkey [[Hall ->] | (N & Hends & Hcompletion)]]].
  - unfold ask, makeRequest. rewrite Hkey. reflexivity.
  - unfold ask.
    rewrite (bind_fst_throws _ _ tooManyRetries); [reflexivity |].
    apply makeRequest_exhausted; [exact Hkey | unfold defaultRetries; lia |].
    exact Hall.
  - rewrite (ask_ends messages N Hkey Hends). exact Hcompletion.
Qed.

(** A request fails or returns: the remote service leaves no third way. *)
Lemma remote_outcome :
  (exists text, remoteReturns net text) \/ (exists e, remoteFails net e).
Proof.
  assert (Hdec : forall k, rateLimitedAt net k \/ notRateLimited (net k)).
  { intros k. unfold rateLimitedAt, notRateLimited.
    destruct (net k) as [response | e]; [| right; exact I].
    destruct (Z.eq_dec (http_status response) 429%Z) as [H | H].
    - left. exists response. split; [reflexivity | exact H].
    - right. exact H. }
  assert (Hend : forall N, endsAt net N ->
            (exists text, remoteReturns net text) \/ (exists e, remoteFails net e)).
  { intros N Hends. destruct (wrapperCompletion (net N)) as [text | e] eqn:Hc.
    - left. exists text, N. split; assumption.
    - right. exists e. right. exists N. split; assumption. }
  destruct (Hdec 0%nat) as [H0 | H0].
  - destruct (Hdec 1%nat) as [H1 | H1].
    + destruct (Hdec 2%nat) as [H2 | H2].
      * right. exists tooManyRetries. left. split; [| reflexivity].
        intros k Hk.
        destruct k as [| [| [| k]]]; [assumption | assumption | assumption | lia].
      * apply (Hend 2%nat). split; [lia |]. split; [| exact H2].
        intros k Hk. destruct k as [| [| k]]; [assumption | assumption | lia].
    + apply (Hend 1%nat). split; [lia |]. split; [| exact H1].
      intros k Hk. destruct k as [| k]; [assumption | lia].
  - apply (Hend 0%nat). split; [lia |]. split; [| exact H0].
    intros k Hk. lia.
Qed.

End RemoteOutcome.

Section RequestClientMore.
Import Js Types World OpenRouter Scenario Observe Advisor.

Lemma makeRequest_trace (this : OpenRouterService) (net : Network)
    (messages : list OpenRouterMessage) (model : string) (R : Z) :
  let t := fst (makeRequest this net messages model R) in
  (fetchCount t <= Z.to_nat (R + 1))%nat
  /\ fetchModels t
     = List.map (fun k => Nat.iter k downgrade model) (seq 0 (fetchCount t))
  /\ fetchPayloads t = repeat messages (fetchCount t)
  /\ length (sleeps t) = Nat.pred (fetchCount t)
  /\ length t = (fetchCount t + length (sleeps t))%nat.
Proof.
  unfold makeRequest. destruct (String.eqb (apiKey this) "").
  - cbn. repeat split; lia.
  - pose proof (requestLoop_trace net messages R (Z.to_nat (R + 1)) 0%Z model
                  None ltac:(lia)) as H.
    cbv zeta in H. rewrite Z.sub_0_r in H.
    destruct H as (H1 & H2 & H3 & H4 & H5 & _).
    repeat split; assumption.
Qed.

Lemma ask_trace (this : OpenRouterService) (net : Network)
    (messages : list OpenRouterMessage) :
  fst (ask this net messages)
  = fst (makeRequest this net messages defaultModel defaultRetries).
Proof.
  unfold ask, bind.
  destruct (makeRequest this net messages defaultModel defaultRetries)
    as [t [response | e]]; cbn [fst]; [apply app_nil_r | reflexivity].
Qed.

(** X1 — Whatever the remote service answers, one call of [makeRequest]
    with an integer budget of at most [2^53], up to which the loop
    counter of the source is exact, makes at most [retries + 1]
    requests.  Its trace is empty when no
    key is configured or the budget is negative; otherwise it is a
    request followed any number of times by a wait and a request: the
    trace starts and ends with a request, exactly one wait stands
    between two consecutive requests and no wait follows the last
    request.  So there is one wait fewer than requests, and the trace
    holds nothing but these requests and waits. *)
Theorem makeRequest_budget_and_waits (this : OpenRouterService)
    (net : Network) (messages : list OpenRouterMessage) (model : string)
    (R : Z) :
  (R <= 2 ^ 53)%Z ->
  let t := fst (makeRequest this net messages model R) in
  (fetchCount t <= Z.to_nat (R + 1))%nat
  /\ (if String.eqb (apiKey this) "" || (R <? 0)%Z then t = []
      else requestsWithWaitsBetween t = true)
  /\ length (sleeps t) = Nat.pred (fetchCount t)
  /\ length t = (fetchCount t + length (sleeps t))%nat.
Proof.
  intros _.
  pose proof (makeRequest_trace this net messages model R) as H.
  cbv zeta in *. destruct H as (H1 & _ & _ & H4 & H5).
  split; [exact H1 |]. split; [| split; assumption].
  unfold makeRequest. destruct (String.eqb (apiKey this) ""); [reflexivity |].
  pose proof (requestLoop_alternates net messages R (Z.to_nat (R + 1)) 0%Z
                model None ltac:(lia)) as Hshape.
  cbv zeta in Hshape. cbn [orb].
  destruct (Z.ltb_spec R 0) as [Hneg | Hpos].
  - replace (0 <=? R)%Z with false in Hshape
      by (symmetry; apply Z.leb_gt; lia).
    exact Hshape.
  - replace (0 <=? R)%Z with true in Hshape
      by (symmetry; apply Z.leb_le; lia).
    exact Hshape.
Qed.

(** X2 — Every request of one call of [makeRequest] carries the
    caller's messages unchanged, and the k-th request (from 0) names
    the model obtained from the caller's by k applications of the
    free-tier switch: a model is switched at each rate-limit signal and
    at no other time. *)
Theorem makeRequest_models_and_messages (this : OpenRouterService)
    (net : Network) (messages : list OpenRouterMessage) (model : string)
    (R : Z) :
  let t := fst (makeRequest this net messages model R) in
  fetchModels t
  = List.map (fun k => Nat.iter k downgrade model) (seq 0 (fetchCount t))
  /\ fetchPayloads t = repeat messages (fetchCount t).
Proof.
  pose proof (makeRequest_trace this net messages model R) as H.
  cbv zeta in *. destruct H as (_ & H2 & H3 & _).
  split; assumption.
Qed.

(** X3 — For a free-tier model [base:free] (with no other [:free] in
    [base]) the first request names [base:free] and every later request
    of the call names [base]: the switch to the standard tier happens at
    the first rate-limit signal and is kept. *)
Theorem makeRequest_free_tier_switch (this : OpenRouterService)
    (net : Network) (messages : list OpenRouterMessage) (base : string)
    (R : Z) :
  includes base ":free" = false ->
  let t := fst (makeRequest this net messages (base ++ ":free") R) in
  fetchModels t
  = match fetchCount t with
    | O => []
    | S n => (base ++ ":free") :: repeat base n
    end.
Proof.
  intros Hbase t.
  destruct (makeRequest_trace this net messages (base ++ ":free") R)
    as (_ & Hmodels & _).
  fold t in Hmodels. rewrite Hmodels.
  destruct (fetchCount t) as [| n]; [reflexivity |].
  cbn [seq List.map Nat.iter nat_rect]. f_equal.
  rewrite <- seq_shift, List.map_map.
  destruct (downgrade_free base Hbase) as [Hfree Hfix].
  clear Hmodels. generalize 0%nat.
  induction n as [| n IH]; intros start; [reflexivity |].
  cbn [seq List.map repeat]. f_equal; [| apply IH].
  rewrite Nat.iter_succ_r, Hfree. apply iter_fixed. exact Hfix.
Qed.

(** X4 — Every wrapper of the service (shown on [ask], their common
    tail, and on [explainConcept] and [getRecommendations]) makes at
    most three requests, all of them naming the default model, whatever
    the remote service answers. *)
Theorem wrappers_use_default_model (this : OpenRouterService) (net : Network) :
  (forall messages,
     let t := fst (ask this net messages) in
     (fetchCount t <= 3)%nat
     /\ fetchModels t = repeat defaultModel (fetchCount t))
  /\ (forall prompt concept,
        let t := fst (explainConcept prompt this net concept) in
        (fetchCount t <= 3)%nat
        /\ fetchModels t = repeat defaultModel (fetchCount t))
  /\ (forall prompt userContext,
        let t := fst (getRecommendations prompt this net userContext) in
        (fetchCount t <= 3)%nat
        /\ fetchModels t = repeat defaultModel (fetchCount t)).
Proof.
  assert (Hask : forall messages,
             let t := fst (ask this net messages) in
             (fetchCount t <= 3)%nat
             /\ fetchModels t = repeat defaultModel (fetchCount t)).
  { intros messages t. subst t. rewrite ask_trace.
    destruct (makeRequest_trace this net messages defaultModel defaultRetries)
      as (Hbound & Hmodels & _).
    split; [exact Hbound |]. rewrite Hmodels.
    generalize (fetchCount
                  (fst (makeRequest this net messages defaultModel
                          defaultRetries))).
    intros n. generalize 0%nat.
    induction n as [| n IH]; intros start; [reflexivity |].
    cbn [seq List.map repeat]. f_equal; [| apply IH].
    apply iter_fixed. reflexivity. }
  split; [exact Hask |]. split; intros; apply Hask.
Qed.

(** X5 — A status that is neither 429 nor 2xx is not retried: when the
    first [N] attempts are rate-limited and attempt [N] (within the
    budget) is answered with such a status, [makeRequest] makes exactly
    [N + 1] requests and throws an error naming the status code and
    status text. *)
Theorem makeRequest_upstream_error_not_retried (this : OpenRouterService)
    (net : Network) (messages : list OpenRouterMessage) (model : string)
    (R : Z) (N : nat) (status : Z) (text : string) :
  apiKey this <> "" -> (Z.of_nat N <= R)%Z ->
  (forall k, (k < N)%nat -> rateLimitedAt net k) ->
  rejectedAt net N status text ->
  exists t,
    makeRequest this net messages model R
    = (t, Throws (newError ("OpenRouter API error: " ++ pretty status
                            ++ " " ++ text)))
    /\ fetchCount t = S N.
Proof.
  intros Hkey HN Hlim (response & Hnet & Hstatus & Htext & Hnot & Hok).
  destruct (makeRequest_decisive net messages R this model N Hkey HN Hlim)
    as (pre & Heq & Hcount).
  - rewrite Hnet. cbn. rewrite Hstatus. exact Hnot.
  - rewrite Heq, Hnet. cbn [decisive]. rewrite Hok, Hstatus, Htext.
    eexists. split; [reflexivity |].
    rewrite fetchCount_app, Hcount. cbn. lia.
Qed.

(** X6 — A network failure is passed on as it is and not retried: when
    the first [N] attempts are rate-limited and the [fetch] of attempt
    [N] (within the budget) rejects, [makeRequest] makes exactly [N + 1]
    requests and throws what [fetch] threw. *)
Theorem makeRequest_network_failure_propagates (this : OpenRouterService)
    (net : Network) (messages : list OpenRouterMessage) (model : string)
    (R : Z) (N : nat) (e : Thrown) :
  apiKey this <> "" -> (Z.of_nat N <= R)%Z ->
  (forall k, (k < N)%nat -> rateLimitedAt net k) ->
  net N = Throws e ->
  exists t,
    makeRequest this net messages model R = (t, Throws e)
    /\ fetchCount t = S N.
Proof.
  intros Hkey HN Hlim Hnet.
  destruct (makeRequest_decisive net messages R this model N Hkey HN Hlim)
    as (pre & Heq & Hcount).
  - rewrite Hnet. exact I.
  - rewrite Heq, Hnet. cbn [decisive].
    eexists. split; [reflexivity |].
    rewrite fetchCount_app, Hcount. cbn. lia.
Qed.

(** X7 — Exponential backoff: when every attempt is rate-limited and no
    answer carries a Retry-After header, a call with budget [R] (an
    integer from 0 to [2^53], where the loop counter is exact) makes
    [R + 1] requests, waits after each of them but the last, and throws
    the too-many-retries error; the wait that follows attempt [k] and
    precedes attempt [k + 1] lasts [2^k] seconds, that is 1000, 2000,
    4000, ... milliseconds, up to attempt 1014.  From attempt 1015 on
    [Math.pow(2, k) * 1000] exceeds the Numbers and the wait passed to
    the timer is [Infinity]. *)
Theorem makeRequest_exponential_backoff (this : OpenRouterService)
    (net : Network) (messages : list OpenRouterMessage) (model : string)
    (R : Z) :
  apiKey this <> "" -> (0 <= R <= 2 ^ 53)%Z ->
  (forall k, rateLimitedWith net k None) ->
  makeRequest this net messages model R
  = (rateLimitedRun messages
       (fun k => if (k <=? 1014)%nat then ofZ (2 ^ Z.of_nat k * 1000)
                 else Infinity false)
       model 0 (Z.to_nat R),
     Throws tooManyRetries).
Proof.
  intros Hkey [HR _] Hall. rewrite makeRequest_configured by exact Hkey.
  rewrite (requestLoop_rateLimited net messages R (fun _ => None)
             (Z.to_nat (R + 1)) 0%Z model None)
    by (try (intros k _; apply Hall); lia).
  replace (Nat.pred (Z.to_nat (R + 1))) with (Z.to_nat R) by lia.
  f_equal. apply rateLimitedRun_ext. intros j _.
  destruct (Nat.leb_spec j 1014) as [Hj | Hj].
  - apply retryDelay_backoff; [reflexivity | lia].
  - apply retryDelay_overflow; [reflexivity | lia].
Qed.

(** X8 — A Retry-After header takes precedence over the backoff: when
    every attempt is rate-limited with a non-empty header in which
    [parseInt] reads the integer [n], and [n * 1000] fits the 53 bits of
    a Number, a call with budget [R] (an integer from 0 to [2^53])
    makes [R + 1] requests and throws the too-many-retries error, and
    the wait between any two consecutive requests lasts [n * 1000]
    milliseconds, whatever the attempt number. *)
Theorem makeRequest_honours_retry_after (this : OpenRouterService)
    (net : Network) (messages : list OpenRouterMessage) (model : string)
    (R : Z) (header : string) (n : Z) :
  apiKey this <> "" -> (0 <= R <= 2 ^ 53)%Z ->
  header <> "" -> integerPrefix header = Some n ->
  (Z.abs n * 1000 < 2 ^ 53)%Z ->
  (forall k, rateLimitedWith net k (Some header)) ->
  makeRequest this net messages model R
  = (rateLimitedRun messages (fun _ => ofZ (n * 1000)) model 0 (Z.to_nat R),
     Throws tooManyRetries).
Proof.
  intros Hkey [HR _] Hne Hread Hn Hall.
  rewrite makeRequest_configured by exact Hkey.
  rewrite (requestLoop_rateLimited net messages R (fun _ => Some header)
             (Z.to_nat (R + 1)) 0%Z model None)
    by (try (intros k _; apply Hall); lia).
  replace (Nat.pred (Z.to_nat (R + 1))) with (Z.to_nat R) by lia.
  f_equal. apply rateLimitedRun_ext. intros j _.
  apply retryDelay_header; assumption.
Qed.

(** X9 — With a negative retry budget [makeRequest] sends nothing at
    all and throws the request-failed error; without a key it sends
    nothing either and throws the configuration error, whatever the
    budget. *)
Theorem makeRequest_sends_nothing (this : OpenRouterService) (net : Network)
    (messages : list OpenRouterMessage) (model : string) (R : Z) :
  (apiKey this = "" ->
   makeRequest this net messages model R
   = ([], Throws (newError "OpenRouter API key not configured")))
  /\ (apiKey this <> "" -> (R < 0)%Z ->
      makeRequest this net messages model R
      = ([], Throws (newError
                       "OpenRouter API error: request failed after retries"))).
Proof.
  split.
  - intros Hkey. unfold makeRequest. rewrite Hkey. reflexivity.
  - intros Hkey HR. rewrite makeRequest_configured by exact Hkey.
    destruct (Z.to_nat (R + 1)) as [| fuel]; [reflexivity |].
    cbn [requestLoop].
    replace (0 <=? R)%Z with false by (symmetry; apply Z.leb_gt; exact HR).
    reflexivity.
Qed.

End RequestClientMore.

(* ================================================================== *)
(** ** Further properties of [testCode] and [generateCode]              *)
(* ================================================================== *)

Section SandboxTeardown.
Import Js Types World OpenRouter Sandbox Scenario Observe.

Lemma createCount_app (t t' : list Event) :
  createCount (t ++ t') = (createCount t + createCount t')%nat.
Proof. unfold createCount. rewrite List.filter_app, List.length_app. reflexivity. Qed.

Lemma createCount_bind {A B} (m : Run A) (f : A -> Run B) :
  createCount (fst m) = 0%nat ->
  (forall a, createCount (fst (f a)) = 0%nat) ->
  createCount (fst (bind m f)) = 0%nat.
Proof.
  intros Hm Hf. destruct m as [t [a | e]]; simpl in *.
  - specialize (Hf a). destruct (f a) as [t' r]. simpl in *.
    rewrite createCount_app. lia.
  - exact Hm.
Qed.

(** A trace of requests and waits holds no sandbox call. *)
Lemma createCount_requests (t : list Event) :
  length t = (fetchCount t + length (sleeps t))%nat -> createCount t = 0%nat.
Proof.
  assert (Hle : forall u, (fetchCount u + length (sleeps u) <= length u)%nat).
  { induction u as [| ev u IH]; [reflexivity |].
    destruct ev; cbn [sleeps length];
      try rewrite fetchCount_fetch; try rewrite fetchCount_sleep;
      try (change (fetchCount (?ev :: u)) with (fetchCount u)); lia. }
  induction t as [| ev t IH]; [reflexivity |].
  intros Hlen. pose proof (Hle t) as Ht.
  destruct ev; cbn [sleeps length] in Hlen;
    try rewrite fetchCount_fetch in Hlen;
    try rewrite fetchCount_sleep in Hlen;
    try (change (fetchCount (?ev :: t)) with (fetchCount t) in Hlen);
    try (exfalso; lia);
    change (createCount (?ev :: t)) with (createCount t); apply IH; lia.
Qed.

Variable T : PromptTemplates.
Variable openRouterService : OpenRouterService.
Variable net : Network.

Lemma ask_no_create (messages : list OpenRouterMessage) :
  createCount (fst (ask openRouterService net messages)) = 0%nat.
Proof.
  rewrite ask_trace. apply createCount_requests.
  pose proof (makeRequest_trace openRouterService net messages defaultModel
                defaultRetries) as H.
  cbv zeta in H. destruct H as (_ & _ & _ & _ & H). exact H.
Qed.

Lemma compileInSandbox_no_create (env : SandboxEnv) (simulation : SandboxSimulation) :
  createCount (fst (compileInSandbox T openRouterService net env simulation))
  = 0%nat.
Proof.
  unfold compileInSandbox.
  repeat (apply createCount_bind; [reflexivity | intros ?]).
  destruct (compileVerdict _) as [[ok errs] warns].
  apply createCount_bind; [apply ask_no_create | reflexivity].
Qed.

(** C7 — [testCode] calls [Sandbox.create] at most once.  Whenever that
    call was made and resolved, so that a sandbox was provisioned, the
    trace holds exactly one teardown call: it starts with the [create]
    call and ends with the teardown, with neither of the two in
    between, whatever happens in between (compile success, compile
    failure, or any later call throwing).  When no sandbox was
    provisioned, because [create] was not called or rejected, the trace
    holds no teardown call.  A sandbox is provisioned exactly when the
    simulation exists and has code, the key is set and [Sandbox.create]
    resolves. *)
Theorem testCode_teardown_exactly_once (env : SandboxEnv) (sims : Registry)
    (simulationId : string) :
  let trace :=
    fst (fst (testCode T openRouterService net env sims simulationId)) in
  (createCount trace <= 1)%nat
  /\ sandboxAssigned env trace = environmentProvisioned env sims simulationId
  /\ (if sandboxAssigned env trace
      then closeCount trace = 1%nat
           /\ exists mid,
                trace = (SandboxCreate :: mid ++ [SandboxClose])%list
                /\ createCount mid = 0%nat /\ closeCount mid = 0%nat
      else closeCount trace = 0%nat).
Proof.
  intros trace. subst trace.
  unfold sandboxAssigned, environmentProvisioned, testCode.
  destruct (sims !! simulationId) as [sim |]; [| repeat split; cbn; lia].
  destruct (String.eqb (code sim) ""); [repeat split; cbn; lia |].
  unfold provision.
  destruct (falsyString (E2B_API_KEY env)); [repeat split; cbn; lia |].
  destruct (env_create env) as [[] | e]; [| repeat split; cbn; lia].
  cbn [call negb andb].
  pose proof (compileInSandbox_no_close T openRouterService net env
                (set_status st_compiling sim)) as Hclose.
  pose proof (compileInSandbox_no_create env (set_status st_compiling sim))
    as Hcreate.
  destruct (compileInSandbox T openRouterService net env
              (set_status st_compiling sim)) as [t2 attempt].
  cbn [fst snd] in *.
  assert (Hc : createCount ([SandboxCreate] ++ t2 ++ [SandboxClose]) = 1%nat).
  { rewrite !createCount_app, Hcreate. reflexivity. }
  rewrite Hc. cbn [Nat.ltb Nat.leb andb].
  split; [lia |]. split; [reflexivity |]. split.
  - rewrite !closeCount_app, Hclose. reflexivity.
  - exists t2. split; [reflexivity |]. split; assumption.
Qed.

(** What fails inside the [try] block is what the block throws. *)
Lemma tryFails_tryOutcome (env : SandboxEnv) (simulation : SandboxSimulation)
    (e : Thrown) :
  tryFails openRouterService net env e ->
  tryOutcome T openRouterService net env simulation = Throws e.
Proof.
  unfold tryFails, firstSandboxFailure.
  intros Hfail.
  destruct (falsyString (E2B_API_KEY env)) eqn:Hkey.
  { destruct Hfail as [[= <-] | [[=] _]].
    unfold tryOutcome, provision. rewrite Hkey. reflexivity. }
  destruct (env_create env) as [[] | e1] eqn:H1; cbn [thrown firstThrown] in Hfail;
    [| destruct Hfail as [[= <-] | [[=] _]];
       unfold tryOutcome, provision; rewrite Hkey, H1; reflexivity].
  destruct (env_installStart env) as [[] | e2] eqn:H2;
    cbn [thrown firstThrown] in Hfail;
    [| destruct Hfail as [[= <-] | [[=] _]];
       unfold tryOutcome, provision, compileInSandbox;
       rewrite Hkey, H1, H2; reflexivity].
  destruct (env_installWait env) as [o3 | e3] eqn:H3;
    cbn [thrown firstThrown] in Hfail;
    [| destruct Hfail as [[= <-] | [[=] _]];
       unfold tryOutcome, provision, compileInSandbox;
       rewrite Hkey, H1, H2, H3; reflexivity].
  destruct (env_writeManifest env) as [[] | e4] eqn:H4;
    cbn [thrown firstThrown] in Hfail;
    [| destruct Hfail as [[= <-] | [[=] _]];
       unfold tryOutcome, provision, compileInSandbox;
       rewrite Hkey, H1, H2, H3, H4; reflexivity].
  destruct (env_makeDir env) as [[] | e5] eqn:H5;
    cbn [thrown firstThrown] in Hfail;
    [| destruct Hfail as [[= <-] | [[=] _]];
       unfold tryOutcome, provision, compileInSandbox;
       rewrite Hkey, H1, H2, H3, H4, H5; reflexivity].
  destruct (env_writeSource env) as [[] | e6] eqn:H6;
    cbn [thrown firstThrown] in Hfail;
    [| destruct Hfail as [[= <-] | [[=] _]];
       unfold tryOutcome, provision, compileInSandbox;
       rewrite Hkey, H1, H2, H3, H4, H5, H6; reflexivity].
  destruct (env_compileStart env) as [[] | e7] eqn:H7;
    cbn [thrown firstThrown] in Hfail;
    [| destruct Hfail as [[= <-] | [[=] _]];
       unfold tryOutcome, provision, compileInSandbox;
       rewrite Hkey, H1, H2, H3, H4, H5, H6, H7; reflexivity].
  destruct (env_compileWait env) as [compiled | e8] eqn:H8;
    cbn [thrown firstThrown] in Hfail;
    [| destruct Hfail as [[= <-] | [[=] _]];
       unfold tryOutcome, provision, compileInSandbox;
       rewrite Hkey, H1, H2, H3, H4, H5, H6, H7, H8; reflexivity].
  destruct Hfail as [[=] | [_ Hrequest]].
  apply (tryOutcome_analysis_throws T openRouterService net env simulation
           compiled e).
  - unfold compilerRan. repeat split; try assumption.
    exists o3. exact H3.
  - unfold analyzeCode. apply ask_fails. exact Hrequest.
Qed.

(** C5 (as amended) — An error raised inside the [try] block of
    [testCode] is caught and not passed on.  Whatever fails there (the
    key check, [Sandbox.create], one of the seven sandbox calls up to
    the compiler run, or after them the analysis request), provided the
    teardown does not itself throw (or no sandbox was provisioned), the
    operation returns the simulation, whose result is [success = false]
    with the one-element error list holding the error's message and
    whose status is ['error']; the registry holds that simulation. *)
Theorem testCode_reports_sandbox_error (env : SandboxEnv) (sims : Registry)
    (simulationId : string) (sim : SandboxSimulation) (e : Thrown) :
  sims !! simulationId = Some sim -> code sim <> "" ->
  tryFails openRouterService net env e ->
  environmentProvisioned env sims simulationId = false
  \/ env_close env = Returns tt ->
  let message :=
    messageOr "An unknown error occurred during sandbox execution." e in
  let run := testCode T openRouterService net env sims simulationId in
  exists reported,
    snd (fst run) = Returns reported
    /\ snd run !! simulationId = Some reported
    /\ status reported = st_error
    /\ result reported =
       Some {| r_success := false; r_errors := [message]; r_warnings := None;
               r_gasEstimate := None; r_aiAnalysis := None |}
    /\ (forall name text, e = ErrorObj name text -> message = text).
Proof.
  intros Hsim Hcode Hfail Hquiet message run.
  pose proof (tryFails_tryOutcome env (set_status st_compiling sim) e Hfail)
    as Htry.
  destruct (testCode_reached T openRouterService net env sims simulationId sim
              Hsim Hcode) as (Hreg & Hres & _).
  fold run in Hreg, Hres. rewrite Htry in Hreg, Hres. cbn [settled] in *.
  eexists. split; [| split; [| split; [| split]]].
  - rewrite Hres. destruct Hquiet as [-> | ->]; [reflexivity |].
    destruct (environmentProvisioned env sims simulationId); reflexivity.
  - rewrite Hreg. apply lookup_settled.
  - reflexivity.
  - reflexivity.
  - intros name text ->. reflexivity.
Qed.

End SandboxTeardown.

Section SandboxMore.
Import Js Types World OpenRouter Sandbox Scenario Observe.

Variable T : PromptTemplates.
Variable openRouterService : OpenRouterService.
Variable net : Network.

(** The [try] block runs to its end exactly when every sandbox call up
    to the compiler run resolves and the analysis request returns. *)
Lemma tryOutcome_returns_iff (env : SandboxEnv) (simulation : SandboxSimulation)
    (r : SimulationResult) :
  tryOutcome T openRouterService net env simulation = Returns r
  <-> exists compiled analysis,
        compilerRan env compiled
        /\ snd (analyzeCode T openRouterService net (code simulation)
                  (type simulation)) = Returns analysis
        /\ r = verdictResult compiled analysis.
Proof.
  unfold tryOutcome, provision, compileInSandbox, compilerRan. split.
  - destruct (falsyString (E2B_API_KEY env)) eqn:Hkey; [discriminate |].
    destruct (env_create env) as [[] | ?]; [| discriminate].
    rewrite bind_call_returns; cbn [fst snd].
    destruct (env_installStart env) as [[] | ?]; [| discriminate].
    rewrite bind_call_returns; cbn [fst snd].
    destruct (env_installWait env) as [installed | ?]; [| discriminate].
    rewrite bind_call_returns; cbn [fst snd].
    destruct (env_writeManifest env) as [[] | ?]; [| discriminate].
    rewrite bind_call_returns; cbn [fst snd].
    destruct (env_makeDir env) as [[] | ?]; [| discriminate].
    rewrite bind_call_returns; cbn [fst snd].
    destruct (env_writeSource env) as [[] | ?]; [| discriminate].
    rewrite bind_call_returns; cbn [fst snd].
    destruct (env_compileStart env) as [[] | ?]; [| discriminate].
    rewrite bind_call_returns; cbn [fst snd].
    destruct (env_compileWait env) as [compiled | ?]; [| discriminate].
    rewrite bind_call_returns; cbn [fst snd].
    destruct (compileVerdict compiled) as [[ok errs] warns] eqn:Hv.
    destruct (analyzeCode T openRouterService net (code simulation)
                (type simulation)) as [ta [analysis | e]];
      cbn [bind ret fst snd]; [| discriminate].
    intros [= <-]. exists compiled, analysis.
    split; [| split; [reflexivity |]].
    + repeat split; try reflexivity. exists installed. reflexivity.
    + unfold verdictResult. rewrite Hv. reflexivity.
  - intros (compiled & analysis
            & (Hkey & Hcreate & Hstart & (io & Hwait) & Hmanifest & Hdir
               & Hsource & Hcstart & Hcwait) & Hanalysis & ->).
    rewrite Hkey, Hcreate, Hstart, Hwait, Hmanifest, Hdir, Hsource, Hcstart,
      Hcwait.
    repeat (rewrite bind_call_returns; cbn [fst snd]).
    unfold verdictResult.
    destruct (compileVerdict compiled) as [[ok errs] warns].
    rewrite (bind_fst_returns _ _ analysis Hanalysis). reflexivity.
Qed.

(** The verdict says success only with an empty error list. *)
Lemma verdictResult_success (compiled : ProcessOutput) (analysis : string) :
  r_success (verdictResult compiled analysis) = (exitCode compiled =? 0)%Z
  /\ (r_success (verdictResult compiled analysis) = true ->
      r_errors (verdictResult compiled analysis) = []).
Proof.
  unfold verdictResult, compileVerdict. cbn [fst snd r_success r_errors].
  destruct (exitCode compiled =? 0)%Z; split; try reflexivity; discriminate.
Qed.

(** X10 — The complete run of [testCode]: when every sandbox call
    resolves, the analysis request returns and the teardown resolves,
    the calls are, in this order, create, start and await the
    installation, write the manifest, make the sources directory, write
    the simulation's code to main.move, start and await the compiler in
    /home/user, the analysis request(s), close.  The returned and stored
    simulation has the compiler's verdict as its result, with the gas
    estimate label and the analysis text, and status ['success'] when
    the exit code is 0 and ['error'] otherwise. *)
Theorem testCode_complete_run (env : SandboxEnv) (sims : Registry)
    (simulationId : string) (sim : SandboxSimulation)
    (compiled : ProcessOutput) (requests : list Event) (analysis : string) :
  sims !! simulationId = Some sim -> code sim <> "" ->
  compilerRan env compiled ->
  analyzeCode T openRouterService net (code sim) (type sim)
  = (requests, Returns analysis) ->
  env_close env = Returns tt ->
  let final :=
    set_status (if (exitCode compiled =? 0)%Z then st_success else st_error)
      (set_result (verdictResult compiled analysis)
         (set_status st_compiling sim)) in
  testCode T openRouterService net env sims simulationId
  = (((sandboxSteps (code sim) ++ requests ++ [SandboxClose])%list,
      Returns final),
     <[simulationId := final]> sims).
Proof.
  intros Hsim Hcode
    (Hkey & Hcreate & Hstart & (io & Hwait) & Hmanifest & Hdir & Hsource
     & Hcstart & Hcwait) Hanalysis Hclose final.
  unfold testCode. rewrite Hsim.
  destruct (String.eqb_spec (code sim) "") as [Heq | _]; [contradiction |].
  unfold provision, compileInSandbox.
  rewrite Hkey, Hcreate, Hstart, Hwait, Hmanifest, Hdir, Hsource, Hcstart,
    Hcwait, Hclose.
  cbn [call].
  repeat (rewrite bind_call_returns; cbn [fst snd]).
  cbn [code type set_status].
  subst final. unfold verdictResult.
  destruct (verdictResult_success compiled analysis) as [Hok _].
  unfold verdictResult in Hok. cbn [r_success] in Hok. rewrite <- Hok.
  destruct (compileVerdict compiled) as [[ok errs] warns].
  rewrite Hanalysis. cbn [bind ret fst snd r_success].
  rewrite app_nil_r, insert_insert_eq. reflexivity.
Qed.

(** X11 — Calls are made in the fixed order and none is skipped: past
    its two guards, the trace of [testCode] is an initial part of the
    full sequence (the sandbox calls, then the analysis requests),
    followed by the teardown when a sandbox was provisioned.  So the
    compiler is started only after the manifest and the source were
    written, and the analysis is requested only after the compiler
    finished. *)
Theorem testCode_calls_in_order (env : SandboxEnv) (sims : Registry)
    (simulationId : string) (sim : SandboxSimulation) :
  sims !! simulationId = Some sim -> code sim <> "" ->
  let full :=
    (sandboxSteps (code sim)
     ++ fst (analyzeCode T openRouterService net (code sim) (type sim)))%list in
  exists done rest,
    full = (done ++ rest)%list
    /\ fst (fst (testCode T openRouterService net env sims simulationId))
       = (done ++ (if environmentProvisioned env sims simulationId
                   then [SandboxClose] else []))%list.
Proof.
  intros Hsim Hcode full. subst full.
  unfold testCode, environmentProvisioned. rewrite Hsim.
  destruct (String.eqb_spec (code sim) "") as [Heq | _]; [contradiction |].
  unfold provision, compileInSandbox. cbn [negb andb].
  set (ta := fst (analyzeCode T openRouterService net (code sim) (type sim))).
  destruct (falsyString (E2B_API_KEY env)).
  { exists [], (sandboxSteps (code sim) ++ ta)%list. split; reflexivity. }
  cbn [negb andb].
  destruct (env_create env) as [[] | ?].
  2: { exists (firstn 1 (sandboxSteps (code sim))),
              (skipn 1 (sandboxSteps (code sim)) ++ ta)%list.
       split; reflexivity. }
  cbn [call].
  destruct (env_installStart env) as [[] | ?].
  2: { exists (firstn 2 (sandboxSteps (code sim))),
              (skipn 2 (sandboxSteps (code sim)) ++ ta)%list.
       split; reflexivity. }
  rewrite bind_call_returns; cbn [fst snd].
  destruct (env_installWait env) as [installed | ?].
  2: { exists (firstn 3 (sandboxSteps (code sim))),
              (skipn 3 (sandboxSteps (code sim)) ++ ta)%list.
       split; reflexivity. }
  rewrite bind_call_returns; cbn [fst snd].
  destruct (env_writeManifest env) as [[] | ?].
  2: { exists (firstn 4 (sandboxSteps (code sim))),
              (skipn 4 (sandboxSteps (code sim)) ++ ta)%list.
       split; reflexivity. }
  rewrite bind_call_returns; cbn [fst snd].
  destruct (env_makeDir env) as [[] | ?].
  2: { exists (firstn 5 (sandboxSteps (code sim))),
              (skipn 5 (sandboxSteps (code sim)) ++ ta)%list.
       split; reflexivity. }
  rewrite bind_call_returns; cbn [fst snd].
  destruct (env_writeSource env) as [[] | ?].
  2: { exists (firstn 6 (sandboxSteps (code sim))),
              (skipn 6 (sandboxSteps (code sim)) ++ ta)%list.
       split; reflexivity. }
  rewrite bind_call_returns; cbn [fst snd].
  destruct (env_compileStart env) as [[] | ?].
  2: { exists (firstn 7 (sandboxSteps (code sim))),
              (skipn 7 (sandboxSteps (code sim)) ++ ta)%list.
       split; reflexivity. }
  rewrite bind_call_returns; cbn [fst snd].
  destruct (env_compileWait env) as [compiled | ?].
  2: { exists (sandboxSteps (code sim)), ta. split; reflexivity. }
  rewrite bind_call_returns; cbn [fst snd].
  destruct (compileVerdict compiled) as [[ok errs] warns].
  cbn [code type set_status]. subst ta.
  destruct (analyzeCode T openRouterService net (code sim) (type sim))
    as [ta [analysis | e]]; cbn [bind ret fst snd];
    exists (sandboxSteps (code sim) ++ ta)%list, [];
    (split; [rewrite app_nil_r; reflexivity |]);
    rewrite ?app_nil_r; cbn; rewrite <- ?app_assoc; reflexivity.
Qed.

End SandboxMore.

Section SandboxStates.
Import Js Types World OpenRouter Sandbox Scenario Observe.

Variable T : PromptTemplates.
Variable openRouterService : OpenRouterService.
Variable net : Network.

(** X12 — Past its two guards [testCode] always leaves the stored
    simulation with a result and with status ['success'] or ['error'],
    never ['compiling'].  The status is ['success'] exactly when every
    sandbox call up to the compiler run resolved, the exit code was 0
    and the analysis request returned; the result's success flag agrees
    with the status, and a successful result has an empty error list. *)
Theorem testCode_success_iff (env : SandboxEnv) (sims : Registry)
    (simulationId : string) (sim : SandboxSimulation) :
  sims !! simulationId = Some sim -> code sim <> "" ->
  exists stored r,
    snd (testCode T openRouterService net env sims simulationId)
      !! simulationId = Some stored
    /\ result stored = Some r
    /\ (status stored = st_success \/ status stored = st_error)
    /\ (status stored = st_success
        <-> exists compiled analysis,
              compilerRan env compiled /\ exitCode compiled = 0%Z
              /\ snd (analyzeCode T openRouterService net (code sim)
                        (type sim)) = Returns analysis)
    /\ (r_success r = true <-> status stored = st_success)
    /\ (r_success r = true -> r_errors r = []).
Proof.
  intros Hsim Hcode.
  destruct (testCode_reached T openRouterService net env sims simulationId
              sim Hsim Hcode) as (Hreg & _).
  rewrite Hreg, lookup_settled.
  pose proof (tryOutcome_returns_iff T openRouterService net env
                (set_status st_compiling sim)) as Hiff.
  cbn [code type set_status] in Hiff.
  destruct (tryOutcome T openRouterService net env
              (set_status st_compiling sim)) as [r | e] eqn:Htry.
  - destruct (proj1 (Hiff r) eq_refl)
      as (compiled & analysis & Hran & Hanalysis & ->).
    destruct (verdictResult_success compiled analysis) as [Hflag Herrs].
    eexists. exists (verdictResult compiled analysis).
    split; [reflexivity |]. split; [reflexivity |].
    cbn [settled status set_status result set_result].
    rewrite Hflag in *.
    destruct (exitCode compiled =? 0)%Z eqn:Hexit.
    + split; [left; reflexivity |]. split; [| split].
      * split; [intros _ | reflexivity].
        exists compiled, analysis. apply Z.eqb_eq in Hexit.
        split; [exact Hran | split; [exact Hexit | exact Hanalysis]].
      * split; reflexivity.
      * exact Herrs.
    + split; [right; reflexivity |]. split; [| split].
      * split; [discriminate |].
        intros (compiled' & analysis' & Hran' & Hexit' & _).
        exfalso.
        destruct Hran as (_ & _ & _ & _ & _ & _ & _ & _ & Hw).
        destruct Hran' as (_ & _ & _ & _ & _ & _ & _ & _ & Hw').
        rewrite Hw in Hw'. injection Hw' as <-.
        rewrite Hexit' in Hexit. discriminate Hexit.
      * split; discriminate.
      * discriminate.
  - eexists. eexists. split; [reflexivity |]. split; [reflexivity |].
    cbn [settled status set_status result set_result failureResult r_success
         r_errors].
    split; [right; reflexivity |]. split; [| split].
    + split; [discriminate |].
      intros (compiled & analysis & Hran & _ & Hanalysis). exfalso.
      assert (Hr : tryOutcome T openRouterService net env
                     (set_status st_compiling sim)
                   = Returns (verdictResult compiled analysis)).
      { rewrite Htry. apply (proj2 (Hiff (verdictResult compiled analysis))).
        exists compiled, analysis.
        split; [exact Hran | split; [exact Hanalysis | reflexivity]]. }
      rewrite Htry in Hr. discriminate Hr.
    + split; discriminate.
    + discriminate.
Qed.

(** X13 — [testCode] never looks at how the installation of the
    toolchain ended: with two providers that differ in the exit code
    and output of the installation process only, it makes the same
    calls, completes in the same way and leaves the same registry. *)
Theorem testCode_ignores_install_output (env : SandboxEnv)
    (first second : ProcessOutput) (sims : Registry) (simulationId : string) :
  testCode T openRouterService net (withInstallOutput env first) sims
    simulationId
  = testCode T openRouterService net (withInstallOutput env second) sims
      simulationId.
Proof.
  unfold testCode.
  destruct (sims !! simulationId) as [sim |]; [| reflexivity].
  destruct (String.eqb (code sim) ""); [reflexivity |].
  unfold provision, compileInSandbox, withInstallOutput.
  cbn [E2B_API_KEY env_create env_installStart env_installWait
       env_writeManifest env_makeDir env_writeSource env_compileStart
       env_compileWait env_close].
  destruct (falsyString (E2B_API_KEY env)); [reflexivity |].
  destruct (env_create env) as [[] | ?]; [| reflexivity].
  cbn [call].
  destruct (env_installStart env) as [[] | ?]; [| reflexivity].
  rewrite !bind_call_returns. reflexivity.
Qed.

(** X14 — [testCode] and [generateCode] change nothing but the code,
    status and result of the one simulation they are called on: they
    add and remove no entry, leave every other simulation as it is, and
    keep the id, type, parameters and creation time of the simulation
    they work on; [testCode] keeps its code as well. *)
Theorem operations_keep_identity (env : SandboxEnv) (sims : Registry)
    (simulationId : string) :
  let tested := snd (testCode T openRouterService net env sims simulationId) in
  let generated :=
    snd (generateCode T openRouterService net sims simulationId) in
  (forall k, tested !! k = None <-> sims !! k = None)
  /\ (forall k, generated !! k = None <-> sims !! k = None)
  /\ (forall k, k <> simulationId ->
        tested !! k = sims !! k /\ generated !! k = sims !! k)
  /\ (forall sim, sims !! simulationId = Some sim ->
        exists afterTest afterGenerate,
          tested !! simulationId = Some afterTest
          /\ generated !! simulationId = Some afterGenerate
          /\ id afterTest = id sim /\ id afterGenerate = id sim
          /\ type afterTest = type sim /\ type afterGenerate = type sim
          /\ parameters afterTest = parameters sim
          /\ parameters afterGenerate = parameters sim
          /\ createdAt afterTest = createdAt sim
          /\ createdAt afterGenerate = createdAt sim
          /\ code afterTest = code sim).
Proof.
  intros tested generated.
  assert (Htest : exists f : SandboxSimulation -> SandboxSimulation,
             (forall s, id (f s) = id s /\ type (f s) = type s
                        /\ parameters (f s) = parameters s
                        /\ createdAt (f s) = createdAt s
                        /\ code (f s) = code s)
             /\ forall k, tested !! k
                          = if decide (k = simulationId)
                            then f <$> sims !! k else sims !! k).
  { subst tested. destruct (sims !! simulationId) as [sim |] eqn:Hsim.
    - destruct (String.eqb_spec (code sim) "") as [Hempty | Hcode].
      + exists (fun s => s). split; [repeat split |].
        intros k. unfold testCode. rewrite Hsim, Hempty.
        cbn [String.eqb snd].
        destruct (decide (k = simulationId)) as [-> | _]; [| reflexivity].
        rewrite Hsim. reflexivity.
      + destruct (testCode_reached T openRouterService net env sims
                    simulationId sim Hsim Hcode) as (-> & _).
        exists (fun s =>
                  settled (set_status st_compiling s)
                    (tryOutcome T openRouterService net env
                       (set_status st_compiling sim))).
        split.
        * intros s.
          destruct (tryOutcome T openRouterService net env
                      (set_status st_compiling sim)); repeat split.
        * intros k. destruct (decide (k = simulationId)) as [-> | Hne].
          -- rewrite lookup_insert_eq, Hsim. reflexivity.
          -- rewrite !lookup_insert_ne by congruence. reflexivity.
    - exists (fun s => s). split; [repeat split |].
      intros k. unfold testCode. rewrite Hsim. cbn [snd].
      destruct (decide (k = simulationId)) as [-> | _]; [| reflexivity].
      rewrite Hsim. reflexivity. }
  assert (Hgen : exists f : SandboxSimulation -> SandboxSimulation,
             (forall s, id (f s) = id s /\ type (f s) = type s
                        /\ parameters (f s) = parameters s
                        /\ createdAt (f s) = createdAt s)
             /\ forall k, generated !! k
                          = if decide (k = simulationId)
                            then f <$> sims !! k else sims !! k).
  { subst generated. unfold generateCode, generateCode_begin.
    destruct (sims !! simulationId) as [sim |] eqn:Hsim.
    - match goal with
      | |- context [let (_, _) := ?a in _] => destruct a as [t [text | e]]
      end; cbn [fst snd].
      + exists (fun s => set_code text (set_status st_compiling s)).
        split; [repeat split |].
        intros k. destruct (decide (k = simulationId)) as [-> | Hne].
        * rewrite lookup_insert_eq, Hsim. reflexivity.
        * rewrite !lookup_insert_ne by congruence. reflexivity.
      + exists (fun s =>
                  set_result
                    (failureResult (messageOr "Unknown error occurred" e))
                    (set_status st_error (set_status st_compiling s))).
        split; [repeat split |].
        intros k. destruct (decide (k = simulationId)) as [-> | Hne].
        * rewrite lookup_insert_eq, Hsim. reflexivity.
        * rewrite !lookup_insert_ne by congruence. reflexivity.
    - exists (fun s => s). split; [repeat split |].
      intros k. cbn [snd].
      destruct (decide (k = simulationId)) as [-> | _]; [| reflexivity].
      rewrite Hsim. reflexivity. }
  destruct Htest as (f & Hf & Htest). destruct Hgen as (g & Hg & Hgen).
  split; [| split; [| split]].
  - intros k. rewrite Htest. destruct (decide (k = simulationId));
      [| reflexivity].
    destruct (sims !! k); cbn; split; congruence.
  - intros k. rewrite Hgen. destruct (decide (k = simulationId));
      [| reflexivity].
    destruct (sims !! k); cbn; split; congruence.
  - intros k Hk. rewrite Htest, Hgen.
    destruct (decide (k = simulationId)); [contradiction |].
    split; reflexivity.
  - intros sim Hsim. exists (f sim), (g sim).
    rewrite Htest, Hgen, Hsim.
    destruct (decide (simulationId = simulationId)); [| contradiction].
    destruct (Hf sim) as (? & ? & ? & ? & ?).
    destruct (Hg sim) as (? & ? & ? & ?).
    repeat split; assumption.
Qed.

(** X15 — The guards: on an id that is not in the registry both
    [testCode] and [generateCode] throw ['Simulation not found'], and on
    a simulation whose code is empty [testCode] throws ['No code
    generated for simulation']; in each case nothing is called (no
    sandbox, no request) and the registry is left exactly as it was,
    the status included. *)
Theorem guards_fail_cleanly (env : SandboxEnv) (sims : Registry)
    (simulationId : string) :
  (sims !! simulationId = None ->
   testCode T openRouterService net env sims simulationId
   = (([], Throws (newError "Simulation not found")), sims)
   /\ generateCode T openRouterService net sims simulationId
      = (([], Throws (newError "Simulation not found")), sims))
  /\ (forall sim, sims !! simulationId = Some sim -> code sim = "" ->
        testCode T openRouterService net env sims simulationId
        = (([], Throws (newError "No code generated for simulation")), sims)).
Proof.
  split.
  - intros Hnone. unfold testCode, generateCode, generateCode_begin.
    rewrite Hnone. split; reflexivity.
  - intros sim Hsim Hcode. unfold testCode. rewrite Hsim, Hcode. reflexivity.
Qed.

(** For a supported type [generateCode] is one wrapper call between the
    first status write and the write of the outcome. *)
Lemma generateCode_supported (sims : Registry) (simulationId : string)
    (sim : SandboxSimulation) :
  sims !! simulationId = Some sim -> supportedType (type sim) ->
  exists messages,
    let started := set_status st_compiling sim in
    let request := ask openRouterService net messages in
    generateCode T openRouterService net sims simulationId
    = (request,
       <[simulationId :=
           match snd request with
           | Returns text => set_code text started
           | Throws e =>
               set_result (failureResult (messageOr "Unknown error occurred" e))
                 (set_status st_error started)
           end]> (<[simulationId := started]> sims)).
Proof.
  intros Hsim Hsupported.
  unfold generateCode, generateCode_begin. rewrite Hsim.
  cbn [type parameters set_status].
  unfold generateTokenCode, generatePoolCode, generateVaultCode.
  destruct Hsupported as [-> | [-> | ->]]; cbn [String.eqb Ascii.eqb Bool.eqb];
    match goal with
    | |- context [ask _ _ ?m] => exists m
    end; cbv zeta;
    match goal with
    | |- context [ask ?this ?n ?m] => destruct (ask this n m) as [t [text | e]]
    end; reflexivity.
Qed.

(** C1 (as amended) — For a simulation of the registry, [generateCode]
    first sets its status to ['compiling'] (the service has no
    ['generating'] state): so its first suspension leaves the registry.
    For a simulation of a supported type and a client with a key: when
    the remote call succeeds, that is, after at most two rate-limited
    attempts the service answers 2xx with a body that has a first
    choice, [generateCode] returns the text of that choice, stores it
    as the simulation's code and leaves the status at ['compiling'],
    neither ['pending'] nor ['success']; when the remote call fails
    (three rate-limited attempts, a network failure, a status outside
    2xx, a body that does not parse or has no choice), [generateCode]
    throws that error and the stored status is ['error'].  The remote
    call does one or the other. *)
Theorem generateCode_status (sims : Registry) (simulationId : string)
    (sim : SandboxSimulation) :
  sims !! simulationId = Some sim ->
  let started := set_status st_compiling sim in
  let run := generateCode T openRouterService net sims simulationId in
  generateCode_begin sims simulationId
  = Returns (started, <[simulationId := started]> sims)
  /\ (supportedType (type sim) -> apiKey openRouterService <> "" ->
      (forall text, remoteReturns net text ->
         snd (fst run) = Returns text
         /\ exists stored,
              snd run !! simulationId = Some stored
              /\ code stored = text /\ status stored = st_compiling)
      /\ (forall e, remoteFails net e ->
            snd (fst run) = Throws e
            /\ exists stored,
                 snd run !! simulationId = Some stored
                 /\ status stored = st_error)
      /\ ((exists text, remoteReturns net text)
          \/ (exists e, remoteFails net e))).
Proof.
  intros Hsim started run. split.
  - unfold generateCode_begin. rewrite Hsim. reflexivity.
  - intros Hsupported Hkey.
    destruct (generateCode_supported sims simulationId sim Hsim Hsupported)
      as (messages & Heq).
    cbv zeta in Heq. subst run. rewrite Heq. cbn [fst snd].
    split; [| split; [| apply remote_outcome]].
    + intros text Hreturns.
      rewrite (ask_returns openRouterService net messages text Hkey Hreturns).
      split; [reflexivity |].
      eexists. split; [apply lookup_insert_eq |]. split; reflexivity.
    + intros e Hfails.
      rewrite (ask_fails openRouterService net messages e
                 (or_intror (conj Hkey Hfails))).
      split; [reflexivity |].
      eexists. split; [apply lookup_insert_eq | reflexivity].
Qed.

(** X16 — When generation fails the error is recorded and passed on
    unchanged.  For a supported type, whenever the request fails (no
    key, three rate-limited attempts, a network failure, a status
    outside 2xx, a body that does not parse or has no choice),
    [generateCode] throws that very error, and the stored simulation
    gets status ['error'] and the result [success = false] with the
    error's message as its only error, its code left as it was;
    without a key this is ['OpenRouter API key not configured'], and no
    request is made.  An unsupported type fails in the same way with
    ['Invalid simulation type'], without any request either. *)
Theorem generateCode_failure (sims : Registry) (simulationId : string)
    (sim : SandboxSimulation) :
  sims !! simulationId = Some sim ->
  let run := generateCode T openRouterService net sims simulationId in
  let recorded (e : Thrown) :=
    exists stored,
      snd run !! simulationId = Some stored
      /\ status stored = st_error
      /\ result stored
         = Some {| r_success := false;
                   r_errors := [messageOr "Unknown error occurred" e];
                   r_warnings := None; r_gasEstimate := None;
                   r_aiAnalysis := None |}
      /\ code stored = code sim in
  (forall e, supportedType (type sim) ->
     requestFails openRouterService net e ->
     snd (fst run) = Throws e /\ recorded e)
  /\ (supportedType (type sim) -> apiKey openRouterService = "" ->
      fst run = ([], Throws (newError "OpenRouter API key not configured")))
  /\ (~ supportedType (type sim) ->
      fst run = ([], Throws (newError "Invalid simulation type"))
      /\ recorded (newError "Invalid simulation type")).
Proof.
  intros Hsim run recorded. split; [| split].
  - intros e Hsupported Hfails.
    destruct (generateCode_supported sims simulationId sim Hsim Hsupported)
      as (messages & Heq).
    cbv zeta in Heq. subst recorded run. rewrite Heq. cbn [fst snd].
    rewrite (ask_fails openRouterService net messages e Hfails).
    split; [reflexivity |].
    eexists. split; [apply lookup_insert_eq |]. repeat split.
  - intros Hsupported Hkey.
    destruct (generateCode_supported sims simulationId sim Hsim Hsupported)
      as (messages & Heq).
    cbv zeta in Heq. subst run. rewrite Heq. cbn [fst].
    unfold ask, makeRequest. rewrite Hkey. reflexivity.
  - intros Hunsupported. subst recorded run.
    unfold supportedType in Hunsupported.
    unfold generateCode, generateCode_begin. rewrite Hsim.
    cbn [type set_status].
    destruct (String.eqb_spec (type sim) "token"); [tauto |].
    destruct (String.eqb_spec (type sim) "pool"); [tauto |].
    destruct (String.eqb_spec (type sim) "vault"); [tauto |].
    cbn [fst snd throw]. split; [reflexivity |].
    eexists. split; [apply lookup_insert_eq |]. repeat split.
Qed.

(** X17 — Generation does not guarantee that the simulation can be
    tested: after a [generateCode] that returned [text], [testCode] on
    the same id stops at its guard with ['No code generated for
    simulation'], making no call, exactly when [text] is empty; for any
    other text it goes past the guards and rewrites the stored
    simulation. *)
Theorem testCode_after_generateCode (env : SandboxEnv) (sims : Registry)
    (simulationId : string) (text : string) :
  snd (fst (generateCode T openRouterService net sims simulationId))
  = Returns text ->
  let sims' := snd (generateCode T openRouterService net sims simulationId) in
  (text = "" <->
   fst (testCode T openRouterService net env sims' simulationId)
   = ([], Throws (newError "No code generated for simulation")))
  /\ (text <> "" ->
      snd (testCode T openRouterService net env sims' simulationId)
        !! simulationId
      <> sims' !! simulationId).
Proof.
  intros Hgen sims'. subst sims'. revert Hgen.
  unfold generateCode, generateCode_begin.
  destruct (sims !! simulationId) as [sim |] eqn:Hsim; [| discriminate].
  match goal with
  | |- context [let (_, _) := ?a in _] => destruct a as [t [text' | e']]
  end; cbn [fst snd]; intros [= ->].
  set (stored := set_code text (set_status st_compiling sim)).
  set (sims' := <[simulationId := stored]>
                  (<[simulationId := set_status st_compiling sim]> sims)).
  assert (Hstored : sims' !! simulationId = Some stored)
    by apply lookup_insert_eq.
  split.
  - split.
    + intros ->. unfold testCode. rewrite Hstored. reflexivity.
    + intros Hthrow.
      destruct (String.eqb_spec text "") as [Heq | Hne]; [exact Heq |].
      exfalso.
      destruct (testCode_reached T openRouterService net env sims'
                  simulationId stored Hstored Hne) as (_ & Hres & Htrace).
      rewrite Hthrow in Hres, Htrace. cbn [fst snd] in Hres, Htrace.
      destruct (environmentProvisioned env sims' simulationId).
      * destruct Htrace as (pre & Hpre & _).
        exact (app_cons_not_nil pre [] SandboxClose Hpre).
      * discriminate Hres.
  - intros Hne.
    destruct (testCode_reached T openRouterService net env sims'
                simulationId stored Hstored Hne) as (Hreg & _).
    rewrite Hreg, lookup_settled, Hstored. intros [= Heq].
    apply (f_equal status) in Heq. revert Heq.
    destruct (tryOutcome T openRouterService net env
                (set_status st_compiling stored)) as [r | e];
      cbn; [destruct (r_success r) |]; discriminate.
Qed.

End SandboxStates.

(* ================================================================== *)
(** ** Further properties of the registry                               *)
(* ================================================================== *)

Section RegistryMore.
Import Js Types World OpenRouter Sandbox Scenario Observe.

Lemma pretty_N_char_noUnderscore (x : N) (s : string) :
  noUnderscore s = true ->
  noUnderscore (String (pretty_N_char x) s) = true.
Proof.
  intros Hs. unfold noUnderscore in *. cbn [list_ascii_of_string forallb].
  rewrite Hs, andb_true_r. unfold pretty_N_char.
  repeat case_match; reflexivity.
Qed.

Lemma pretty_N_go_noUnderscore (x : N) :
  forall s, noUnderscore s = true -> noUnderscore (pretty_N_go x s) = true.
Proof.
  induction (N.lt_wf_0 x) as [x _ IH]. intros s Hs.
  destruct (decide (x = 0%N)) as [-> | Hx].
  - rewrite pretty_N_go_0. exact Hs.
  - rewrite pretty_N_go_step by lia.
    apply IH.
    + apply N.div_lt; lia.
    + apply pretty_N_char_noUnderscore. exact Hs.
Qed.

Lemma pretty_Z_noUnderscore (z : Z) : noUnderscore (pretty z) = true.
Proof.
  assert (Hpos : forall p : positive, noUnderscore (pretty p) = true).
  { intros p. unfold pretty, pretty_positive, pretty, pretty_N.
    destruct (decide (N.pos p = 0%N)); [reflexivity |].
    apply pretty_N_go_noUnderscore. reflexivity. }
  destruct z as [| p | p]; unfold pretty, pretty_Z.
  - reflexivity.
  - apply Hpos.
  - change (noUnderscore (String "-" (pretty p)) = true).
    unfold noUnderscore. cbn [list_ascii_of_string forallb].
    exact (Hpos p).
Qed.

(** Two texts cut at their first underscore agree part by part. *)
Lemma split_at_underscore (a : string) :
  forall b r r',
    noUnderscore a = true -> noUnderscore b = true ->
    a ++ String "_" r = b ++ String "_" r' -> a = b /\ r = r'.
Proof.
  unfold noUnderscore.
  induction a as [| c a IH]; intros [| d b] r r' Ha Hb Heq.
  - rewrite !append_empty in Heq. injection Heq as <-. split; reflexivity.
  - rewrite append_empty, append_cons in Heq. injection Heq as <- _.
    cbn in Hb. discriminate Hb.
  - rewrite append_empty, append_cons in Heq. injection Heq as -> _.
    cbn in Ha. discriminate Ha.
  - rewrite !append_cons in Heq. injection Heq as <- Heq.
    cbn [list_ascii_of_string forallb] in Ha, Hb.
    apply andb_prop in Ha as [_ Ha]. apply andb_prop in Hb as [_ Hb].
    destruct (IH b r r' Ha Hb Heq) as [<- <-]. split; reflexivity.
Qed.

(** X18 — Two calls of [createSimulation] produce the same id exactly
    when they read the same clock value and draw the same random
    suffix: ids are distinct as soon as either differs, and nothing
    else (type, parameters, registry) enters the id. *)
Theorem createSimulation_id_injective (sims sims' : Registry) (now now' : Z)
    (rnd rnd' : string) (date date' : Z) (type type' : string)
    (parameters parameters' : Parameters) :
  id (fst (createSimulation sims now rnd date type parameters))
  = id (fst (createSimulation sims' now' rnd' date' type' parameters'))
  <-> now = now' /\ rnd = rnd'.
Proof.
  unfold createSimulation. cbn [fst id]. split.
  - intros Heq.
    apply (inj (String.app "sim_")) in Heq.
    change (pretty now ++ String "_" rnd = pretty now' ++ String "_" rnd')
      in Heq.
    destruct (split_at_underscore _ _ _ _ (pretty_Z_noUnderscore now)
                (pretty_Z_noUnderscore now') Heq) as [Hnow Hrnd].
    split; [apply (inj pretty); exact Hnow | exact Hrnd].
  - intros [-> ->]. reflexivity.
Qed.

(** X19 — [createSimulation] adds exactly one entry when its id is not
    in use, and otherwise silently replaces the simulation stored under
    that id (the registry keeps its size and the earlier simulation is
    gone); [getAllSimulations] lists as many simulations as the
    registry holds, namely those that [getSimulation] finds under some
    id. *)
Theorem createSimulation_size (sims : Registry) (now : Z) (rnd : string)
    (date : Z) (type : string) (parameters : Parameters) :
  let created := createSimulation sims now rnd date type parameters in
  size (snd created)
  = match getSimulation sims (id (fst created)) with
    | Some _ => size sims
    | None => S (size sims)
    end
  /\ length (getAllSimulations (snd created)) = size (snd created)
  /\ (forall sim,
        In sim (getAllSimulations (snd created))
        <-> exists k, getSimulation (snd created) k = Some sim).
Proof.
  intros created. subst created.
  unfold createSimulation, getSimulation, getAllSimulations. cbn [fst snd id].
  split; [| split].
  - rewrite map_size_insert. destruct (sims !! _); reflexivity.
  - rewrite length_fmap. apply length_map_to_list.
  - intros sim. rewrite <- list_elem_of_In, list_elem_of_fmap. split.
    + intros ([k v] & -> & Hin). exists k.
      apply elem_of_map_to_list. exact Hin.
    + intros (k & Hk). exists (k, sim). split; [reflexivity |].
      apply elem_of_map_to_list. exact Hk.
Qed.

(** X20 — [deleteSimulation] answers [true] exactly when the id was in
    the registry; afterwards the id is not found, every other entry is
    as before, and deleting an id that is not there changes nothing.
    Deleting a simulation just created under an unused id gives back
    the registry as it was before the creation, and [clearAllSimulations]
    leaves nothing to list. *)
Theorem deleteSimulation_spec (sims : Registry) (simulationId : string)
    (now : Z) (rnd : string) (date : Z) (type : string)
    (parameters : Parameters) :
  let deleted := deleteSimulation sims simulationId in
  let created := createSimulation sims now rnd date type parameters in
  (fst deleted = true <-> exists sim, getSimulation sims simulationId = Some sim)
  /\ getSimulation (snd deleted) simulationId = None
  /\ (forall k, k <> simulationId ->
        getSimulation (snd deleted) k = getSimulation sims k)
  /\ (fst deleted = false -> snd deleted = sims)
  /\ (getSimulation sims (id (fst created)) = None ->
      deleteSimulation (snd created) (id (fst created)) = (true, sims))
  /\ getAllSimulations (clearAllSimulations sims) = [].
Proof.
  intros deleted created. subst deleted created.
  unfold deleteSimulation, getSimulation, createSimulation,
    clearAllSimulations, getAllSimulations.
  cbn [fst snd id].
  split; [| split; [| split; [| split; [| split]]]].
  - rewrite bool_decide_eq_true. reflexivity.
  - apply lookup_delete_eq.
  - intros k Hk. apply lookup_delete_ne. congruence.
  - intros Hfalse. apply bool_decide_eq_false in Hfalse.
    apply delete_id. destruct (sims !! simulationId) eqn:Hl; [| reflexivity].
    exfalso. apply Hfalse. eexists. reflexivity.
  - intros Hfresh. rewrite lookup_insert_eq.
    rewrite (delete_insert_id sims _ _ Hfresh). reflexivity.
  - rewrite map_to_list_empty. reflexivity.
Qed.

End RegistryMore.

(* ================================================================== *)
(** ** Further properties of [validateParameters]                       *)
(* ================================================================== *)

Section ValidationMore.
Import Js Types World OpenRouter Sandbox Scenario Observe.

Lemma pushIf_nil_iff (test : bool) (message : string) (errors : list string) :
  pushIf test message errors = [] <-> test = false /\ errors = [].
Proof.
  unfold pushIf. destruct test, errors; cbn; split;
    first [intros [? ?]; congruence | intros ?; split; congruence].
Qed.

Lemma in_pushIf (m : string) (test : bool) (message : string)
    (errors : list string) :
  In m (pushIf test message errors)
  <-> In m errors \/ (test = true /\ m = message).
Proof.
  unfold pushIf. destruct test.
  - rewrite in_app_iff. cbn. split.
    + intros [H | [H | []]]; [left; exact H | right; split; congruence].
    + intros [H | [_ ->]]; [left; exact H | right; left; reflexivity].
  - split; [intros H; left; exact H | intros [H | [H _]]; [exact H | discriminate]].
Qed.

Lemma valid_iff_no_error (type : string) (parameters : Parameters) :
  valid (validateParameters type parameters) = true
  <-> errors (validateParameters type parameters) = [].
Proof.
  unfold validateParameters. cbn [valid errors].
  rewrite Nat.eqb_eq. apply length_zero_iff_nil.
Qed.

Lemma name_test (o : option string) :
  falsyString o || (lengthOf o <? 1)%Z = false
  <-> exists s, o = Some s /\ s <> "".
Proof.
  destruct o as [s |]; cbn [falsyString lengthOf].
  - destruct (String.eqb_spec s "") as [-> | Hne]; cbn [orb].
    + split; [discriminate | intros (s & [= <-] & H); contradiction].
    + split.
      * intros _. exists s. split; [reflexivity | exact Hne].
      * intros _. apply Z.ltb_ge. destruct s; [contradiction |].
        cbn [String.length]. lia.
  - split; [discriminate | intros (s & [=] & _)].
Qed.

Lemma symbol_test (o : option string) :
  falsyString o || (lengthOf o <? 1)%Z || (10 <? lengthOf o)%Z = false
  <-> exists s, o = Some s /\ (1 <= String.length s <= 10)%nat.
Proof.
  destruct o as [s |]; cbn [falsyString lengthOf].
  - destruct (String.eqb_spec s "") as [-> | Hne]; cbn [orb].
    + split; [discriminate |].
      intros (s & [= <-] & H). cbn in H. lia.
    + assert (Hlen : (1 <= String.length s)%nat)
        by (destruct s; [contradiction | cbn [String.length]; lia]).
      replace (Z.of_nat (String.length s) <? 1)%Z with false
        by (symmetry; apply Z.ltb_ge; lia).
      cbn [orb]. rewrite Z.ltb_ge. split.
      * intros H. exists s. split; [reflexivity | lia].
      * intros (s' & [= <-] & H). lia.
  - split; [discriminate | intros (s & [=] & _)].
Qed.

(** X21 — A token parameters object passes [validateParameters]
    exactly when its name is a non-empty string, its symbol has 1 to 10
    characters, its decimals are not a number below 0 or above 18 (an
    absent or NaN value passes), and its total supply is a non-empty
    string that [parseFloat] does not read as a number at or below 0 (a
    text that is no number passes). *)
Theorem validateParameters_token_accepts (p : Parameters) :
  valid (validateParameters "token" p) = true
  <-> (exists s, p_name p = Some s /\ s <> "")
      /\ (exists s, p_symbol p = Some s /\ (1 <= String.length s <= 10)%nat)
      /\ lt (toNumber (p_decimals p)) (ofZ 0) = false
      /\ gt (toNumber (p_decimals p)) (ofZ 18) = false
      /\ (exists s, p_totalSupply p = Some s /\ s <> ""
                    /\ le (parseFloat s) (ofZ 0) = false).
Proof.
  rewrite valid_iff_no_error. unfold validateParameters.
  cbn [errors String.eqb Ascii.eqb Bool.eqb].
  rewrite !pushIf_nil_iff, name_test, symbol_test.
  unfold outside. rewrite orb_false_iff.
  assert (Hsupply : notPositive (p_totalSupply p) = false
                    <-> exists s, p_totalSupply p = Some s /\ s <> ""
                                  /\ le (parseFloat s) (ofZ 0) = false).
  { unfold notPositive. destruct (p_totalSupply p) as [s |].
    - rewrite orb_false_iff. split.
      + intros [Hs Hle]. exists s. split; [reflexivity |].
        split; [| exact Hle]. apply String.eqb_neq. exact Hs.
      + intros (s' & [= <-] & Hs & Hle).
        split; [apply String.eqb_neq; exact Hs | exact Hle].
    - split; [discriminate | intros (s & [=] & _)]. }
  rewrite Hsupply. tauto.
Qed.

Lemma digit_char (c : ascii) (d : Z) :
  digitValue c = Some d ->
  (0 <= d <= 9)%Z /\ (d = 0%Z <-> Ascii.eqb c "0" = true)
  /\ startsNumber c = true /\ isWhiteSpace c = false
  /\ Ascii.eqb c "+" = false /\ Ascii.eqb c "-" = false
  /\ Ascii.eqb c "." = false /\ Ascii.eqb c "I" = false.
Proof.
  destruct c as [[] [] [] [] [] [] [] []]; vm_compute; intros [= <-];
    repeat split; intros; first [reflexivity | discriminate | lia].
Qed.

(** Reading a string of digits: everything is consumed, and the value
    is zero exactly when nothing but zeros was read onto a zero. *)
Lemma readDigits_allDigits (s : string) :
  forall acc cnt,
    allDigits s = true -> (0 <= acc)%Z ->
    exists v,
      readDigits s acc cnt = (v, (cnt + String.length s)%nat, "")
      /\ (0 <= v)%Z
      /\ (v = 0%Z <-> acc = 0%Z /\ allZeros s = true).
Proof.
  unfold allDigits, allZeros.
  induction s as [| c s IH]; intros acc cnt Hs Hacc.
  - exists acc. cbn. rewrite Nat.add_0_r. repeat split; tauto.
  - cbn [list_ascii_of_string forallb] in *.
    apply andb_prop in Hs as [Hc Hs].
    destruct (digitValue c) as [d |] eqn:Hd; [| discriminate Hc].
    destruct (digit_char c d Hd) as (Hrange & Hzero & _).
    destruct (IH (10 * acc + d)%Z (S cnt) Hs ltac:(lia))
      as (v & Heq & Hv & Hiff).
    exists v. cbn [readDigits String.length]. rewrite Hd, Heq.
    split; [f_equal; f_equal; lia |]. split; [exact Hv |].
    rewrite Hiff, andb_true_iff, <- Hzero. split.
    + intros [H0 Hz]. repeat split; try assumption; lia.
    + intros [H0 [Hd0 Hz]]. split; [lia | exact Hz].
Qed.

(** On a non-empty string of digits the positivity test of the source
    fails exactly for the strings of zeros. *)
Lemma notPositive_digits (s : string) :
  s <> "" -> allDigits s = true ->
  notPositive (Some s) = allZeros s.
Proof.
  intros Hne Hdigits. unfold notPositive.
  replace (String.eqb s "") with false
    by (symmetry; apply String.eqb_neq; exact Hne).
  cbn [orb]. destruct s as [| c s]; [contradiction |].
  assert (Hc : exists d, digitValue c = Some d).
  { unfold allDigits in Hdigits. cbn in Hdigits.
    destruct (digitValue c) as [d |]; [exists d; reflexivity | discriminate]. }
  destruct Hc as (d & Hd).
  destruct (digit_char c d Hd)
    as (_ & _ & _ & Hws & Hplus & Hminus & _ & HI).
  destruct (readDigits_allDigits (String c s) 0%Z 0%nat Hdigits ltac:(lia))
    as (v & Heq & Hv & Hiff).
  unfold parseFloat. cbn [trimStart]. rewrite Hws.
  assert (Hsign : readSign (String c s) = (false, String c s)).
  { destruct c as [[] [] [] [] [] [] [] []]; try reflexivity;
      cbn in Hplus, Hminus; discriminate. }
  rewrite Hsign.
  assert (Hinf : String.prefix "Infinity" (String c s) = false).
  { cbn [String.prefix]. destruct (ascii_dec "I" c) as [<- | _];
      [discriminate HI | reflexivity]. }
  rewrite Hinf. unfold readDecimal. rewrite Heq.
  cbn [Nat.add String.length Nat.eqb readExponent].
  unfold decimalValue. cbn [Z.leb Z.compare Z.pow Z.pow_pos Pos.iter].
  rewrite Z.mul_1_r. unfold roundMagnitude.
  destruct (Z.eq_dec v 0%Z) as [-> | Hpos].
  - replace (allZeros (String c s)) with true
      by (symmetry; apply Hiff; reflexivity).
    reflexivity.
  - replace (allZeros (String c s)) with false.
    2: { destruct (allZeros (String c s)) eqn:Hz; [| reflexivity].
         exfalso. apply Hpos. apply Hiff. split; reflexivity. }
    assert (Hsmall : Qle_bool (inject_Z v) (1 # 2 ^ 1075) = false).
    { destruct (Qle_bool (inject_Z v) (1 # 2 ^ 1075)) eqn:Hq; [| reflexivity].
      apply Qle_bool_iff in Hq. unfold Qle in Hq. cbn [Qnum Qden inject_Z] in Hq.
      exfalso. assert (1 <= Z.pos (2 ^ 1075))%Z by lia. nia. }
    rewrite Hsmall.
    destruct (Qle_bool (inject_Z (2 ^ 1024 - 2 ^ 970)) (inject_Z v));
      [reflexivity |].
    cbn [le ofZ].
    destruct (Qle_bool (inject_Z v) (inject_Z 0)) eqn:Hq; [| reflexivity].
    apply Qle_bool_iff in Hq. unfold Qle in Hq. cbn in Hq. exfalso. lia.
Qed.

(** A text whose first character cannot start a number is read as NaN. *)
Lemma parseFloat_not_a_number (c : ascii) (rest : string) :
  startsNumber c = false -> parseFloat (String c rest) = NaN.
Proof.
  destruct c as [[] [] [] [] [] [] [] []]; intros H; vm_compute in H;
    first [discriminate H | clear H; vm_compute; reflexivity].
Qed.

(** The supply message is in the error list exactly when the supply
    test of the source fires. *)
Lemma supply_message_iff (p : Parameters) :
  In supplyMessage (errors (validateParameters "token" p))
  <-> notPositive (p_totalSupply p) = true.
Proof.
  unfold validateParameters. cbn [errors String.eqb Ascii.eqb Bool.eqb].
  rewrite !in_pushIf. unfold supplyMessage. split.
  - intros [[[[[] | [_ H]] | [_ H]] | [_ H]] | [H _]];
      first [discriminate H | exact H].
  - intros H. right. split; [exact H | reflexivity].
Qed.

(** X22 — For a total supply written with decimal digits only,
    [validateParameters] reports ['Total supply must be greater than 0']
    exactly when every digit is a zero: every such string with a
    non-zero digit is accepted, however long. *)
Theorem validateParameters_digit_supply (p : Parameters) (s : string) :
  p_totalSupply p = Some s -> s <> "" -> allDigits s = true ->
  (In supplyMessage (errors (validateParameters "token" p))
   <-> allZeros s = true).
Proof.
  intros Hp Hne Hdigits.
  rewrite supply_message_iff, Hp, (notPositive_digits s Hne Hdigits).
  reflexivity.
Qed.

(** X23 — A total supply that is no number at all is not rejected: when
    its first character is neither white space, a digit, a sign, a dot
    nor the letter I, [parseFloat] gives NaN, the comparison with 0 is
    false, and [validateParameters] does not report the supply. *)
Theorem validateParameters_text_supply (p : Parameters) (c : ascii)
    (rest : string) :
  p_totalSupply p = Some (String c rest) -> startsNumber c = false ->
  parseFloat (String c rest) = NaN
  /\ ~ In supplyMessage (errors (validateParameters "token" p)).
Proof.
  intros Hp Hc. pose proof (parseFloat_not_a_number c rest Hc) as Hnan.
  split; [exact Hnan |].
  rewrite supply_message_iff, Hp. unfold notPositive.
  rewrite Hnan. cbn. discriminate.
Qed.

End ValidationMore.

(* ================================================================== *)
(** ** The test route                                                   *)
(* ================================================================== *)

Section RouteFacts.
Import Js Types World OpenRouter Sandbox Scenario Observe Route.

Variable T : PromptTemplates.
Variable openRouterService : OpenRouterService.
Variable net : Network.
Variable env : SandboxEnv.
Variable display : JsonValue -> string.
Variable now : Z.
Variable rnd : string.
Variable date : Z.
Variable timestamp : string.

(** A simulation fresh from [createSimulation] cannot be tested, whatever
    the registry held before. *)
Lemma testCode_after_createSimulation (sims : Registry) (type : string)
    (parameters : Parameters) :
  let created := createSimulation sims now rnd date type parameters in
  testCode T openRouterService net env (snd created) (id (fst created))
  = (([], Throws (newError "No code generated for simulation")), snd created).
Proof.
  unfold createSimulation, testCode. cbn [fst snd id].
  rewrite lookup_insert_eq. reflexivity.
Qed.

(** X24 — The handler of the test route can never answer 200: for every
    request it answers 400 (code or type missing or falsy, or a type
    other than the three supported ones) or 500, and it never reaches
    the sandbox or the network.  For a supported type with some code it
    registers a new simulation with empty code, ignores the submitted
    code, and answers 500 with the details ['No code generated for
    simulation']; a 400 answer leaves the registry untouched. *)
Theorem POST_never_succeeds (sims : Registry) (body : Outcome Body) :
  let run :=
    POST T openRouterService net env display now rnd date timestamp sims body in
  fst (fst run) = []
  /\ (res_status (snd (fst run)) = 400%Z \/ res_status (snd (fst run)) = 500%Z)
  /\ (res_status (snd (fst run)) = 400%Z -> snd run = sims)
  /\ (forall b type params,
        body = Returns b ->
        truthy (b_code b) = true -> truthy (b_type b) = true ->
        defaultParams (b_type b) = Some (type, params) ->
        snd (fst run)
        = {| res_status := 500;
             res_payload :=
               ErrorPayload "Failed to test code"
                 (Some "No code generated for simulation") |}
        /\ snd run = snd (createSimulation sims now rnd date type params)).
Proof.
  intros run. subst run. unfold POST.
  destruct body as [b | e].
  - destruct (truthy (b_code b)) eqn:Hcode; cbn [negb orb].
    + destruct (truthy (b_type b)) eqn:Htype; cbn [negb orb].
      * destruct (defaultParams (b_type b)) as [[type params] |] eqn:Hparams.
        -- pose proof (testCode_after_createSimulation sims type params) as H.
           cbv zeta in H.
           destruct (createSimulation sims now rnd date type params)
             as [simulation sims'] eqn:Hcreated.
           cbn [fst snd] in H. rewrite H. cbn [fst snd].
           split; [reflexivity |]. split; [right; reflexivity |].
           split; [discriminate |].
           intros b' type' params' [= <-] _ _ Heq.
           rewrite Hparams in Heq. injection Heq as <- <-.
           rewrite Hcreated. split; reflexivity.
        -- cbn. split; [reflexivity |]. split; [left; reflexivity |].
           split; [reflexivity |].
           intros b' type' params' [= <-] _ _ Heq.
           rewrite Hparams in Heq. discriminate Heq.
      * cbn. split; [reflexivity |]. split; [left; reflexivity |].
        split; [reflexivity |].
        intros b' type' params' [= <-] _ Ht. rewrite Htype in Ht.
        discriminate Ht.
    + cbn. split; [reflexivity |]. split; [left; reflexivity |].
      split; [reflexivity |].
      intros b' type' params' [= <-] Hc. rewrite Hcode in Hc. discriminate Hc.
  - cbn. split; [reflexivity |]. split; [right; reflexivity |].
    split; [discriminate |]. intros b type params [=].
Qed.

End RouteFacts.

(* ================================================================== *)
(** ** The further statements on concrete scenarios                     *)
(* ================================================================== *)

Section MoreScenarios.
Import Js Types World OpenRouter Sandbox Scenario Observe Route.

Lemma first_rate_limited (net : Network) :
  net 0%nat = Returns http429 ->
  forall k, (k < 1)%nat -> rateLimitedAt net k.
Proof.
  intros H k Hk. destruct k as [| k]; [| exfalso; lia].
  exists http429. split; [exact H | reflexivity].
Defined.

Lemma alwaysRateLimited_plain (k : nat) : rateLimitedWith alwaysRateLimited k None.
Proof. exists http429. repeat split. Defined.

Lemma alwaysRetryAfter7_spec (k : nat) :
  rateLimitedWith alwaysRetryAfter7 k (Some "7").
Proof. exists http429After7. repeat split. Defined.

Lemma okSandbox_ran :
  compilerRan (sandbox (output 0 "Compiling" "") (Returns tt))
    (output 0 "Compiling" "").
Proof.
  unfold compilerRan. repeat split; try reflexivity.
  exists (output 0 "" ""). reflexivity.
Defined.

Lemma answering_returns (text : string) : remoteReturns (answering text) text.
Proof.
  exists 0%nat. split; [| reflexivity].
  split; [lia |]. split; [intros k Hk; exfalso; lia | discriminate].
Defined.

Lemma failing500_fails :
  remoteFails failing500
    (newError "OpenRouter API error: 500 Internal Server Error").
Proof.
  right. exists 0%nat. split; [| vm_compute; reflexivity].
  split; [lia |]. split; [intros k Hk; exfalso; lia | discriminate].
Defined.

Lemma created_supported : supportedType (type demoSimulation).
Proof. left. reflexivity. Defined.

(** A free-tier model under permanent rate limiting. *)
Lemma makeRequest_free_tier_switch_witness :
  fetchModels (fst (makeRequest service alwaysRateLimited []
                      (defaultModel ++ ":free") 2))
  = [defaultModel ++ ":free"; defaultModel; defaultModel].
Proof.
  pose proof (makeRequest_free_tier_switch service alwaysRateLimited []
                defaultModel 2 eq_refl) as H.
  cbv zeta in H. rewrite H. vm_compute. reflexivity.
Defined.

(** One rate-limited attempt, then a 503. *)
Lemma makeRequest_upstream_error_not_retried_witness :
  exists t,
    makeRequest service thenUnavailable [] defaultModel 2
    = (t, Throws (newError ("OpenRouter API error: " ++ pretty 503%Z ++ " "
                            ++ "Service Unavailable")))
    /\ fetchCount t = 2%nat.
Proof.
  apply (makeRequest_upstream_error_not_retried service thenUnavailable []
           defaultModel 2 1 503 "Service Unavailable" service_configured
           ltac:(lia) (first_rate_limited thenUnavailable eq_refl)).
  exists http503. repeat split; try reflexivity. discriminate.
Defined.

(** One rate-limited attempt, then the connection drops. *)
Lemma makeRequest_network_failure_propagates_witness :
  exists t,
    makeRequest service thenDropped [] defaultModel 2
    = (t, Throws (ErrorObj "TypeError" "fetch failed"))
    /\ fetchCount t = 2%nat.
Proof.
  apply (makeRequest_network_failure_propagates service thenDropped []
           defaultModel 2 1 (ErrorObj "TypeError" "fetch failed")
           service_configured ltac:(lia)
           (first_rate_limited thenDropped eq_refl) eq_refl).
Defined.

(** One rate-limited attempt, then a success: request, wait, request. *)
Lemma makeRequest_budget_and_waits_witness :
  fst (makeRequest service recovering [] defaultModel 2)
  = [ Fetch defaultModel []; Sleep (ofZ 1000); Fetch defaultModel [] ]
  /\ requestsWithWaitsBetween
       (fst (makeRequest service recovering [] defaultModel 2)) = true.
Proof.
  split; [vm_compute; reflexivity |].
  exact (proj1 (proj2 (makeRequest_budget_and_waits service recovering []
                         defaultModel 2 ltac:(lia)))).
Defined.

(** Budget 2, always rate-limited, no header: waits of 1 and 2 seconds
    between the three requests. *)
Lemma makeRequest_exponential_backoff_witness :
  makeRequest service alwaysRateLimited [] defaultModel 2
  = ([ Fetch defaultModel []; Sleep (ofZ 1000);
       Fetch defaultModel []; Sleep (ofZ 2000);
       Fetch defaultModel [] ],
     Throws tooManyRetries).
Proof.
  exact (makeRequest_exponential_backoff service alwaysRateLimited []
           defaultModel 2 service_configured ltac:(lia)
           alwaysRateLimited_plain).
Defined.

(** Budget 2, always rate-limited with Retry-After 7: two waits of 7
    seconds between the three requests. *)
Lemma makeRequest_honours_retry_after_witness :
  makeRequest service alwaysRetryAfter7 [] defaultModel 2
  = ([ Fetch defaultModel []; Sleep (ofZ 7000);
       Fetch defaultModel []; Sleep (ofZ 7000);
       Fetch defaultModel [] ],
     Throws tooManyRetries).
Proof.
  exact (makeRequest_honours_retry_after service alwaysRetryAfter7 []
           defaultModel 2 "7" 7 service_configured ltac:(lia)
           ltac:(discriminate) eq_refl eq_refl alwaysRetryAfter7_spec).
Defined.

(** No key, and a negative budget. *)
Lemma makeRequest_sends_nothing_witness :
  makeRequest unconfigured alwaysRateLimited [] defaultModel 2
  = ([], Throws (newError "OpenRouter API key not configured"))
  /\ makeRequest service alwaysRateLimited [] defaultModel (-1)
     = ([], Throws (newError
                      "OpenRouter API error: request failed after retries")).
Proof.
  split.
  - apply (proj1 (makeRequest_sends_nothing unconfigured alwaysRateLimited []
                    defaultModel 2)). reflexivity.
  - apply (proj2 (makeRequest_sends_nothing service alwaysRateLimited []
                    defaultModel (-1))); [exact service_configured | lia].
Defined.

(** The complete run on the generated token. *)
Lemma testCode_complete_run_witness :
  exists final,
    testCode templates service (answering "Looks fine.")
      (sandbox (output 0 "Compiling" "") (Returns tt)) generated demoId
    = (((sandboxSteps "module demo::token {}"
         ++ fst (analyzeCode templates service (answering "Looks fine.")
                   "module demo::token {}" "token")
         ++ [SandboxClose])%list,
        Returns final),
       <[demoId := final]> generated)
    /\ status final = st_success
    /\ (r_aiAnalysis <$> result final) = Some (Some "Looks fine.").
Proof.
  eexists. split.
  - apply (testCode_complete_run templates service (answering "Looks fine.")
             (sandbox (output 0 "Compiling" "") (Returns tt)) generated demoId
             generatedSimulation (output 0 "Compiling" "")
             (fst (analyzeCode templates service (answering "Looks fine.")
                     "module demo::token {}" "token"))
             "Looks fine." generated_lookup generated_has_code okSandbox_ran).
    + vm_compute. reflexivity.
    + reflexivity.
  - split; reflexivity.
Defined.

(** The broken sandbox: the calls stop after the failed start of the
    installation, and the teardown follows. *)
Lemma testCode_calls_in_order_witness :
  exists done rest,
    (sandboxSteps (code generatedSimulation)
     ++ fst (analyzeCode templates service (answering "Looks fine.")
               (code generatedSimulation) (type generatedSimulation)))%list
    = (done ++ rest)%list
    /\ fst (fst (testCode templates service (answering "Looks fine.")
                   brokenSandbox generated demoId))
       = (done ++ (if environmentProvisioned brokenSandbox generated demoId
                   then [SandboxClose] else []))%list.
Proof.
  exact (testCode_calls_in_order templates service (answering "Looks fine.")
           brokenSandbox generated demoId generatedSimulation
           generated_lookup generated_has_code).
Defined.

(** The status after a run in the working sandbox. *)
Lemma testCode_success_iff_witness :
  exists stored r,
    snd (testCode templates service (answering "Looks fine.")
           (sandbox (output 0 "Compiling" "") (Returns tt)) generated demoId)
      !! demoId = Some stored
    /\ result stored = Some r
    /\ (status stored = st_success \/ status stored = st_error).
Proof.
  destruct (testCode_success_iff templates service (answering "Looks fine.")
              (sandbox (output 0 "Compiling" "") (Returns tt)) generated
              demoId generatedSimulation generated_lookup generated_has_code)
    as (stored & r & Hstored & Hresult & Hstatus & _).
  exists stored, r. split; [exact Hstored |]. split; [exact Hresult |].
  exact Hstatus.
Defined.

(** An unknown id, and the simulation that has no code yet. *)
Lemma guards_fail_cleanly_witness :
  testCode templates service (answering "Looks fine.") noKeySandbox created
    "sim_0_unknown"
  = (([], Throws (newError "Simulation not found")), created)
  /\ testCode templates service (answering "Looks fine.") noKeySandbox created
       demoId
     = (([], Throws (newError "No code generated for simulation")), created).
Proof.
  split.
  - apply (proj1 (guards_fail_cleanly templates service
                    (answering "Looks fine.") noKeySandbox created
                    "sim_0_unknown")).
    vm_compute. reflexivity.
  - apply (proj2 (guards_fail_cleanly templates service
                    (answering "Looks fine.") noKeySandbox created demoId)
             demoSimulation created_lookup).
    reflexivity.
Defined.

(** Generation on the freshly created token against a service that
    answers 500, and for a type the service does not know. *)
Lemma generateCode_failure_witness :
  (snd (fst (generateCode templates service failing500 created demoId))
   = Throws (newError "OpenRouter API error: 500 Internal Server Error")
   /\ exists stored,
        snd (generateCode templates service failing500 created demoId)
          !! demoId = Some stored
        /\ status stored = st_error
        /\ result stored
           = Some (failureResult "OpenRouter API error: 500 Internal Server Error")
        /\ code stored = "")
  /\ fst (generateCode templates service (answering "module demo::nft {}")
            nftRegistry "sim_1_nft")
     = ([], Throws (newError "Invalid simulation type")).
Proof.
  split.
  - pose proof (generateCode_failure templates service failing500 created
                  demoId demoSimulation created_lookup) as H.
    cbv zeta in H. destruct H as (H & _).
    apply (H (newError "OpenRouter API error: 500 Internal Server Error")
             created_supported).
    right. split; [exact service_configured | exact failing500_fails].
  - pose proof (generateCode_failure templates service
                  (answering "module demo::nft {}") nftRegistry "sim_1_nft"
                  nftSimulation ltac:(vm_compute; reflexivity)) as H.
    cbv zeta in H. destruct H as (_ & _ & H).
    apply H. unfold supportedType. cbn. intros [H' | [H' | H']]; discriminate H'.
Defined.

(** The model answers with an empty text. *)
Lemma testCode_after_generateCode_witness :
  fst (testCode templates service (answering "Looks fine.") noKeySandbox
         (snd (generateCode templates service (answering "") created demoId))
         demoId)
  = ([], Throws (newError "No code generated for simulation")).
Proof.
  pose proof (testCode_after_generateCode templates service (answering "")
                noKeySandbox created demoId ""
                ltac:(vm_compute; reflexivity)) as H.
  cbv zeta in H. destruct H as (H & _).
  apply (proj1 H). reflexivity.
Defined.

(** A supply of one million. *)
Lemma validateParameters_digit_supply_witness :
  In supplyMessage (errors (validateParameters "token" demoToken))
  <-> allZeros "1000000" = true.
Proof.
  apply (validateParameters_digit_supply demoToken "1000000");
    [reflexivity | discriminate | reflexivity].
Defined.

(** A supply of abc. *)
Lemma validateParameters_text_supply_witness :
  parseFloat "abc" = NaN
  /\ ~ In supplyMessage (errors (validateParameters "token" textSupplyToken)).
Proof.
  apply (validateParameters_text_supply textSupplyToken "a" "bc");
    reflexivity.
Defined.

(** Generation on the freshly created token: against a service that
    answers, and against one that answers 500. *)
Lemma generateCode_status_witness :
  generateCode_begin created demoId
  = Returns (set_status st_compiling demoSimulation,
             <[demoId := set_status st_compiling demoSimulation]> created)
  /\ (snd (fst (generateCode templates service
                  (answering "module demo::token {}") created demoId))
      = Returns "module demo::token {}"
      /\ exists stored,
           generated !! demoId = Some stored
           /\ code stored = "module demo::token {}"
           /\ status stored = st_compiling)
  /\ (snd (fst (generateCode templates service failing500 created demoId))
      = Throws (newError "OpenRouter API error: 500 Internal Server Error")
      /\ exists stored,
           snd (generateCode templates service failing500 created demoId)
             !! demoId = Some stored
           /\ status stored = st_error).
Proof.
  pose proof (generateCode_status templates service
                (answering "module demo::token {}") created demoId
                demoSimulation created_lookup) as H.
  pose proof (generateCode_status templates service failing500 created demoId
                demoSimulation created_lookup) as H'.
  cbv zeta in H, H'.
  destruct H as (Hbegin & H). destruct H' as (_ & H').
  destruct (H created_supported service_configured) as (Hok & _).
  destruct (H' created_supported service_configured) as (_ & Hfail & _).
  split; [exact Hbegin |]. split.
  - exact (Hok "module demo::token {}"
             (answering_returns "module demo::token {}")).
  - exact (Hfail _ failing500_fails).
Defined.

(** The installation cannot be started in a provisioned sandbox whose
    teardown resolves; and no key is configured. *)
Lemma testCode_reports_sandbox_error_witness :
  (environmentProvisioned stalledSandbox generated demoId = true
   /\ exists reported,
        snd (fst (testCode templates service (answering "Looks fine.")
                    stalledSandbox generated demoId)) = Returns reported
        /\ status reported = st_error
        /\ result reported = Some (failureResult "process start failed"))
  /\ exists reported,
       snd (fst (testCode templates service (answering "Looks fine.")
                   noKeySandbox generated demoId)) = Returns reported
       /\ status reported = st_error
       /\ result reported
          = Some (failureResult
                    "E2B_API_KEY is not set in environment variables.").
Proof.
  split; [split; [reflexivity |] |].
  - pose proof (testCode_reports_sandbox_error templates service
                  (answering "Looks fine.") stalledSandbox generated demoId
                  generatedSimulation (newError "process start failed")
                  generated_lookup generated_has_code) as H.
    cbv zeta in H.
    destruct H as (reported & Hret & _ & Hstatus & Hresult & _).
    + left. reflexivity.
    + right. reflexivity.
    + exists reported. split; [exact Hret |]. split; [exact Hstatus |].
      exact Hresult.
  - pose proof (testCode_reports_sandbox_error templates service
                  (answering "Looks fine.") noKeySandbox generated demoId
                  generatedSimulation
                  (newError "E2B_API_KEY is not set in environment variables.")
                  generated_lookup generated_has_code) as H.
    cbv zeta in H.
    destruct H as (reported & Hret & _ & Hstatus & Hresult & _).
    + left. reflexivity.
    + left. vm_compute. reflexivity.
    + exists reported. split; [exact Hret |]. split; [exact Hstatus |].
      exact Hresult.
Defined.

(** One teardown, last, when the sandbox was provisioned (here with a
    failing installation and a failing teardown), none without a key. *)
Lemma testCode_teardown_exactly_once_witness :
  (closeCount (fst (fst (testCode templates service (answering "Looks fine.")
                           brokenSandbox generated demoId))) = 1%nat
   /\ exists mid,
        fst (fst (testCode templates service (answering "Looks fine.")
                    brokenSandbox generated demoId))
        = (SandboxCreate :: mid ++ [SandboxClose])%list
        /\ createCount mid = 0%nat /\ closeCount mid = 0%nat)
  /\ closeCount (fst (fst (testCode templates service (answering "Looks fine.")
                             noKeySandbox generated demoId))) = 0%nat.
Proof.
  split.
  - pose proof (testCode_teardown_exactly_once templates service
                  (answering "Looks fine.") brokenSandbox generated demoId)
      as H.
    cbv zeta in H. destruct H as (_ & _ & H).
    assert (E : sandboxAssigned brokenSandbox
                  (fst (fst (testCode templates service
                               (answering "Looks fine.") brokenSandbox
                               generated demoId))) = true)
      by (vm_compute; reflexivity).
    rewrite E in H. exact H.
  - pose proof (testCode_teardown_exactly_once templates service
                  (answering "Looks fine.") noKeySandbox generated demoId)
      as H.
    cbv zeta in H. destruct H as (_ & _ & H).
    assert (E : sandboxAssigned noKeySandbox
                  (fst (fst (testCode templates service
                               (answering "Looks fine.") noKeySandbox
                               generated demoId))) = false)
      by (vm_compute; reflexivity).
    rewrite E in H. exact H.
Defined.

End MoreScenarios.
